(** * Vidya AI content pipeline: model selection, response repair,
      speech and video fallback chains, job progress.

    A shallow embedding of the orchestration layer of the backend
    ([services/ai_service_manager.py], [services/azure_speech_service.py],
    [services/video_service.py], [main.py], [models/content_models.py]).

    Python values are modelled as follows.
    - [str] is a list of Unicode code points ([list N]); [len] is [length].
    - an exception is a value of [exn]; a call that may raise returns [Res].
    - a [dict] produced by [json.loads] or by a dict display is an
      association list in insertion order with unique keys.
    - the file system is a finite map from paths to file contents; the
      processes and libraries outside the repository (pyttsx3, espeak, gTTS,
      ffmpeg, MoviePy, the Azure SDK, the text backends) are oracles in an
      environment record, one field per call site.
    - a [float] that the program computes from integers (the duration of
      the silence) is its binary64 value, held as a rational ([to_float]);
      the audio duration that MoviePy reports is a rational and the
      arithmetic of the video plan on it is exact.
    - [print] is modelled where the text shown comes from a backend reply
      ([py_print]); every other [print] shows literals, numbers, exception
      texts and paths, which are taken to be encodable. *)

From Stdlib Require Import NArith ZArith QArith Qround Qabs Qpower Lia Ascii String Sorted.
From Stdlib Require Import Floats.SpecFloat.
From stdpp Require Import base option strings list gmap.
Close Scope Q_scope.

(* ================================================================== *)
(** * Part I: definitions *)
(* ================================================================== *)

(** ** Python strings *)

Abbreviation str := (list N).

Fixpoint bytes_of_string (s : string) : list N :=
  match s with
  | EmptyString => []
  | String a r => Ascii.N_of_ascii a :: bytes_of_string r
  end.

(** Source literals are UTF-8 in the [.py] files; [u] turns a literal into
    its code points. *)
Fixpoint utf8_decode (bs : list N) : str :=
  match bs with
  | [] => []
  | b0 :: r0 =>
    if (b0 <? 128)%N then b0 :: utf8_decode r0
    else match r0 with
    | [] => [b0]
    | b1 :: r1 =>
      if (b0 <? 224)%N
      then ((b0 mod 32) * 64 + b1 mod 64)%N :: utf8_decode r1
      else match r1 with
      | [] => [b0]
      | b2 :: r2 =>
        if (b0 <? 240)%N
        then ((b0 mod 16) * 4096 + (b1 mod 64) * 64 + b2 mod 64)%N
               :: utf8_decode r2
        else match r2 with
        | [] => [b0]
        | b3 :: r3 =>
          ((b0 mod 8) * 262144 + (b1 mod 64) * 4096
           + (b2 mod 64) * 64 + b3 mod 64)%N :: utf8_decode r3
        end
      end
    end
  end.

Definition u (s : string) : str := utf8_decode (bytes_of_string s).

Definition str_eqb (a b : str) : bool := bool_decide (a = b).

(** [needle == s[:len(needle)]] *)
Fixpoint startswith (needle s : str) : bool :=
  match needle, s with
  | [], _ => true
  | _ :: _, [] => false
  | a :: n', b :: s' => (a =? b)%N && startswith n' s'
  end.

(** [needle in s] for two strings. *)
Fixpoint contains (needle s : str) : bool :=
  startswith needle s ||
  match s with
  | [] => false
  | _ :: s' => contains needle s'
  end.

(** [s.find(needle, start)] for [0 <= start]; [None] stands for [-1]. *)
Fixpoint find_at (needle s : str) (pos : nat) : option nat :=
  if startswith needle s then Some pos
  else match s with
       | [] => None
       | _ :: s' => find_at needle s' (S pos)
       end.

Definition find_from (needle s : str) (start : nat) : option nat :=
  if decide (start <= length s)%nat then find_at needle (drop start s) start
  else None.

(** [s[start:stop]] where [stop] is the result of a [find]: the index found,
    or [-1], which as a slice bound means "all but the last character". *)
Definition slice_find (s : str) (start : nat) (stop : option nat) : str :=
  match stop with
  | Some e => take (e - start) (drop start s)
  | None => take (length s - 1 - start) (drop start s)
  end.

(** [str.isspace] on one character, the set CPython uses for [strip],
    [split()] and the regular expression class [\s]. *)
Definition is_space (c : N) : bool :=
  ((9 <=? c) && (c <=? 13) || (28 <=? c) && (c <=? 32)
   || (c =? 133) || (c =? 160) || (c =? 5760)
   || (8192 <=? c) && (c <=? 8202) || (c =? 8232) || (c =? 8233)
   || (c =? 8239) || (c =? 8287) || (c =? 12288))%N.

Fixpoint lstrip (s : str) : str :=
  match s with
  | [] => []
  | c :: s' => if is_space c then lstrip s' else s
  end.

Definition rstrip (s : str) : str := reverse (lstrip (reverse s)).

Definition strip (s : str) : str := rstrip (lstrip s).

(** [s.split()]: the maximal runs of non-space characters. *)
Fixpoint split_ws_go (cur : str) (s : str) : list str :=
  match s with
  | [] => match cur with [] => [] | _ => [reverse cur] end
  | c :: s' =>
    if is_space c
    then match cur with
         | [] => split_ws_go [] s'
         | _ => reverse cur :: split_ws_go [] s'
         end
    else split_ws_go (c :: cur) s'
  end.

Definition split_ws (s : str) : list str := split_ws_go [] s.

Definition cons_head (c : N) (l : list str) : list str :=
  match l with
  | [] => [[c]]
  | h :: t => (c :: h) :: t
  end.

(** [s.split(sep)] for a one-character separator. *)
Fixpoint split1 (a : N) (s : str) : list str :=
  match s with
  | [] => [[]]
  | c :: s' => if (c =? a)%N then [] :: split1 a s' else cons_head c (split1 a s')
  end.

(** [s.split(sep)] for a two-character separator [a b]: leftmost,
    non-overlapping occurrences. *)
Fixpoint split2 (a b : N) (s : str) : list str :=
  match s with
  | [] => [[]]
  | c :: s' =>
    match s' with
    | c2 :: s'' =>
      if (c =? a)%N && (c2 =? b)%N then [] :: split2 a b s''
      else cons_head c (split2 a b s')
    | [] => [[c]]
    end
  end.

(** [sep.join(l)] *)
Fixpoint join (sep : str) (l : list str) : str :=
  match l with
  | [] => []
  | [x] => x
  | x :: r => x ++ sep ++ join sep r
  end.

(** [s.replace(old, new)] for a non-empty [old]: leftmost, non-overlapping
    occurrences; [skip] counts the characters of a match still to drop. *)
Fixpoint replace_go (old new : str) (skip : nat) (s : str) : str :=
  match s with
  | [] => []
  | c :: s' =>
    match skip with
    | S k => replace_go old new k s'
    | O =>
      if startswith old s then new ++ replace_go old new (length old - 1) s'
      else c :: replace_go old new 0 s'
    end
  end.

Definition str_replace (old new : str) (s : str) : str := replace_go old new 0 s.

Definition nl : str := [10%N].

Definition endswith1 (a : N) (s : str) : bool :=
  match reverse s with
  | c :: _ => (c =? a)%N
  | [] => false
  end.

(** Decimal rendering of a number, as [str(n)] and f-strings print it. *)
Fixpoint digits_fuel (fuel : nat) (n : N) (acc : str) : str :=
  match fuel with
  | O => acc
  | S f =>
    let acc' := (48 + n mod 10)%N :: acc in
    if (n <? 10)%N then acc' else digits_fuel f (n / 10)%N acc'
  end.

Definition str_of_N (n : N) : str := digits_fuel (S (N.to_nat (N.log2 n))) n [].
Definition str_of_nat (n : nat) : str := str_of_N (N.of_nat n).

(** ** Exceptions and results *)

Inductive exn :=
| ValueError (msg : str)
| TypeError (msg : str)
| AttributeError (msg : str)
| KeyError (msg : str)
| FileNotFoundError (msg : str)
| ImportError (msg : str)
| TimeoutError (msg : str)
| OSError (msg : str)
| UnicodeEncodeError (msg : str)
| HTTPException (status_code : Z) (detail : str)
| Exception (msg : str).

(** [str(e)] *)
Definition exn_text (e : exn) : str :=
  match e with
  | ValueError m | TypeError m | AttributeError m | FileNotFoundError m
  | ImportError m | TimeoutError m | OSError m | UnicodeEncodeError m
  | Exception m => m
  | KeyError m => u "'" ++ m ++ u "'"
  | HTTPException _ detail => detail
  end.

(** [except ImportError] and [except FileNotFoundError] clauses. *)
Definition is_ImportError (e : exn) : bool :=
  match e with ImportError _ => true | _ => false end.

Inductive Res (A : Type) :=
| Ok (a : A)
| Raise (e : exn).
Arguments Ok {A} a.
Arguments Raise {A} e.

Definition res_bind {A B} (r : Res A) (k : A -> Res B) : Res B :=
  match r with
  | Ok a => k a
  | Raise e => Raise e
  end.

Declare Scope res_scope.
Delimit Scope res_scope with res.
Notation "'let?' x := r 'in' k" := (res_bind r (fun x => k))
  (at level 10, x name, r at level 100, k at level 200) : res_scope.
Open Scope res_scope.

(** [print(s)]: standard output encodes its text as UTF-8, which has no
    encoding for a lone surrogate (a code point from U+D800 to U+DFFF); the
    call then raises. *)
Definition is_surrogate (c : N) : bool := ((55296 <=? c) && (c <=? 57343))%N.

Definition py_print (s : str) : Res unit :=
  if existsb is_surrogate s
  then Raise (UnicodeEncodeError
                (u "'utf-8' codec can't encode character: surrogates not allowed"))
  else Ok tt.

Definition returns {A} (r : Res A) : Prop := exists a, r = Ok a.

Fixpoint mapM {A B} (f : A -> Res B) (l : list A) : Res (list B) :=
  match l with
  | [] => Ok []
  | x :: r => let? y := f x in let? ys := mapM f r in Ok (y :: ys)
  end.

(** ** Python values as [json.loads] builds them *)

(** Numbers keep the text of their literal: the code below never inspects
    them. *)
#[local] Set Warnings "-register-all".
Inductive json :=
| JNull
| JBool (b : bool)
| JNum (lit : str)
| JStr (s : str)
| JList (l : list json)
| JDict (kv : list (str * json)).

Fixpoint dict_get (k : str) (kv : list (str * json)) : option json :=
  match kv with
  | [] => None
  | (k', v) :: r => if str_eqb k k' then Some v else dict_get k r
  end.

(** [d[k] = v]: an existing key keeps its position. *)
Fixpoint dict_set (k : str) (v : json) (kv : list (str * json))
  : list (str * json) :=
  match kv with
  | [] => [(k, v)]
  | (k', v') :: r =>
    if str_eqb k k' then (k, v) :: r else (k', v') :: dict_set k v r
  end.

Definition is_JStr (s : str) (v : json) : bool :=
  match v with
  | JStr s' => str_eqb s s'
  | _ => false
  end.

(** [needle in v], [needle] a string. *)
Definition py_in (needle : str) (v : json) : Res bool :=
  match v with
  | JDict kv => Ok (bool_decide (is_Some (dict_get needle kv)))
  | JList l => Ok (existsb (is_JStr needle) l)
  | JStr s => Ok (contains needle s)
  | _ => Raise (TypeError (u "argument is not iterable"))
  end.

(** [v[k]], [k] a string. *)
Definition py_getitem (v : json) (k : str) : Res json :=
  match v with
  | JDict kv =>
    match dict_get k kv with
    | Some x => Ok x
    | None => Raise (KeyError k)
    end
  | JList _ => Raise (TypeError (u "list indices must be integers or slices, not str"))
  | JStr _ => Raise (TypeError (u "string indices must be integers"))
  | _ => Raise (TypeError (u "object is not subscriptable"))
  end.

(** [v[k] = x], [k] a string. *)
Definition py_setitem (v : json) (k : str) (x : json) : Res json :=
  match v with
  | JDict kv => Ok (JDict (dict_set k x kv))
  | JList _ => Raise (TypeError (u "list indices must be integers or slices, not str"))
  | _ => Raise (TypeError (u "object does not support item assignment"))
  end.

(** [for x in v] *)
Definition py_iter (v : json) : Res (list json) :=
  match v with
  | JList l => Ok l
  | JDict kv => Ok (map (fun p => JStr (fst p)) kv)
  | JStr s => Ok (map (fun c => JStr [c]) s)
  | _ => Raise (TypeError (u "object is not iterable"))
  end.

(** [v.get(k, default)] on a dict. *)
Definition py_get (v : json) (k : str) (default : json) : json :=
  match v with
  | JDict kv => match dict_get k kv with Some x => x | None => default end
  | _ => default
  end.

(** ** The Python runtime the service calls into

    [str.lower], [str.isupper] and [str.upper] follow the Unicode character
    database and [json.loads] is the standard decoder; none of them is code
    of this repository. They are taken as an interface; [ascii_runtime]
    below is an executable instance. [json_loads] returns [None] where the
    decoder raises [JSONDecodeError]. *)
Class PyRuntime := {
  str_lower : str -> str;
  chr_isupper : N -> bool;
  chr_upper : N -> str;
  json_loads : str -> option json;
  (** [str(v)], as an f-string prints a value *)
  py_format : json -> str;
  (** [str(l)] for a list of strings *)
  py_format_list : list str -> str
}.

(** ** [ai_service_manager.py]: formatting helpers *)

Section Formatting.
Context `{PyRuntime}.

(** [if s and not s[0].isupper(): s = s[0].upper() + s[1:]] *)
Definition capitalize_first (s : str) : str :=
  match s with
  | [] => []
  | c :: r => if chr_isupper c then s else chr_upper c ++ r
  end.

(** [while '\n\n\n' in content: content = content.replace(...)]; every
    round shortens the string, so [length s] rounds are enough. *)
Fixpoint collapse_newlines (fuel : nat) (s : str) : str :=
  match fuel with
  | O => s
  | S f =>
    if contains (nl ++ nl ++ nl) s
    then collapse_newlines f (str_replace (nl ++ nl ++ nl) (nl ++ nl) s)
    else s
  end.

Definition format_sentences (sentences : list str) : list str :=
  omap (fun sentence =>
          let sentence := strip sentence in
          match sentence with
          | [] => None
          | _ => Some (capitalize_first sentence)
          end) sentences.

Definition _format_section_content (content : str) : str :=
  let content := str_replace (u ". ") (u "." ++ nl ++ nl) content in
  let content := str_replace (u "! ") (u "!" ++ nl ++ nl) content in
  let content := str_replace (u "? ") (u "?" ++ nl ++ nl) content in
  let content := collapse_newlines (length content) content in
  let sentences := split1 46 content in
  let content := join (u ". ") (format_sentences sentences) in
  match content with
  | [] => content
  | _ => if endswith1 46 content then content else content ++ [46]%N
  end.

Definition _format_key_point (point : str) : str :=
  let point := strip point in
  let point := capitalize_first point in
  match point with
  | [] => point
  | _ => if endswith1 46 point then point else point ++ [46]%N
  end.

Definition _format_full_explanation (explanation : str) : str :=
  let explanation := str_replace (u ". ") (u ". ") explanation in
  let explanation := str_replace (u ", ") (u ", ") explanation in
  let explanation := str_replace (u "  ") (u " ") explanation in
  strip explanation.

(** A method of [str] called on a value parsed from the response: any
    other type has no such attribute. *)
Definition on_str (f : str -> str) (v : json) : Res json :=
  match v with
  | JStr s => Ok (JStr (f s))
  | _ => Raise (AttributeError (u "object has no such attribute"))
  end.

(** The body of [for section in data["sections"]]. *)
Definition enhance_section (section : json) : Res json :=
  let? has_content := py_in (u "content") section in
  let? section :=
    (if has_content : bool then
       let? c := py_getitem section (u "content") in
       let? c := on_str _format_section_content c in
       py_setitem section (u "content") c
     else Ok section) in
  let? has_points := py_in (u "key_points") section in
  if has_points : bool then
    let? kp := py_getitem section (u "key_points") in
    let? points := py_iter kp in
    let? points := mapM (on_str _format_key_point) points in
    py_setitem section (u "key_points") (JList points)
  else Ok section.

(** The sections are updated in place: when [data["sections"]] is a list
    its elements are the objects the loop mutates; the keys of a dict and
    the characters of a string are fresh immutable strings. *)
Definition _enhance_content_formatting (data : json) (topic : str) : Res json :=
  let? has_sections := py_in (u "sections") data in
  let? data :=
    (if has_sections : bool then
       let? secs := py_getitem data (u "sections") in
       let? items := py_iter secs in
       let? items := mapM enhance_section items in
       match secs with
       | JList _ => py_setitem data (u "sections") (JList items)
       | _ => Ok data
       end
     else Ok data) in
  let? has_full := py_in (u "full_explanation") data in
  if has_full : bool then
    let? e := py_getitem data (u "full_explanation") in
    let? e := on_str _format_full_explanation e in
    py_setitem data (u "full_explanation") e
  else Ok data.

End Formatting.

(** ** [ai_service_manager.py]: fallback templates

    The four dict displays of the source, key for key; an f-string is the
    concatenation of its literal parts and its arguments. *)

Definition _create_ai_fallback_content (topic difficulty audience : str) : json :=
  JDict [
    (u "summary",
      JStr (u "Artificial Intelligence (AI) is revolutionizing how we interact with technology and solve complex problems. This "
            ++ difficulty
            ++ u " level explanation is designed for "
            ++ audience
            ++ u "."));
    (u "key_concepts",
      JList [
        JStr (u "What is Artificial Intelligence");
        JStr (u "Machine Learning and Deep Learning");
        JStr (u "AI Applications in Daily Life");
        JStr (u "The Future of AI") ]);
    (u "sections",
      JList [
        JDict [
          (u "title",
            JStr (u "🤖 What is Artificial Intelligence?"));
          (u "subheading",
            JStr (u "**What is Artificial Intelligence?**"));
          (u "content",
            JStr (u "Artificial Intelligence refers to computer systems that can perform tasks requiring human intelligence. These systems can learn, reason, and solve problems. AI analyzes data to recognize patterns and make decisions. It powers many technologies we use daily."));
          (u "key_points",
            JList [
              JStr (u "• Mimics human intelligence in machines");
              JStr (u "• Learns from data and experience");
              JStr (u "• Widely used in technology today");
              JStr (u "• Powers voice assistants and apps") ]);
          (u "visual_description",
            JStr (u "Visual: Animated brain connecting to computer with data flow"));
          (u "duration_estimate",
            JNum (u "60")) ];
        JDict [
          (u "title",
            JStr (u "🧠 Machine Learning and Deep Learning"));
          (u "subheading",
            JStr (u "**How do machines learn?**"));
          (u "content",
            JStr (u "Machine Learning helps computers improve through experience without explicit programming. Deep Learning uses neural networks inspired by the human brain. These systems process vast amounts of data automatically. They enable modern AI applications we use today."));
          (u "key_points",
            JList [
              JStr (u "• Computers learn from data automatically");
              JStr (u "• Neural networks mimic brain structure");
              JStr (u "• Powers image and speech recognition");
              JStr (u "• Enables modern AI applications") ]);
          (u "visual_description",
            JStr (u "Visual: Animated neural network with nodes and connections showing data processing"));
          (u "duration_estimate",
            JNum (u "70")) ];
        JDict [
          (u "title",
            JStr (u "📱 AI Applications in Daily Life"));
          (u "subheading",
            JStr (u "**Where do we see AI today?**"));
          (u "content",
            JStr (u "AI works behind the scenes in many daily technologies. Smartphones use AI for facial recognition and voice commands. Streaming services recommend content using AI. Navigation apps find routes and predict traffic with AI."));
          (u "key_points",
            JList [
              JStr (u "• Powers smartphone features and apps");
              JStr (u "• Recommendation systems use AI");
              JStr (u "• Transforms healthcare and transportation");
              JStr (u "• Works behind the scenes daily") ]);
          (u "visual_description",
            JStr (u "Visual: Collage of AI applications showing smartphone, medical equipment, self-driving car, and streaming interface"));
          (u "duration_estimate",
            JNum (u "65")) ] ]);
    (u "full_explanation",
      JStr (u "Welcome to our exploration of Artificial Intelligence! AI is one of the most exciting and rapidly evolving fields in technology today. We'll discover how AI works, where it's already being used, and what the future might hold. Whether you're a "
            ++ audience
            ++ u " interested in technology or just curious about how your smartphone seems to 'know' what you want, this "
            ++ difficulty
            ++ u " level explanation will give you a solid understanding of AI and its impact on our world."));
    (u "estimated_duration",
      JNum (u "195"));
    (u "topic",
      JStr topic) ].

Definition _create_science_fallback_content (topic difficulty audience : str) : json :=
  JDict [
    (u "summary",
      JStr (u "Science helps us understand the natural world through observation, experimentation, and logical reasoning. This "
            ++ difficulty
            ++ u " level explanation of "
            ++ topic
            ++ u " is designed for "
            ++ audience
            ++ u "."));
    (u "key_concepts",
      JList [
        JStr (u "Understanding "
              ++ topic);
        JStr (u "Scientific principles behind "
              ++ topic);
        JStr (u "Real-world applications of "
              ++ topic);
        JStr (u "Future developments in "
              ++ topic) ]);
    (u "sections",
      JList [
        JDict [
          (u "title",
            JStr (u "Introduction to "
                  ++ topic));
          (u "content",
            JStr (u "Science is our way of understanding the natural world through careful observation and experimentation. "
                  ++ topic
                  ++ u " is a fascinating area of scientific study that helps us understand how things work."
                  ++ nl
                  ++ nl
                  ++ u "Through scientific methods, we can discover the underlying principles that govern "
                  ++ topic
                  ++ u " and use this knowledge to solve problems and improve our lives."));
          (u "key_points",
            JList [
              JStr (topic
                    ++ u " is based on scientific principles");
              JStr (u "Observation and experimentation are key");
              JStr (u "Scientific knowledge helps solve real problems") ]);
          (u "visual_description",
            JStr (u "Scientific laboratory setting with equipment and diagrams related to "
                  ++ topic));
          (u "duration_estimate",
            JNum (u "50")) ];
        JDict [
          (u "title",
            JStr (u "Key Scientific Principles"));
          (u "content",
            JStr (u "The study of "
                  ++ topic
                  ++ u " is built on fundamental scientific principles that have been tested and verified through experiments. These principles help us predict how "
                  ++ topic
                  ++ u " will behave under different conditions."
                  ++ nl
                  ++ nl
                  ++ u "Understanding these principles allows scientists and engineers to develop new technologies and applications that benefit society."));
          (u "key_points",
            JList [
              JStr (u "Scientific principles govern "
                    ++ topic);
              JStr (u "Experiments verify these principles");
              JStr (u "Principles enable technological development") ]);
          (u "visual_description",
            JStr (u "Animated diagrams showing the scientific principles behind "
                  ++ topic));
          (u "duration_estimate",
            JNum (u "55")) ];
        JDict [
          (u "title",
            JStr (u "Applications and Impact"));
          (u "content",
            JStr (u "The knowledge gained from studying "
                  ++ topic
                  ++ u " has led to many practical applications that affect our daily lives. From medical treatments to environmental solutions, the applications of "
                  ++ topic
                  ++ u " are vast and growing."
                  ++ nl
                  ++ nl
                  ++ u "As our understanding deepens, we continue to find new ways to apply this knowledge for the benefit of humanity and the planet."));
          (u "key_points",
            JList [
              JStr (topic
                    ++ u " has many practical applications");
              JStr (u "Applications improve our daily lives");
              JStr (u "New applications are constantly being developed") ]);
          (u "visual_description",
            JStr (u "Real-world examples showing applications of "
                  ++ topic
                  ++ u " in various fields"));
          (u "duration_estimate",
            JNum (u "50")) ] ]);
    (u "full_explanation",
      JStr (u "Science is our greatest tool for understanding the world around us. Through the study of "
            ++ topic
            ++ u ", we gain insights into how the natural world works and how we can use this knowledge to improve our lives. This "
            ++ difficulty
            ++ u " level explanation is designed for "
            ++ audience
            ++ u " who want to understand the scientific principles behind "
            ++ topic
            ++ u " and see how this knowledge is applied in the real world."));
    (u "estimated_duration",
      JNum (u "155"));
    (u "topic",
      JStr topic) ].

Definition _create_history_fallback_content (topic difficulty audience : str) : json :=
  JDict [
    (u "summary",
      JStr (u "History helps us understand how past events have shaped our world today. This "
            ++ difficulty
            ++ u " level exploration of "
            ++ topic
            ++ u " is designed for "
            ++ audience
            ++ u "."));
    (u "key_concepts",
      JList [
        JStr (u "Historical context of "
              ++ topic);
        JStr (u "Key events and figures");
        JStr (u "Impact on the modern world");
        JStr (u "Lessons from history") ]);
    (u "sections",
      JList [
        JDict [
          (u "title",
            JStr (u "Historical Background of "
                  ++ topic));
          (u "content",
            JStr (u "Understanding "
                  ++ topic
                  ++ u " requires us to look at the historical context in which it occurred. History is not just about dates and facts, but about understanding the causes and effects of events."
                  ++ nl
                  ++ nl
                  ++ u "By studying the past, we can better understand the present and make more informed decisions about the future."));
          (u "key_points",
            JList [
              JStr (topic
                    ++ u " occurred in a specific historical context");
              JStr (u "Understanding causes and effects is important");
              JStr (u "History helps us understand the present") ]);
          (u "visual_description",
            JStr (u "Historical timeline and maps showing the context of "
                  ++ topic));
          (u "duration_estimate",
            JNum (u "55")) ];
        JDict [
          (u "title",
            JStr (u "Key Events and Figures"));
          (u "content",
            JStr (u "The story of "
                  ++ topic
                  ++ u " involves many important events and influential people who shaped its course. These individuals and events had lasting impacts that we still feel today."
                  ++ nl
                  ++ nl
                  ++ u "By studying these key figures and events, we can understand how decisions made in the past continue to influence our world."));
          (u "key_points",
            JList [
              JStr (u "Important figures played key roles in "
                    ++ topic);
              JStr (u "Major events shaped the course of history");
              JStr (u "Past decisions still influence us today") ]);
          (u "visual_description",
            JStr (u "Portraits of key figures and scenes from important events in "
                  ++ topic));
          (u "duration_estimate",
            JNum (u "60")) ];
        JDict [
          (u "title",
            JStr (u "Impact on the Modern World"));
          (u "content",
            JStr (u "The events and developments related to "
                  ++ topic
                  ++ u " have had lasting effects that continue to shape our world today. Understanding these connections helps us see how the past influences the present."
                  ++ nl
                  ++ nl
                  ++ u "By learning from history, we can better understand current events and make more informed decisions about the future."));
          (u "key_points",
            JList [
              JStr (topic
                    ++ u " continues to influence the modern world");
              JStr (u "Understanding history helps with current events");
              JStr (u "We can learn valuable lessons from the past") ]);
          (u "visual_description",
            JStr (u "Modern world connections showing how "
                  ++ topic
                  ++ u " influences today's society"));
          (u "duration_estimate",
            JNum (u "55")) ] ]);
    (u "full_explanation",
      JStr (u "History is more than just a record of past events - it's a guide to understanding our world today. Through exploring "
            ++ topic
            ++ u ", we'll discover how past events, decisions, and people have shaped the world we live in. This "
            ++ difficulty
            ++ u " level explanation is designed for "
            ++ audience
            ++ u " who want to understand not just what happened, but why it matters today."));
    (u "estimated_duration",
      JNum (u "170"));
    (u "topic",
      JStr topic) ].

Definition _create_general_fallback_content (topic difficulty audience : str) : json :=
  JDict [
    (u "summary",
      JStr (u "Welcome to our comprehensive explanation of "
            ++ topic
            ++ u ". This "
            ++ difficulty
            ++ u " level content is designed for "
            ++ audience
            ++ u "."));
    (u "key_concepts",
      JList [
        JStr (u "Understanding "
              ++ topic);
        JStr (u "Key principles of "
              ++ topic);
        JStr (u "Applications of "
              ++ topic);
        JStr (u "Real-world examples") ]);
    (u "sections",
      JList [
        JDict [
          (u "title",
            JStr (u "🌍 Explain "
                  ++ topic));
          (u "subheading",
            JStr (u "**What is "
                  ++ topic
                  ++ u "?**"));
          (u "content",
            JStr (topic
                  ++ u " is a fundamental concept that affects our daily lives. It helps us understand how things work in the world around us. Learning about "
                  ++ topic
                  ++ u " opens new perspectives and connections. This knowledge is essential for understanding many other subjects."));
          (u "key_points",
            JList [
              JStr (u "• "
                    ++ topic
                    ++ u " affects daily life");
              JStr (u "• Helps understand how things work");
              JStr (u "• Opens new perspectives");
              JStr (u "• Essential for other subjects") ]);
          (u "visual_description",
            JStr (u "Visual: Animated diagram showing "
                  ++ topic
                  ++ u " in action with clear, engaging graphics"));
          (u "duration_estimate",
            JNum (u "45")) ];
        JDict [
          (u "title",
            JStr (u "🔬 How "
                  ++ topic
                  ++ u " Works"));
          (u "subheading",
            JStr (u "**What are the key principles?**"));
          (u "content",
            JStr (u "The key principles of "
                  ++ topic
                  ++ u " form the foundation of our understanding. These principles work together to create the effects we observe. Understanding these principles helps us predict and explain behavior. They connect to many other areas of knowledge."));
          (u "key_points",
            JList [
              JStr (u "• Key principles of "
                    ++ topic);
              JStr (u "• How principles work together");
              JStr (u "• Helps predict behavior");
              JStr (u "• Connects to other knowledge") ]);
          (u "visual_description",
            JStr (u "Visual: Animated diagrams showing the key principles of "
                  ++ topic
                  ++ u " with clear visual representations"));
          (u "duration_estimate",
            JNum (u "50")) ];
        JDict [
          (u "title",
            JStr (u "🌐 Real-World Applications"));
          (u "subheading",
            JStr (u "**Where do we see "
                  ++ topic
                  ++ u "?**"));
          (u "content",
            JStr (topic
                  ++ u " appears in many real-world situations and applications. It's used in technology, medicine, and everyday life. Understanding these applications shows why "
                  ++ topic
                  ++ u " matters. This knowledge helps us solve problems and make decisions."));
          (u "key_points",
            JList [
              JStr (u "• "
                    ++ topic
                    ++ u " in technology");
              JStr (u "• Used in medicine");
              JStr (u "• Appears in daily life");
              JStr (u "• Helps solve problems") ]);
          (u "visual_description",
            JStr (u "Visual: Real-world examples and scenarios showing "
                  ++ topic
                  ++ u " in action"));
          (u "duration_estimate",
            JNum (u "45")) ] ]);
    (u "full_explanation",
      JStr (u "Welcome to our comprehensive exploration of "
            ++ topic
            ++ u ". Today, we'll take a journey through this fascinating subject, designed specifically for "
            ++ audience
            ++ u " at a "
            ++ difficulty
            ++ u " level. "
            ++ topic
            ++ u " is more than just a concept - it's a way of understanding the world around us. We'll start with the basics, build up to more complex ideas, and see how this knowledge applies in real life. By the end of our time together, you'll have a solid foundation in "
            ++ topic
            ++ u " and understand why it matters."));
    (u "estimated_duration",
      JNum (u "140"));
    (u "topic",
      JStr topic) ].

Section ResponseHandling.
Context `{PyRuntime}.

Definition _create_fallback_content (topic difficulty audience : str) : json :=
  if contains (u "ai") (str_lower topic)
     || contains (u "artificial intelligence") (str_lower topic)
  then _create_ai_fallback_content topic difficulty audience
  else if contains (u "science") (str_lower topic)
          || contains (u "physics") (str_lower topic)
          || contains (u "chemistry") (str_lower topic)
  then _create_science_fallback_content topic difficulty audience
  else if contains (u "history") (str_lower topic)
          || contains (u "war") (str_lower topic)
  then _create_history_fallback_content topic difficulty audience
  else _create_general_fallback_content topic difficulty audience.

(** ** [ai_service_manager.py]: response repair *)

(** The text between the first fence and the next one; [x in content] holds
    exactly when [content.find(x)] is not [-1]. *)
Definition extract_json (content : str) : str :=
  match find_from (u "```json") content 0 with
  | Some i =>
    let json_start := (i + 7)%nat in
    let json_end := find_from (u "```") content json_start in
    strip (slice_find content json_start json_end)
  | None =>
    match find_from (u "```") content 0 with
    | Some i =>
      let json_start := (i + 3)%nat in
      let json_end := find_from (u "```") content json_start in
      strip (slice_find content json_start json_end)
    | None => strip content
    end
  end.

(** [re.sub(r'[\x00-\x08\x0b\x0c\x0e-\x1f\x7f-\x9f]', '', s)] *)
Definition is_control (c : N) : bool :=
  ((c <=? 8) || (c =? 11) || (c =? 12) || (14 <=? c) && (c <=? 31)
   || (127 <=? c) && (c <=? 159))%N.

Definition remove_control (s : str) : str :=
  filter (fun c => is_control c = false) s.

(** [re.sub(r',(\s*[}\]])', r'\1', s)]: a comma is dropped when only
    white space separates it from a closing brace or bracket. *)
Definition closes_after_space (s : str) : bool :=
  match lstrip s with
  | c :: _ => ((c =? 125) || (c =? 93))%N
  | [] => false
  end.

Fixpoint remove_trailing_commas (s : str) : str :=
  match s with
  | [] => []
  | c :: s' =>
    if (c =? 44)%N && closes_after_space s'
    then remove_trailing_commas s'
    else c :: remove_trailing_commas s'
  end.

Definition clean_json (content : str) : str :=
  strip (remove_trailing_commas (remove_control (extract_json content))).

(** The [try] block of [_parse_enhanced_response]. *)
Definition parse_body (content : str) (topic : str) : Res json :=
  match json_loads (clean_json content) with
  | None => Raise (ValueError (u "JSONDecodeError"))
  | Some data => _enhance_content_formatting data topic
  end.

(** The second and the third [print] of the handler: they show the first
    500 characters of the reply and of the cleaned text, which
    the [try] block has always assigned by the time it can raise. The
    first [print] shows the text of the exception, which is made of
    literals and type names only. *)
Definition print_previews (content : str) : Res unit :=
  let? _ := py_print (u "Content preview: " ++ take 500 content ++ u "...") in
  py_print (u "Cleaned JSON preview: " ++ take 500 (clean_json content) ++ u "...").

(** [content] is [message.content] of the backend reply, which may be
    [None]: the [try] block then raises on its first test and so does
    [content[:500]] in the handler. The handler is not guarded: when one
    of its [print] calls raises, the method raises. *)
Definition _parse_enhanced_response (content : option str) (topic : str)
  : Res json :=
  match content with
  | None => Raise (TypeError (u "'NoneType' object is not subscriptable"))
  | Some content =>
    match parse_body content topic with
    | Ok data => Ok data
    | Raise _ =>
      let? _ := print_previews content in
      Ok (_create_fallback_content topic (u "beginner") (u "students"))
    end
  end.

End ResponseHandling.

(** ** An executable runtime

    A decoder for the JSON grammar as [json.loads] reads it (strict mode:
    no control character inside a string; [NaN] and [Infinity] accepted),
    and the ASCII part of the case mappings. It is used to run the model on
    concrete inputs. *)

Definition is_json_ws (c : N) : bool :=
  ((c =? 32) || (c =? 9) || (c =? 10) || (c =? 13))%N.

Fixpoint skip_ws (s : str) : str :=
  match s with
  | c :: r => if is_json_ws c then skip_ws r else s
  | [] => []
  end.

Definition hex_digit (c : N) : option N :=
  if ((48 <=? c) && (c <=? 57))%N then Some (c - 48)%N
  else if ((97 <=? c) && (c <=? 102))%N then Some (c - 87)%N
  else if ((65 <=? c) && (c <=? 70))%N then Some (c - 55)%N
  else None.

Definition hex4 (a b c d : N) : option N :=
  a ← hex_digit a; b ← hex_digit b; c ← hex_digit c; d ← hex_digit d;
  Some (a * 4096 + b * 256 + c * 16 + d)%N.

Definition unescape (c : N) : option N :=
  if (c =? 34)%N then Some 34%N
  else if (c =? 92)%N then Some 92%N
  else if (c =? 47)%N then Some 47%N
  else if (c =? 98)%N then Some 8%N
  else if (c =? 102)%N then Some 12%N
  else if (c =? 110)%N then Some 10%N
  else if (c =? 114)%N then Some 13%N
  else if (c =? 116)%N then Some 9%N
  else None.

(** The low half of a surrogate pair, when the text continues with one. *)
Definition low_surrogate (s : str) : option (N * str) :=
  match s with
  | 92%N :: 117%N :: a :: b :: c :: d :: r =>
    lo ← hex4 a b c d;
    if ((56320 <=? lo) && (lo <=? 57343))%N then Some (lo, r) else None
  | _ => None
  end.

(** [scanstring], from the character after the opening quote. *)
Fixpoint scan_string (s : str) (acc : str) : option (str * str) :=
  match s with
  | [] => None
  | c :: r =>
    if (c =? 34)%N then Some (reverse acc, r)
    else if (c =? 92)%N then
      match r with
      | [] => None
      | e :: r1 =>
        if (e =? 117)%N then
          match r1 with
          | a :: b :: c :: d :: r2 =>
            match hex4 a b c d with
            | None => None
            | Some hi =>
              if ((55296 <=? hi) && (hi <=? 56319))%N then
                match r2 with
                | 92%N :: 117%N :: a' :: b' :: c' :: d' :: r3 =>
                  match low_surrogate r2 with
                  | Some (lo, _) =>
                    scan_string r3
                      ((65536 + (hi - 55296) * 1024 + (lo - 56320))%N :: acc)
                  | None => scan_string r2 (hi :: acc)
                  end
                | _ => scan_string r2 (hi :: acc)
                end
              else scan_string r2 (hi :: acc)
            end
          | _ => None
          end
        else
          match unescape e with
          | Some x => scan_string r1 (x :: acc)
          | None => None
          end
      end
    else if (c <? 32)%N then None
    else scan_string r (c :: acc)
  end.

Definition is_digit (c : N) : bool := ((48 <=? c) && (c <=? 57))%N.

Fixpoint span_digits (s : str) : str * str :=
  match s with
  | c :: r =>
    if is_digit c then let '(d, r') := span_digits r in (c :: d, r')
    else ([], s)
  | [] => ([], [])
  end.

(** A number literal: an optional minus sign, [0] or a digit string that
    does not start with [0], then an optional fraction and an optional
    exponent, each taken only when at least one digit follows. *)
Definition scan_number (s : str) : option (str * str) :=
  let '(sign, s1) :=
    match s with
    | 45%N :: r => ([45%N], r)
    | _ => ([], s)
    end in
  let int_part :=
    match s1 with
    | 48%N :: r => Some ([48%N], r)
    | c :: _ =>
      if is_digit c then Some (span_digits s1) else None
    | [] => None
    end in
  match int_part with
  | None => None
  | Some (ip, r) =>
    let '(frac, r) :=
      match r with
      | 46%N :: r1 =>
        match span_digits r1 with
        | ([], _) => ([], r)
        | (d, r2) => (46%N :: d, r2)
        end
      | _ => ([], r)
      end in
    let '(ex, r) :=
      match r with
      | e :: r1 =>
        if ((e =? 101) || (e =? 69))%N then
          let '(sg, r2) :=
            match r1 with
            | g :: r2 =>
              if ((g =? 43) || (g =? 45))%N then ([g], r2) else ([], r1)
            | [] => ([], r1)
            end in
          match span_digits r2 with
          | ([], _) => ([], r)
          | (d, r3) => (e :: sg ++ d, r3)
          end
        else ([], r)
      | [] => ([], r)
      end in
    Some (sign ++ ip ++ frac ++ ex, r)
  end.

Definition scan_literal (s : str) : option (json * str) :=
  if startswith (u "null") s then Some (JNull, drop 4 s)
  else if startswith (u "true") s then Some (JBool true, drop 4 s)
  else if startswith (u "false") s then Some (JBool false, drop 5 s)
  else if startswith (u "NaN") s then Some (JNum (u "NaN"), drop 3 s)
  else if startswith (u "Infinity") s then Some (JNum (u "Infinity"), drop 8 s)
  else if startswith (u "-Infinity") s then Some (JNum (u "-Infinity"), drop 9 s)
  else '(n, r) ← scan_number s; Some (JNum n, r).

Fixpoint scan_once (fuel : nat) (s : str) : option (json * str) :=
  match fuel with
  | O => None
  | S f =>
    match s with
    | [] => None
    | c :: r =>
      if (c =? 34)%N then '(x, r') ← scan_string r []; Some (JStr x, r')
      else if (c =? 123)%N then
        match skip_ws r with
        | 125%N :: r' => Some (JDict [], r')
        | r' => scan_pairs f r' []
        end
      else if (c =? 91)%N then
        match skip_ws r with
        | 93%N :: r' => Some (JList [], r')
        | r' => scan_items f r' []
        end
      else scan_literal s
    end
  end
with scan_items (fuel : nat) (s : str) (acc : list json) : option (json * str) :=
  match fuel with
  | O => None
  | S f =>
    match scan_once f s with
    | None => None
    | Some (v, r) =>
      match skip_ws r with
      | 93%N :: r' => Some (JList (reverse (v :: acc)), r')
      | 44%N :: r' => scan_items f (skip_ws r') (v :: acc)
      | _ => None
      end
    end
  end
with scan_pairs (fuel : nat) (s : str) (acc : list (str * json))
  : option (json * str) :=
  match fuel with
  | O => None
  | S f =>
    match s with
    | 34%N :: r =>
      match scan_string r [] with
      | None => None
      | Some (k, r) =>
        match skip_ws r with
        | 58%N :: r =>
          match scan_once f (skip_ws r) with
          | None => None
          | Some (v, r) =>
            let acc := dict_set k v acc in
            match skip_ws r with
            | 125%N :: r' => Some (JDict acc, r')
            | 44%N :: r' => scan_pairs f (skip_ws r') acc
            | _ => None
            end
          end
        | _ => None
        end
      end
    | _ => None
    end
  end.

Definition loads (s : str) : option json :=
  if startswith [65279%N] s then None
  else
    match scan_once (3 * length s + 3) (skip_ws s) with
    | Some (v, r) => match skip_ws r with [] => Some v | _ => None end
    | None => None
    end.

Definition ascii_lower (c : N) : N :=
  if ((65 <=? c) && (c <=? 90))%N then (c + 32)%N else c.

Definition ascii_upper (c : N) : N :=
  if ((97 <=? c) && (c <=? 122))%N then (c - 32)%N else c.

(** [repr] of a string without quote, backslash or unprintable character. *)
Definition quote (s : str) : str := u "'" ++ s ++ u "'".

Definition format_list (l : list str) : str :=
  u "[" ++ join (u ", ") (map quote l) ++ u "]".

(** [str] of a scalar; containers print as their brackets only. *)
Definition format_scalar (v : json) : str :=
  match v with
  | JNull => u "None"
  | JBool true => u "True"
  | JBool false => u "False"
  | JNum lit => lit
  | JStr s => s
  | JList _ => u "[...]"
  | JDict _ => u "{...}"
  end.

Definition ascii_runtime : PyRuntime :=
  {| str_lower := map ascii_lower;
     chr_isupper := fun c => ((65 <=? c) && (c <=? 90))%N;
     chr_upper := fun c => [ascii_upper c];
     json_loads := loads;
     py_format := format_scalar;
     py_format_list := format_list |}.

(** ** [ai_service_manager.py]: model selection and dispatch *)

Inductive ModelType :=
| GROQ_LLAMA
| GROQ_MIXTRAL
| GROQ_GEMMA
| OPENAI_GPT4
| OPENAI_GPT35
| OPENAI_GPT4_TURBO.

Inductive ContentType :=
| EDUCATIONAL
| TECHNICAL
| CREATIVE
| ANALYTICAL.

#[global] Instance ModelType_eq_dec : EqDecision ModelType.
Proof. solve_decision. Defined.

#[global] Instance ContentType_eq_dec : EqDecision ContentType.
Proof. solve_decision. Defined.

(** [str(model)] of an [Enum] member, as the f-string prints it. *)
Definition ModelType_str (m : ModelType) : str :=
  u "ModelType." ++
  match m with
  | GROQ_LLAMA => u "GROQ_LLAMA"
  | GROQ_MIXTRAL => u "GROQ_MIXTRAL"
  | GROQ_GEMMA => u "GROQ_GEMMA"
  | OPENAI_GPT4 => u "OPENAI_GPT4"
  | OPENAI_GPT35 => u "OPENAI_GPT35"
  | OPENAI_GPT4_TURBO => u "OPENAI_GPT4_TURBO"
  end.

(** [m in l] *)
Definition mem (m : ModelType) (l : list ModelType) : bool :=
  bool_decide (m ∈ l).

(** The text backends. A reply is [message.content] of the first choice,
    which the client libraries type as optional; [Raise] covers every
    exception of the call. The prompt is a fixed text around the topic, the
    audience and the difficulty, so the oracle takes these. *)
Record Backends := {
  groq_chat : str -> str -> str -> str -> Res (option str);
  openai_chat : str -> str -> str -> str -> Res (option str)
}.

Record AIServiceManager := {
  groq_client : bool;
  openai_client : bool;
  available_models : list ModelType
}.

(** [if key:] on the result of [os.getenv]. *)
Definition key_set (key : option str) : bool :=
  match key with
  | Some (_ :: _) => true
  | _ => false
  end.

(** [AIServiceManager.__init__]; [groq_ok] and [openai_ok] tell whether
    the client constructors return. *)
Definition AIServiceManager_init (groq_key openai_key : option str)
    (groq_ok openai_ok : bool) : AIServiceManager :=
  let self := {| groq_client := false; openai_client := false;
                 available_models := [] |} in
  let self :=
    if key_set groq_key && groq_ok then
      {| groq_client := true; openai_client := openai_client self;
         available_models :=
           available_models self ++ [GROQ_LLAMA; GROQ_MIXTRAL; GROQ_GEMMA] |}
    else self in
  if key_set openai_key && openai_ok then
    {| groq_client := groq_client self; openai_client := true;
       available_models :=
         available_models self ++ [OPENAI_GPT4; OPENAI_GPT35; OPENAI_GPT4_TURBO] |}
  else self.

Definition select_best_model (self : AIServiceManager)
    (content_type : ContentType) (complexity : str) (speed_priority : bool)
  : Res ModelType :=
  let available := available_models self in
  match available with
  | [] => Raise (ValueError (u "No AI models available"))
  | _ =>
    if speed_priority then
      if mem GROQ_LLAMA available then Ok GROQ_LLAMA
      else if mem GROQ_GEMMA available then Ok GROQ_GEMMA
      else if mem GROQ_MIXTRAL available then Ok GROQ_MIXTRAL
      else if mem OPENAI_GPT35 available then Ok OPENAI_GPT35
      else Ok OPENAI_GPT4
    else
      let fallback :=
        if mem OPENAI_GPT4_TURBO available then Ok OPENAI_GPT4_TURBO
        else if mem OPENAI_GPT4 available then Ok OPENAI_GPT4
        else if mem GROQ_MIXTRAL available then Ok GROQ_MIXTRAL
        else Ok GROQ_LLAMA in
      match content_type with
      | TECHNICAL =>
        if str_eqb complexity (u "advanced") && mem OPENAI_GPT4_TURBO available
        then Ok OPENAI_GPT4_TURBO
        else if mem OPENAI_GPT4 available then Ok OPENAI_GPT4
        else if mem GROQ_MIXTRAL available then Ok GROQ_MIXTRAL
        else fallback
      | CREATIVE =>
        if mem OPENAI_GPT4_TURBO available then Ok OPENAI_GPT4_TURBO
        else if mem OPENAI_GPT4 available then Ok OPENAI_GPT4
        else if mem GROQ_MIXTRAL available then Ok GROQ_MIXTRAL
        else fallback
      | EDUCATIONAL =>
        if mem GROQ_MIXTRAL available then Ok GROQ_MIXTRAL
        else if mem OPENAI_GPT4 available then Ok OPENAI_GPT4
        else if mem GROQ_GEMMA available then Ok GROQ_GEMMA
        else fallback
      | ANALYTICAL => fallback
      end
  end.

Section Generation.
Context `{PyRuntime} (backends : Backends).

Definition _generate_with_groq (self : AIServiceManager)
    (topic difficulty audience : str) (model : ModelType) : Res json :=
  if negb (groq_client self) then Raise (ValueError (u "Groq client not initialized"))
  else
    let model_name :=
      match model with
      | GROQ_LLAMA => u "llama-3.1-8b-instant"
      | GROQ_MIXTRAL => u "mixtral-8x7b-32768"
      | GROQ_GEMMA => u "gemma-7b-it"
      | _ => u "llama-3.1-8b-instant"
      end in
    match
      (let? content := groq_chat backends model_name topic difficulty audience in
       _parse_enhanced_response content topic)
    with
    | Ok data => Ok data
    | Raise _ => Ok (_create_fallback_content topic difficulty audience)
    end.

Definition _generate_with_openai (self : AIServiceManager)
    (topic difficulty audience : str) (model : ModelType) : Res json :=
  if negb (openai_client self) then Raise (ValueError (u "OpenAI client not initialized"))
  else
    let model_name :=
      match model with
      | OPENAI_GPT4 => u "gpt-4"
      | OPENAI_GPT4_TURBO => u "gpt-4-turbo-preview"
      | OPENAI_GPT35 => u "gpt-3.5-turbo"
      | _ => u "gpt-3.5-turbo"
      end in
    match
      (let? content := openai_chat backends model_name topic difficulty audience in
       _parse_enhanced_response content topic)
    with
    | Ok data => Ok data
    | Raise _ => Ok (_create_fallback_content topic difficulty audience)
    end.

Definition generate_enhanced_content (self : AIServiceManager)
    (topic difficulty audience : str) (content_type : ContentType)
    (speed_priority : bool) : Res json :=
  let? model := select_best_model self content_type difficulty speed_priority in
  if mem model [GROQ_LLAMA; GROQ_MIXTRAL]
  then _generate_with_groq self topic difficulty audience model
  else if mem model [OPENAI_GPT4; OPENAI_GPT35]
  then _generate_with_openai self topic difficulty audience model
  else Raise (ValueError (u "Unsupported model: " ++ ModelType_str model)).

End Generation.

(** ** Reading a content bundle

    The accessors the invariants of a bundle are stated with. A bundle is
    the dict [generate_enhanced_content] returns; its narration is the
    value under [full_explanation]. *)

Definition bundle_sections (b : json) : list json :=
  match b with
  | JDict kv =>
    match dict_get (u "sections") kv with
    | Some (JList l) => l
    | _ => []
    end
  | _ => []
  end.

Definition field_str (k : str) (v : json) : option str :=
  match v with
  | JDict kv =>
    match dict_get k kv with
    | Some (JStr s) => Some s
    | _ => None
    end
  | _ => None
  end.

Definition key_points (sec : json) : list json :=
  match sec with
  | JDict kv =>
    match dict_get (u "key_points") kv with
    | Some (JList l) => l
    | _ => []
    end
  | _ => []
  end.

Definition nonempty_str (v : json) : bool :=
  match v with
  | JStr (_ :: _) => true
  | _ => false
  end.

Definition has_text (k : str) (sec : json) : bool :=
  match field_str k sec with
  | Some (_ :: _) => true
  | _ => false
  end.

Definition has_number (k : str) (sec : json) : bool :=
  match sec with
  | JDict kv =>
    match dict_get k kv with
    | Some (JNum (_ :: _)) => true
    | _ => false
    end
  | _ => false
  end.

(** A section with 3 to 4 non-empty key points and non-empty title, content
    and visual description, and a duration estimate. *)
Definition section_core_ok (sec : json) : bool :=
  has_text (u "title") sec && has_text (u "content") sec
  && has_text (u "visual_description") sec
  && has_number (u "duration_estimate") sec
  && bool_decide (3 <= length (key_points sec) <= 4)%nat
  && forallb nonempty_str (key_points sec).

(** The Section invariant of the data model: every field present and
    non-empty, the subheading included. *)
Definition section_ok (sec : json) : bool :=
  section_core_ok sec && has_text (u "subheading") sec.

(** The ContentBundle invariant: 1 to 6 sections, each a valid Section. *)
Definition bundle_ok (b : json) : bool :=
  bool_decide (1 <= length (bundle_sections b) <= 6)%nat
  && forallb section_ok (bundle_sections b).

Definition first_title (b : json) : option str :=
  match bundle_sections b with
  | sec :: _ => field_str (u "title") sec
  | [] => None
  end.

Definition narration (b : json) : option str := field_str (u "full_explanation") b.

(** [t in s] as a proposition. *)
Definition substring (t s : str) : Prop := exists pre post, s = pre ++ t ++ post.

(** [topic] occurs in the title of some section of the bundle. *)
Definition some_title_mentions (topic : str) (b : json) : bool :=
  existsb (fun sec =>
             match field_str (u "title") sec with
             | Some t => contains topic t
             | None => false
             end) (bundle_sections b).

Definition narration_mentions (topic : str) (b : json) : bool :=
  match narration b with
  | Some t => contains topic t
  | None => false
  end.

(** [topic] occurs in the title of the first section and in the narration. *)
Definition mentions_topic (topic : str) (b : json) : Prop :=
  (exists t, first_title b = Some t /\ substring topic t)
  /\ (exists t, narration b = Some t /\ substring topic t).

(** ** The process state and the world outside

    [files] is the file system as [os.path.exists], [os.path.getsize] and
    [open] see it; [events] records, in order, the calls that leave the
    process and the status updates of the jobs. *)

Inductive Origin :=
| By_pyttsx3
| By_espeak
| By_gtts
| By_wave
| By_azure
| By_ffmpeg
| By_moviepy
| By_animation.

Inductive file :=
| Binary (origin : Origin) (size : N)
| Text (content : str).

Definition utf8_width (c : N) : N :=
  if (c <? 128)%N then 1%N
  else if (c <? 2048)%N then 2%N
  else if (c <? 65536)%N then 3%N
  else 4%N.

(** [os.path.getsize] *)
Definition getsize (f : file) : N :=
  match f with
  | Binary _ n => n
  | Text t => foldr (fun c n => (utf8_width c + n)%N) 0%N t
  end.

(** [ProcessingStatus] of [models/content_models.py]. *)
Record ProcessingStatus := {
  job_id : str;
  status : str;
  progress : Z;
  message : str;
  result_data : option json;
  error : option str
}.

Inductive Event :=
| Exec (cmd : list str)
| LibCall (name : str) (args : list str)
| Removed (path : str)
| StatusUpdate (job : str) (st : ProcessingStatus).

Record World := {
  files : gmap str file;
  events : list Event;
  processing_jobs : gmap str ProcessingStatus
}.

(** What a call into a tool or a library does: it returns (with an exit
    status, 0 for a library call) or raises, and in both cases it may have
    written its output file, completely or in part. *)
Inductive Outcome :=
| Returns (rc : Z) (wrote : option N)
| Throws (e : exn) (wrote : option N).

(** [result.reason] of the Azure synthesizer. *)
Inductive AzureOutcome :=
| SynthesizingAudioCompleted (wrote : option N)
| Canceled
| OtherReason
| AzureRaises (e : exn).

Inductive Clip :=
| ImageClip (img_path : str) (duration : Q) (size : nat * nat)
| ColorClip (size : nat * nat) (color : nat * nat * nat) (duration : Q)
| Concatenated (clips : list Clip).

(** What [create_video] hands to MoviePy: the video track, the duration it
    is reset to when it differs from the audio, the audio and the output. *)
Record VideoPlan := {
  video_clip : Clip;
  set_duration : option Q;
  plan_audio : str;
  plan_output : str
}.

Record Env := {
  (** [os.makedirs(d, exist_ok=True)] for a non-empty [d] *)
  makedirs_ok : str -> bool;
  (** [open(path, 'w')] and the writes that follow *)
  open_w_ok : str -> bool;
  (** [os.remove(path)] of an existing file *)
  remove_ok : str -> bool;
  (** [subprocess.run(cmd)] and [asyncio.create_subprocess_exec(cmd)] *)
  subprocess_run : list str -> Outcome;
  (** the pyttsx3 thread, joined for at most 30 seconds *)
  pyttsx3 : str -> str -> Outcome;
  (** [gTTS(text).save(path)] *)
  gtts : str -> str -> Outcome;
  (** [struct.pack] and the [wave] writer for a number of samples; [None]
      when they return *)
  wave_write : str -> N -> option exn;
  (** the Azure SDK: configuration, synthesizer and [speak_ssml] *)
  azure_speak : str -> str -> AzureOutcome;
  (** whether [asyncio.wait_for] gives up on the direct synthesis *)
  azure_times_out : str -> str -> bool;
  (** [MOVIEPY_AVAILABLE], set by the import at module load *)
  MOVIEPY_AVAILABLE : bool;
  (** [AudioFileClip(audio_path).duration] *)
  audio_duration : str -> Res Q;
  (** MoviePy building, composing and encoding the planned clips *)
  moviepy_render : VideoPlan -> Outcome;
  (** [ContentSection(...)] and [animation_service.create_section_animation]:
      the path returned and the size of the image written there, if any *)
  create_section_animation : nat -> json -> str -> Res (str * option N)
}.

(** Computations that read and change the world and may raise; what was
    done before a [raise] stays done. *)
Definition M (A : Type) : Type := World -> Res A * World.

Definition ret {A} (a : A) : M A := fun w => (Ok a, w).

Definition raise {A} (e : exn) : M A := fun w => (Raise e, w).

Definition bind {A B} (m : M A) (k : A -> M B) : M B :=
  fun w =>
    match m w with
    | (Ok a, w') => k a w'
    | (Raise e, w') => (Raise e, w')
    end.

(** [try: m except Exception as e: h e] *)
Definition try_except {A} (m : M A) (h : exn -> M A) : M A :=
  fun w =>
    match m w with
    | (Ok a, w') => (Ok a, w')
    | (Raise e, w') => h e w'
    end.

Definition lift {A} (r : Res A) : M A := fun w => (r, w).

Declare Scope m_scope.
Delimit Scope m_scope with M.
Notation "'let*' x := m 'in' k" := (bind m (fun x => k))
  (at level 10, x name, m at level 100, k at level 200) : m_scope.
Open Scope m_scope.

Definition log (e : Event) : M unit :=
  fun w => (Ok tt, {| files := files w; events := events w ++ [e];
                      processing_jobs := processing_jobs w |}).

Definition write_file (path : str) (f : file) : M unit :=
  fun w => (Ok tt, {| files := <[path := f]> (files w); events := events w;
                      processing_jobs := processing_jobs w |}).

Definition delete_file (path : str) : M unit :=
  fun w => (Ok tt, {| files := delete path (files w); events := events w;
                      processing_jobs := processing_jobs w |}).

(** The file system as it is now. *)
Definition get_files : M (gmap str file) := fun w => (Ok (files w), w).

(** [os.path.exists(path)] *)
Definition exists_ (path : str) : M bool :=
  fun w => (Ok (bool_decide (is_Some (files w !! path))), w).

(** [os.path.exists(path) and os.path.getsize(path) > 1000] *)
Definition exists_over_1000 (path : str) : M bool :=
  fun w => (Ok match files w !! path with
               | Some f => (1000 <? getsize f)%N
               | None => false
               end, w).

Definition wrote_file (origin : Origin) (path : str) (wrote : option N) : M unit :=
  match wrote with
  | Some n => write_file path (Binary origin n)
  | None => ret tt
  end.

(** A call that leaves the process: it is recorded, its output file is
    written as far as the outcome says, and it returns or raises. *)
Definition run (ev : Event) (origin : Origin) (out : str) (o : Outcome) : M Z :=
  let* _ := log ev in
  match o with
  | Returns rc wrote => let* _ := wrote_file origin out wrote in ret rc
  | Throws e wrote => let* _ := wrote_file origin out wrote in raise e
  end.

Fixpoint drop_until_slash (s : str) : str :=
  match s with
  | [] => []
  | c :: s' => if (c =? 47)%N then s else drop_until_slash s'
  end.

Fixpoint drop_slashes (s : str) : str :=
  match s with
  | [] => []
  | c :: s' => if (c =? 47)%N then drop_slashes s' else s
  end.

(** [posixpath.dirname]: the part up to the last slash, without its
    trailing slashes unless it consists of slashes only. *)
Definition dirname (p : str) : str :=
  let head := reverse (drop_until_slash (reverse p)) in
  if forallb (fun c => (c =? 47)%N) head then head
  else reverse (drop_slashes (reverse head)).

(** [os.makedirs(d, exist_ok=True)]: the empty path cannot be created. *)
Definition makedirs (env : Env) (d : str) : M unit :=
  match d with
  | [] => raise (FileNotFoundError (u "[Errno 2] No such file or directory: ''"))
  | _ => if makedirs_ok env d then ret tt
         else raise (OSError (u "cannot create directory"))
  end.

(** [with open(path, 'w') as f: f.write(text)] *)
Definition open_write (env : Env) (path : str) (text : str) : M unit :=
  if open_w_ok env path then write_file path (Text text)
  else raise (OSError (u "cannot open file for writing")).


(** ** [azure_speech_service.py] *)

Record AzureSpeechService := {
  speech_key : option str;
  speech_region : option str;
  fallback_mode : bool
}.

(** [AzureSpeechService.__init__]: without credentials the service is in
    fallback mode; with credentials fallback mode is forced as well and the
    constructor returns before the SDK is configured. *)
Definition AzureSpeechService_init (key region : option str) : AzureSpeechService :=
  if negb (key_set key) || negb (key_set region)
  then {| speech_key := key; speech_region := region; fallback_mode := true |}
  else {| speech_key := key; speech_region := region; fallback_mode := true |}.

(** *** Binary floating point

    A Python [float] is an IEEE 754 binary64 number and every operation on
    floats gives the float nearest to the exact result, ties to even.
    [to_float q] is that float for a rational [q >= 0]: with
    [2^e <= q < 2^(e+1)] it is the multiple of [2^(e - 52)] nearest to [q].
    The values met here are word counts and seconds, far from the
    overflow and the subnormal range, which are not modelled. *)
Definition float_exponent (q : Q) : Z :=
  if Qle_bool 1 q then Z.log2 (Qfloor q)
  else (- Z.log2_up (Qceiling (/ q)))%Z.

Definition round_half_even (q : Q) : Z :=
  let f := Qfloor q in
  match (q - inject_Z f ?= 1 # 2)%Q with
  | Lt => f
  | Gt => (f + 1)%Z
  | Eq => if Z.even f then f else (f + 1)%Z
  end.

Definition to_float (q : Q) : Q :=
  if Qle_bool q 0 then 0%Q
  else
    let shift := (52 - float_exponent q)%Z in
    (inject_Z (round_half_even (q * 2 ^ shift)) / 2 ^ shift)%Q.

(** [(word_count / words_per_minute) * 60]: a true division of two
    integers, then a product of floats. *)
Definition words_duration (word_count : nat) : Q :=
  to_float (to_float (inject_Z (Z.of_nat word_count) / 150) * 60)%Q.

Definition estimated_duration (text : str) : Q :=
  words_duration (length (split_ws text)).

(** [max(5, d)] *)
Definition at_least_5 (d : Q) : Q := if Qle_bool d 5 then 5%Q else d.

(** [int(sample_rate * duration_seconds)]: the product is the integer
    110250 when the duration is the integer 5 and a float otherwise;
    [to_float] leaves 110250 as it is. *)
Definition samples_of_duration (duration_seconds : Q) : N :=
  Z.to_N (Qfloor (to_float (22050 * duration_seconds)%Q)).

Definition num_samples (text : str) : N :=
  samples_of_duration (at_least_5 (estimated_duration text)).

(** The same computation with the operations of [SpecFloat], the
    standard library's specification of IEEE 754, at the parameters of
    binary64; it serves to check [to_float]. *)
Definition binary64_of_Z (z : Z) : spec_float :=
  match z with
  | Z0 => S754_zero false
  | _ => binary_normalize 53 1024 z 0 false
  end.

Definition Q_of_binary64 (f : spec_float) : Q :=
  match f with
  | S754_finite s m e => ((if s then -1 else 1) * inject_Z (Zpos m) * 2 ^ e)%Q
  | _ => 0%Q
  end.

Definition binary64_samples (word_count : nat) : N :=
  let duration :=
    SFmul 53 1024 (SFdiv 53 1024 (binary64_of_Z (Z.of_nat word_count)) (binary64_of_Z 150))
      (binary64_of_Z 60) in
  if Qle_bool (Q_of_binary64 duration) 5 then 110250%N
  else Z.to_N (Qfloor (Q_of_binary64 (SFmul 53 1024 (binary64_of_Z 22050) duration))).

(** A RIFF header of 44 bytes and two bytes per sample. *)
Definition wav_size (samples : N) : N := (44 + 2 * samples)%N.

Definition _create_silent_audio (env : Env) (text output_path : str) : M unit :=
  try_except
    (match wave_write env output_path (num_samples text) with
     | None => write_file output_path (Binary By_wave (wav_size (num_samples text)))
     | Some e => raise e
     end)
    (fun _ => open_write env output_path []).

Definition espeak_cmd (text output_path : str) : list str :=
  [u "espeak"; u "-s"; u "160"; u "-v"; u "en+f3"; u "-g"; u "10";
   u "-p"; u "50"; u "-w"; output_path; text].

Definition _fallback_text_to_speech (env : Env) (text output_path : str) : M str :=
  try_except
    (let* _ := makedirs env (dirname output_path) in
     let* done1 :=
       try_except
         (let* _ := run (LibCall (u "pyttsx3") [text; output_path]) By_pyttsx3
                        output_path (pyttsx3 env text output_path) in
          exists_over_1000 output_path)
         (fun _ => ret false) in
     if done1 : bool then ret output_path else
     let* done2 :=
       try_except
         (let* rc := run (Exec (espeak_cmd text output_path)) By_espeak
                         output_path (subprocess_run env (espeak_cmd text output_path)) in
          let* there := exists_ output_path in
          ret ((rc =? 0)%Z && there))
         (fun _ => ret false) in
     if done2 : bool then ret output_path else
     let* done3 :=
       try_except
         (let* _ := run (LibCall (u "gTTS") [text; output_path]) By_gtts
                        output_path (gtts env text output_path) in
          exists_over_1000 output_path)
         (fun _ => ret false) in
     if done3 : bool then ret output_path else
     let* _ := _create_silent_audio env text output_path in
     ret output_path)
    (fun _ =>
       let* _ := _create_silent_audio env text output_path in
       ret output_path).

(** The Azure SDK receives the SSML built from the text; the oracle is
    keyed by the text and the output path. *)
Definition _text_to_speech_direct (env : Env) (text output_path : str) : M str :=
  try_except
    (let* _ := makedirs env (dirname output_path) in
     let* _ := log (LibCall (u "azure") [text; output_path]) in
     match azure_speak env text output_path with
     | SynthesizingAudioCompleted wrote =>
       let* _ := wrote_file By_azure output_path wrote in
       ret output_path
     | Canceled => _fallback_text_to_speech env text output_path
     | OtherReason => _fallback_text_to_speech env text output_path
     | AzureRaises e => raise e
     end)
    (fun _ => _fallback_text_to_speech env text output_path).

(** The loop of [_text_to_speech_chunked] over the sentences. *)
Fixpoint pack_sentences (sentences : list str) (current_chunk : str)
    (chunks : list str) : list str * str :=
  match sentences with
  | [] => (chunks, current_chunk)
  | sentence :: rest =>
    if (length (current_chunk ++ sentence) <? 1500)%nat
    then pack_sentences rest (current_chunk ++ sentence ++ u ". ") chunks
    else
      pack_sentences rest (sentence ++ u ". ")
        (match current_chunk with
         | [] => chunks
         | _ => chunks ++ [strip current_chunk]
         end)
  end.

Definition split_into_chunks (text : str) : list str :=
  let '(chunks, current_chunk) := pack_sentences (split2 46 32 text) [] [] in
  match current_chunk with
  | [] => chunks
  | _ => chunks ++ [strip current_chunk]
  end.

(** [output_path.replace('.wav', f'_chunk_{i}.wav')] *)
Definition chunk_path (output_path : str) (i : nat) : str :=
  str_replace (u ".wav") (u "_chunk_" ++ str_of_nat i ++ u ".wav") output_path.

Fixpoint synthesize_chunks (env : Env) (output_path : str) (i : nat)
    (chunks : list str) : M (list str) :=
  match chunks with
  | [] => ret []
  | chunk :: rest =>
    let* chunk_audio := _text_to_speech_direct env chunk (chunk_path output_path i) in
    let* others := synthesize_chunks env output_path (S i) rest in
    ret (chunk_audio :: others)
  end.

Fixpoint existing (paths : list str) (fs : gmap str file) : list str :=
  match paths with
  | [] => []
  | p :: r => if bool_decide (is_Some (fs !! p)) then p :: existing r fs
              else existing r fs
  end.

Definition concat_cmd (inputs : list str) (n : nat) (output_path : str) : list str :=
  [u "ffmpeg"; u "-y"] ++ flat_map (fun p => [u "-i"; p]) inputs
  ++ [u "-filter_complex"; u "concat=n=" ++ str_of_nat n ++ u ":v=0:a=1[out]";
      u "-map"; u "[out]"; output_path].

(** [for audio_path in audio_paths: if os.path.exists(audio_path):
    os.remove(audio_path)] *)
Fixpoint remove_chunks (env : Env) (audio_paths : list str) : M unit :=
  match audio_paths with
  | [] => ret tt
  | p :: r =>
    let* there := exists_ p in
    let* _ :=
      (if there : bool then
         if remove_ok env p
         then let* _ := delete_file p in log (Removed p)
         else raise (OSError (u "cannot remove file"))
       else ret tt) in
    remove_chunks env r
  end.

(** [audio_paths[0] if audio_paths else output_path] *)
Definition first_or (audio_paths : list str) (output_path : str) : str :=
  match audio_paths with
  | p :: _ => p
  | [] => output_path
  end.

Definition _combine_audio_files (env : Env) (audio_paths : list str)
    (output_path : str) : M str :=
  try_except
    (let* fs := get_files in
     let cmd := concat_cmd (existing audio_paths fs) (length audio_paths)
                  output_path in
     let* rc := run (Exec cmd) By_ffmpeg output_path (subprocess_run env cmd) in
     if (rc =? 0)%Z then
       let* _ := remove_chunks env audio_paths in
       ret output_path
     else ret (first_or audio_paths output_path))
    (fun _ => ret (first_or audio_paths output_path)).

Definition _text_to_speech_chunked (env : Env) (text output_path : str) : M str :=
  try_except
    (let* chunk_audio_paths :=
       synthesize_chunks env output_path 0 (split_into_chunks text) in
     _combine_audio_files env chunk_audio_paths output_path)
    (fun _ => _fallback_text_to_speech env text output_path).

(** [text_to_speech]. What a direct synthesis that is cancelled by the
    time-out has done by then is not modelled. *)
Definition text_to_speech (env : Env) (self : AzureSpeechService)
    (text output_path : str) : M str :=
  if fallback_mode self then _fallback_text_to_speech env text output_path
  else if (2000 <? length text)%nat
  then _text_to_speech_chunked env text output_path
  else if azure_times_out env text output_path
  then _fallback_text_to_speech env text output_path
  else _text_to_speech_direct env text output_path.

Record TimingInfo := {
  timing_audio_path : str;
  timing_estimated_duration : Q;
  timing_word_count : nat;
  timing_speaking_rate : Q
}.

Definition create_audio_with_timing (env : Env) (self : AzureSpeechService)
    (text output_path : str) : M TimingInfo :=
  try_except
    (let* audio_path := text_to_speech env self text output_path in
     ret {| timing_audio_path := audio_path;
            timing_estimated_duration := estimated_duration text;
            timing_word_count := length (split_ws text);
            timing_speaking_rate := 1%Q |})
    (fun e => raise (Exception (u "Failed to create audio with timing: " ++ exn_text e))).

Definition valid_voices : list str :=
  [u "en-US-AriaNeural"; u "en-US-DavisNeural"; u "en-US-JennyNeural";
   u "en-US-GuyNeural"; u "en-US-AmberNeural"; u "en-US-AshleyNeural";
   u "en-US-BrandonNeural"; u "en-US-ChristopherNeural"; u "en-US-CoraNeural";
   u "en-US-ElizabethNeural"].

Definition validate_voice_name (voice_name : str) : bool :=
  bool_decide (voice_name ∈ valid_voices).

(** [_add_speech_enhancements]: pauses after sentence ends and emphasis on
    a fixed list of words. *)
Definition important_words : list str :=
  [u "important"; u "key"; u "main"; u "primary"; u "essential"; u "crucial"].

Definition emphasize (word : str) (text : str) : str :=
  str_replace (u " " ++ word ++ u " ")
    (u " <emphasis level='moderate'>" ++ word ++ u "</emphasis> ") text.

Definition _add_speech_enhancements (text : str) : str :=
  let enhanced_text := str_replace (u ". ") (u ". <break time='0.5s'/> ") text in
  let enhanced_text := str_replace (u "! ") (u "! <break time='0.8s'/> ") enhanced_text in
  let enhanced_text := str_replace (u "? ") (u "? <break time='0.8s'/> ") enhanced_text in
  foldl (fun acc word => emphasize word acc) enhanced_text important_words.

(** ** [video_service.py] *)

Definition transition_duration : Q := (1 # 2)%Q.

(** [(audio_duration - total_transition_time) / len(animation_paths)], in
    exact arithmetic on the duration MoviePy reports; the source rounds the
    difference and the quotient to binary64. *)
Definition duration_per_image (audio_duration : Q) (animation_paths : list str) : Q :=
  let total_transition_time :=
    (inject_Z (Z.of_nat (length animation_paths) - 1) * transition_duration)%Q in
  ((audio_duration - total_transition_time)
   / inject_Z (Z.of_nat (length animation_paths)))%Q.

(** The clips of the loop over [animation_paths]: one per image that
    exists, resized to 1920 by 1080. *)
Definition image_clips (audio_duration : Q) (animation_paths : list str)
    (fs : gmap str file) : list Clip :=
  match animation_paths with
  | [] => []
  | _ =>
    map (fun img_path =>
           ImageClip img_path (duration_per_image audio_duration animation_paths)
             (1920, 1080)%nat)
        (existing animation_paths fs)
  end.

(** [clip.duration]; a concatenation lasts as long as its parts together. *)
Fixpoint clip_duration (c : Clip) : Q :=
  match c with
  | ImageClip _ d _ => d
  | ColorClip _ _ d => d
  | Concatenated l =>
    (fix total (l : list Clip) : Q :=
       match l with
       | [] => 0%Q
       | c :: r => (clip_duration c + total r)%Q
       end) l
  end.

Definition plan_video (audio_path : str) (audio_duration : Q)
    (animation_paths : list str) (output_path : str) (fs : gmap str file)
  : VideoPlan :=
  let video_clips := image_clips audio_duration animation_paths fs in
  let video_clip :=
    match video_clips with
    | [] => ColorClip (1920, 1080)%nat (30, 41, 59)%nat audio_duration
    | _ => Concatenated video_clips
    end in
  {| video_clip := video_clip;
     set_duration :=
       if Qle_bool (Qabs (audio_duration - clip_duration video_clip)) (1 # 10)
       then None else Some audio_duration;
     plan_audio := audio_path;
     plan_output := output_path |}.

Definition _create_moviepy_video (env : Env) (audio_path : str)
    (animation_paths : list str) (output_path : str) : M str :=
  let* audio_duration := lift (audio_duration env audio_path) in
  let* fs := get_files in
  let plan := plan_video audio_path audio_duration animation_paths output_path fs in
  let* _ := run (LibCall (u "moviepy") [audio_path; output_path]) By_moviepy
                output_path (moviepy_render env plan) in
  ret output_path.

Definition still_cmd (first_slide output_path : str) : list str :=
  [u "ffmpeg"; u "-y"; u "-loop"; u "1"; u "-i"; first_slide; u "-t"; u "30";
   u "-c:v"; u "libx264"; u "-pix_fmt"; u "yuv420p"; u "-vf"; u "scale=1920:1080";
   u "-r"; u "1"; output_path].

Definition audio_args (audio_path : str) : list str :=
  [u "-i"; audio_path; u "-c:a"; u "aac"; u "-b:a"; u "128k"; u "-ar"; u "44100";
   u "-ac"; u "2"; u "-shortest"].

Section Video.
Context `{PyRuntime}.

Definition placeholder_text (audio_path : str) (animation_paths : list str) : str :=
  u "Video creation failed. Please check ffmpeg installation." ++ nl
  ++ u "Audio file: " ++ audio_path ++ nl
  ++ u "Animation files: " ++ py_format_list animation_paths ++ nl.

Definition _create_simple_video (env : Env) (audio_path : str)
    (animation_paths : list str) (output_path : str) : M str :=
  try_except
    (let* made :=
       match animation_paths with
       | first_slide :: _ =>
         let* slide_there := exists_ first_slide in
         if slide_there : bool then
           let* audio_there := exists_ audio_path in
           let cmd :=
             still_cmd first_slide output_path
             ++ (if match audio_path with [] => false | _ => audio_there end
                 then audio_args audio_path else []) in
           let* rc := run (Exec cmd) By_ffmpeg output_path (subprocess_run env cmd) in
           ret (rc =? 0)%Z
         else ret false
       | [] => ret false
       end in
     if made : bool then ret output_path
     else
       let* _ := open_write env output_path
                   (placeholder_text audio_path animation_paths) in
       ret output_path)
    (fun e =>
       let* _ := open_write env output_path
                   (u "Video creation error: " ++ exn_text e ++ nl) in
       ret output_path).

Definition create_final_video (env : Env) (audio_path : str)
    (animation_paths : list str) (output_path : str) : M str :=
  let* _ := makedirs env (dirname output_path) in
  if negb (MOVIEPY_AVAILABLE env)
  then _create_simple_video env audio_path animation_paths output_path
  else
    try_except
      (_create_moviepy_video env audio_path animation_paths output_path)
      (fun _ => _create_simple_video env audio_path animation_paths output_path).

End Video.

(** ** [content_models.py] and [main.py] *)

Inductive DifficultyLevel := BEGINNER | INTERMEDIATE | ADVANCED.

Inductive TargetAudience := CHILDREN | STUDENTS | ADULTS | PROFESSIONALS.

Definition DifficultyLevel_value (d : DifficultyLevel) : str :=
  match d with
  | BEGINNER => u "beginner"
  | INTERMEDIATE => u "intermediate"
  | ADVANCED => u "advanced"
  end.

Definition TargetAudience_value (a : TargetAudience) : str :=
  match a with
  | CHILDREN => u "children"
  | STUDENTS => u "students"
  | ADULTS => u "adults"
  | PROFESSIONALS => u "professionals"
  end.

Record TopicRequest := {
  topic : str;
  difficulty_level : DifficultyLevel;
  target_audience : TargetAudience;
  voice_name : option str;
  animation_style : option str;
  duration_preference : option Z
}.

Record ContentResponse := {
  response_job_id : str;
  response_status : str;
  response_message : str
}.

(** [if result_data:] *)
Definition truthy_dict (r : option json) : bool :=
  match r with
  | Some (JDict (_ :: _)) => true
  | _ => false
  end.

Definition update_status (self : ProcessingStatus) (new_status : str)
    (new_progress : Z) (new_message : str) (new_result_data : option json)
  : ProcessingStatus :=
  {| job_id := job_id self;
     status := new_status;
     progress := new_progress;
     message := new_message;
     result_data :=
       if truthy_dict new_result_data then new_result_data else result_data self;
     error := error self |}.

Definition set_job (job : str) (st : ProcessingStatus) : M unit :=
  fun w => (Ok tt, {| files := files w;
                      events := events w ++ [StatusUpdate job st];
                      processing_jobs := <[job := st]> (processing_jobs w) |}).

(** [processing_jobs[job_id]] *)
Definition get_job (job : str) : M ProcessingStatus :=
  fun w =>
    match processing_jobs w !! job with
    | Some st => (Ok st, w)
    | None => (Raise (KeyError job), w)
    end.

(** [processing_jobs[job_id].update_status(...)] *)
Definition job_update_status (job : str) (new_status : str) (new_progress : Z)
    (new_message : str) (new_result_data : option json) : M unit :=
  let* st := get_job job in
  set_job job (update_status st new_status new_progress new_message new_result_data).

(** [v.get(k, default)]: only a dict has the method. *)
Definition py_dot_get (v : json) (k : str) (default : json) : Res json :=
  match v with
  | JDict kv =>
    Ok match dict_get k kv with
       | Some x => x
       | None => default
       end
  | _ => Raise (AttributeError (u "object has no attribute 'get'"))
  end.

(** The text written by successive [f.write] calls, up to the first one
    whose argument raises. *)
Fixpoint write_pieces (pieces : list (Res str)) : str * option exn :=
  match pieces with
  | [] => ([], None)
  | Ok s :: r => let '(t, e) := write_pieces r in (s ++ t, e)
  | Raise e :: _ => ([], Some e)
  end.

(** The status [generate_content] registers for a new job. *)
Definition started_status (new_id : str) : ProcessingStatus :=
  {| job_id := new_id; status := u "started"; progress := 0;
     message := u "Starting content generation...";
     result_data := None; error := None |}.

Section Pipeline.
Context `{PyRuntime}.

Definition field_line (prefix : str) (v : json) (k : str) (suffix : str) : Res str :=
  let? x := py_dot_get v k (JStr (u "N/A")) in
  Ok (prefix ++ py_format x ++ suffix).

Definition slide_pieces (i : nat) (section : json) : list (Res str) :=
  [ Ok (u "--- SLIDE " ++ str_of_nat (i + 1) ++ u " ---" ++ nl);
    field_line (u "Title: ") section (u "title") nl;
    field_line (u "Subheading: ") section (u "subheading") nl;
    field_line (u "Content: ") section (u "content") nl;
    Ok (u "Key Points:" ++ nl) ]
  ++ match (let? kp := py_dot_get section (u "key_points") (JList []) in py_iter kp) with
     | Ok points => map (fun point => Ok (u "  " ++ py_format point ++ nl)) points
     | Raise e => [Raise e]
     end
  ++ [ field_line (u "Visual: ") section (u "visual_description") (nl ++ nl) ].

Fixpoint slides_pieces (i : nat) (sections : list json) : list (Res str) :=
  match sections with
  | [] => []
  | section :: r => slide_pieces i section ++ slides_pieces (S i) r
  end.

Definition default_narration : str := u "Content generation completed".

(** [f.write(x)] takes a string only. *)
Definition as_str (v : json) : Res str :=
  match v with
  | JStr s => Ok s
  | _ => Raise (TypeError (u "write() argument must be str"))
  end.

Definition explanation_pieces (request_topic : str) (explanation_data : json)
  : list (Res str) :=
  [ Ok (u "=== EDUCATIONAL CONTENT ===" ++ nl ++ nl);
    Ok (u "Topic: " ++ request_topic ++ nl);
    field_line (u "Summary: ") explanation_data (u "summary") (nl ++ nl) ]
  ++ match (let? secs := py_dot_get explanation_data (u "sections") (JList []) in
            py_iter secs) with
     | Ok sections => slides_pieces 0 sections
     | Raise e => [Raise e]
     end
  ++ [ Ok (u "=== FULL NARRATION ===" ++ nl);
       let? x := py_dot_get explanation_data (u "full_explanation")
                   (JStr default_narration) in
       as_str x ].

(** [os.makedirs(output_dir)] and the [with open(...)] block. *)
Definition save_explanation (env : Env) (request_topic : str)
    (explanation_data : json) (output_dir : str) : M unit :=
  let* _ := makedirs env output_dir in
  let path := output_dir ++ u "/explanation.txt" in
  if open_w_ok env path then
    let '(text, e) := write_pieces (explanation_pieces request_topic explanation_data) in
    let* _ := write_file path (Text text) in
    match e with
    | None => ret tt
    | Some e => raise e
    end
  else raise (OSError (u "cannot open file for writing")).

(** The loop of step 3; [section_data.get] needs a dict. *)
Fixpoint animate_sections (env : Env) (output_dir : str) (i : nat)
    (sections : list json) : M (list str) :=
  match sections with
  | [] => ret []
  | section_data :: r =>
    let* _ := lift (py_dot_get section_data (u "title") JNull) in
    let* made := lift (create_section_animation env i section_data output_dir) in
    let animation_path := fst made in
    let* _ := wrote_file By_animation animation_path (snd made) in
    let* others := animate_sections env output_dir (S i) r in
    ret (animation_path :: others)
  end.

(** The services [main.py] instantiates at module load. *)
Record App := {
  ai_service_manager : AIServiceManager;
  azure_speech_service : AzureSpeechService;
  backends : Backends;
  env : Env
}.

(** The [try] block of [process_content_generation]. *)
Definition process_steps (app : App) (job : str) (request : TopicRequest) : M unit :=
  let* _ := job_update_status job (u "generating_text") 10
              (u "Generating explanation text...") None in
  let* explanation_data :=
    lift (generate_enhanced_content (backends app) (ai_service_manager app)
            (topic request) (DifficultyLevel_value (difficulty_level request))
            (TargetAudience_value (target_audience request)) EDUCATIONAL true) in
  let output_dir := u "./outputs/" ++ job in
  let* _ := save_explanation (env app) (topic request) explanation_data output_dir in
  let* _ := job_update_status job (u "generating_audio") 30
              (u "Converting text to speech...") None in
  let* text :=
    lift (let? x := py_dot_get explanation_data (u "full_explanation")
                      (JStr default_narration) in as_str x) in
  let* audio_path :=
    text_to_speech (env app) (azure_speech_service app) text
      (output_dir ++ u "/narration.wav") in
  let* _ := job_update_status job (u "generating_animations") 50
              (u "Creating animated visuals...") None in
  let* secs := lift (py_dot_get explanation_data (u "sections") (JList [])) in
  let* sections := lift (py_iter secs) in
  let* animation_paths := animate_sections (env app) output_dir 0 sections in
  let* _ := job_update_status job (u "combining_video") 80
              (u "Combining audio and visuals...") None in
  let* final_video_path :=
    create_final_video (env app) audio_path animation_paths
      (output_dir ++ u "/final_video.mp4") in
  job_update_status job (u "completed") 100
    (u "Content generation completed successfully!")
    (Some (JDict [ (u "audio_path", JStr audio_path);
                   (u "video_path", JStr final_video_path);
                   (u "text_path", JStr (output_dir ++ u "/explanation.txt"));
                   (u "sections", secs) ])).

(** The [except] block of [process_content_generation]. *)
Definition mark_failed (job : str) (e : exn) : M unit :=
  let* st := get_job job in
  job_update_status job (u "failed") (progress st)
    (u "Content generation failed: " ++ exn_text e) None.

Definition process_content_generation (app : App) (job : str)
    (request : TopicRequest) : M unit :=
  try_except (process_steps app job request) (mark_failed job).

(** [generate_content]: the job is registered and the background task is
    scheduled; [new_id] is the value of [str(uuid.uuid4())]. *)
Definition generate_content (new_id : str) (request : TopicRequest)
  : M ContentResponse :=
  let* _ := set_job new_id (started_status new_id) in
  ret {| response_job_id := new_id; response_status := u "processing";
         response_message :=
           u "Content generation started. Use the job_id to check progress." |}.

Definition get_processing_status (job : str) : M ProcessingStatus :=
  fun w =>
    match processing_jobs w !! job with
    | Some st => (Ok st, w)
    | None => (Raise (HTTPException 404 (u "Job not found")), w)
    end.

Definition download_file (job : str) (file_type : str) : M str :=
  let* job_status := get_processing_status job in
  if negb (str_eqb (status job_status) (u "completed"))
  then raise (HTTPException 400 (u "Job not completed yet"))
  else
    let base_path := u "./outputs/" ++ job in
    let* file_path :=
      (if str_eqb file_type (u "audio") then ret (base_path ++ u "/narration.wav")
       else if str_eqb file_type (u "video") then ret (base_path ++ u "/final_video.mp4")
       else if str_eqb file_type (u "text") then ret (base_path ++ u "/explanation.txt")
       else raise (HTTPException 400 (u "Invalid file type"))) in
    let* there := exists_ file_path in
    if there : bool then ret file_path
    else raise (HTTPException 404 (u "File not found")).

Definition get_video (job : str) : M str :=
  let* job_status := get_processing_status job in
  if negb (str_eqb (status job_status) (u "completed"))
  then raise (HTTPException 400 (u "Job not completed yet"))
  else
    let video_path := u "./outputs/" ++ job ++ u "/final_video.mp4" in
    let* there := exists_ video_path in
    if there : bool then ret video_path
    else raise (HTTPException 404 (u "Video file not found")).

End Pipeline.

(** The status updates of one job, in the order they were made. *)
Fixpoint job_trace (job : str) (evs : list Event) : list ProcessingStatus :=
  match evs with
  | [] => []
  | StatusUpdate j st :: r =>
    if str_eqb j job then st :: job_trace job r else job_trace job r
  | _ :: r => job_trace job r
  end.

(** A computation that leaves the job registry alone and records no status
    update. *)
Definition no_status (evs : list Event) : Prop :=
  forall j, job_trace j evs = [].

Definition quiet {A} (m : M A) : Prop :=
  forall w,
    processing_jobs (m w).2 = processing_jobs w
    /\ exists evs, events (m w).2 = events w ++ evs /\ no_status evs.

(** The progress values a job moves through. *)
Definition checkpoints : list Z := [0; 10; 30; 50; 80; 100]%Z.

Definition is_failed (st : ProcessingStatus) : bool :=
  str_eqb (status st) (u "failed").

(** The job [job] has status [st] and [tr] lists its status updates since
    the events [evs0]. *)
Definition job_at (job : str) (evs0 : list Event) (st : ProcessingStatus)
    (tr : list ProcessingStatus) (w : World) : Prop :=
  processing_jobs w !! job = Some st
  /\ exists evs, events w = evs0 ++ evs /\ job_trace job evs = tr.

(** The job has gone through the first [k] checkpoints after 0 and has not
    failed. *)
Definition job_reached (job : str) (evs0 : list Event) (st0 : ProcessingStatus)
    (k : nat) (st : ProcessingStatus) (w : World) : Prop :=
  exists tr,
    job_at job evs0 st tr w
    /\ map progress tr = take k (drop 1 checkpoints)
    /\ last (st0 :: tr) = Some st
    /\ Forall (fun s => is_failed s = false /\ error s = error st0) tr.

(** ** Concrete environments to run the model on *)

(** The JSON literal of a string without quote, backslash or control
    character. *)
Definition json_string (s : str) : str := 34%N :: s ++ [34%N].


Definition empty_world : World :=
  {| files := ∅; events := []; processing_jobs := ∅ |}.

(** No synthesis engine, no ffmpeg, no MoviePy; directories and files can
    be written, and the WAV writer works. *)
Definition no_tools_env : Env :=
  {| makedirs_ok := fun _ => true;
     open_w_ok := fun _ => true;
     remove_ok := fun _ => true;
     subprocess_run := fun _ => Throws (FileNotFoundError (u "[Errno 2] No such file or directory")) None;
     pyttsx3 := fun _ _ => Throws (ImportError (u "No module named 'pyttsx3'")) None;
     gtts := fun _ _ => Throws (ImportError (u "No module named 'gtts'")) None;
     wave_write := fun _ _ => None;
     azure_speak := fun _ _ => AzureRaises (AttributeError (u "speech_config"));
     azure_times_out := fun _ _ => false;
     MOVIEPY_AVAILABLE := false;
     audio_duration := fun _ => Raise (Exception (u "MoviePy is not available"));
     moviepy_render := fun _ => Throws (Exception (u "MoviePy is not available")) None;
     create_section_animation := fun i _ dir =>
       Ok (dir ++ u "/slide_" ++ str_of_nat i ++ u ".png", Some 2048%N) |}.

(** As [no_tools_env], with a WAV writer that fails (the sample buffer does
    not fit in memory, or the disk is full). *)
Definition no_wave_env : Env :=
  {| makedirs_ok := makedirs_ok no_tools_env;
     open_w_ok := open_w_ok no_tools_env;
     remove_ok := remove_ok no_tools_env;
     subprocess_run := subprocess_run no_tools_env;
     pyttsx3 := pyttsx3 no_tools_env;
     gtts := gtts no_tools_env;
     wave_write := fun _ _ => Some (Exception (u "MemoryError"));
     azure_speak := azure_speak no_tools_env;
     azure_times_out := azure_times_out no_tools_env;
     MOVIEPY_AVAILABLE := MOVIEPY_AVAILABLE no_tools_env;
     audio_duration := audio_duration no_tools_env;
     moviepy_render := moviepy_render no_tools_env;
     create_section_animation := create_section_animation no_tools_env |}.

(** As [no_wave_env], on a file system that cannot be written. *)
Definition read_only_env : Env :=
  {| makedirs_ok := fun _ => false;
     open_w_ok := fun _ => false;
     remove_ok := fun _ => false;
     subprocess_run := subprocess_run no_tools_env;
     pyttsx3 := pyttsx3 no_tools_env;
     gtts := gtts no_tools_env;
     wave_write := fun _ _ => Some (OSError (u "Read-only file system"));
     azure_speak := azure_speak no_tools_env;
     azure_times_out := azure_times_out no_tools_env;
     MOVIEPY_AVAILABLE := MOVIEPY_AVAILABLE no_tools_env;
     audio_duration := audio_duration no_tools_env;
     moviepy_render := moviepy_render no_tools_env;
     create_section_animation := create_section_animation no_tools_env |}.

(** Every tool works: Azure completes each synthesis and ffmpeg succeeds. *)
Definition all_tools_env : Env :=
  {| makedirs_ok := fun _ => true;
     open_w_ok := fun _ => true;
     remove_ok := fun _ => true;
     subprocess_run := fun _ => Returns 0 (Some 4096%N);
     pyttsx3 := fun _ _ => Returns 0 (Some 4096%N);
     gtts := fun _ _ => Returns 0 (Some 4096%N);
     wave_write := fun _ _ => None;
     azure_speak := fun _ _ => SynthesizingAudioCompleted (Some 4096%N);
     azure_times_out := fun _ _ => false;
     MOVIEPY_AVAILABLE := true;
     audio_duration := fun _ => Ok 20%Q;
     moviepy_render := fun _ => Returns 0 (Some 65536%N);
     create_section_animation := fun i _ dir =>
       Ok (dir ++ u "/slide_" ++ str_of_nat i ++ u ".png", Some 2048%N) |}.

Definition silent_backends : Backends :=
  {| groq_chat := fun _ _ _ _ => Raise (Exception (u "Connection error."));
     openai_chat := fun _ _ _ _ => Raise (Exception (u "Connection error.")) |}.

(** No API key at all: no model is available. *)
Definition unconfigured_app : App :=
  {| ai_service_manager := AIServiceManager_init None None true true;
     azure_speech_service := AzureSpeechService_init None None;
     backends := silent_backends;
     env := no_tools_env |}.

(** A Groq key, a backend that cannot be reached, no tool installed. *)
Definition offline_app : App :=
  {| ai_service_manager := AIServiceManager_init (Some (u "gsk-test")) None true true;
     azure_speech_service := AzureSpeechService_init None None;
     backends := silent_backends;
     env := no_tools_env |}.

Definition gravity_request : TopicRequest :=
  {| topic := u "Gravity"; difficulty_level := BEGINNER;
     target_audience := STUDENTS; voice_name := None;
     animation_style := Some (u "hand_drawn"); duration_preference := Some 5%Z |}.

(** What the [try] block leaves behind: the job has gone through the first
    [k] checkpoints, all five when the block returns. *)
Definition steps_post (job : str) (evs0 : list Event) (st0 : ProcessingStatus)
    (rw : Res unit * World) : Prop :=
  exists k st,
    (1 <= k <= 5)%nat
    /\ (forall a, rw.1 = Ok a -> k = 5%nat)
    /\ job_reached job evs0 st0 k st rw.2.

(** What [_fallback_text_to_speech] leaves: the output path with a file
    that a tier vouched for, or the silent WAV file, or an empty file when
    the WAV writer failed; it raises only when the last [open] fails too. *)
Definition fallback_post (env : Env) (text path : str) (rw : Res str * World) : Prop :=
  match rw.1 with
  | Ok p =>
    p = path
    /\ exists f, files rw.2 !! path = Some f
       /\ ((1000 < getsize f)%N
           \/ (exists wr, subprocess_run env (espeak_cmd text path) = Returns 0 wr)
           \/ (wave_write env path (num_samples text) = None
               /\ f = Binary By_wave (wav_size (num_samples text)))
           \/ (wave_write env path (num_samples text) <> None
               /\ open_w_ok env path = true /\ f = Text []))
  | Raise _ =>
    wave_write env path (num_samples text) <> None /\ open_w_ok env path = false
  end.

(** What the fallback path of the assembler leaves when the output path can
    be written: the output path with a file, which is a text file unless
    ffmpeg exited with status 0. *)
Definition simple_video_post (env : Env) (path : str) (rw : Res str * World) : Prop :=
  exists w' f,
    rw = (Ok path, w')
    /\ files w' !! path = Some f
    /\ ((forall cmd wr, subprocess_run env cmd <> Returns 0 wr) ->
        exists t, f = Text t /\ t <> []).

(** The primary path cannot produce a video: MoviePy is missing, the audio
    cannot be loaded, or rendering raises. *)
Definition moviepy_fails (env : Env) (audio_path : str) : Prop :=
  MOVIEPY_AVAILABLE env = false
  \/ (exists e, audio_duration env audio_path = Raise e)
  \/ (forall plan, exists e wr, moviepy_render env plan = Throws e wr).

(** [[current_chunk] if current_chunk else []] *)
Definition open_chunk (current_chunk : str) : list str :=
  match current_chunk with [] => [] | _ => [current_chunk] end.

(** The chunks of [_text_to_speech_chunked] before they are trimmed, in
    order, the one still open at the end of the loop included. *)
Fixpoint pack_raw (sentences : list str) (current_chunk : str) : list str :=
  match sentences with
  | [] => open_chunk current_chunk
  | sentence :: rest =>
    if (length (current_chunk ++ sentence) <? 1500)%nat
    then pack_raw rest (current_chunk ++ sentence ++ u ". ")
    else open_chunk current_chunk ++ pack_raw rest (sentence ++ u ". ")
  end.





(** The calls of the fallback chain, in the order of its tiers. *)
Definition tier_calls (text output_path : str) : list Event :=
  [ LibCall (u "pyttsx3") [text; output_path];
    Exec (espeak_cmd text output_path);
    LibCall (u "gTTS") [text; output_path] ].

(** [w'] is [w] after [evs] more events, with no file other than [path]
    touched and the job registry as it was. *)
Definition only_touched (path : str) (evs : list Event) (w w' : World) : Prop :=
  events w' = events w ++ evs
  /\ (forall q, q <> path -> files w' !! q = files w !! q)
  /\ processing_jobs w' = processing_jobs w.

(** The fallback chain has called its first [k] tiers and nothing else. *)
Definition tiers_called (text path : str) (w : World) (rw : Res str * World) : Prop :=
  exists k, (k <= 3)%nat /\ only_touched path (take k (tier_calls text path)) w rw.2.

(** The status of a job all of whose stages succeeded. *)
Definition completed_status (st0 : ProcessingStatus) (job audio_path video_path : str)
    (sections : json) : ProcessingStatus :=
  {| job_id := job_id st0;
     status := u "completed";
     progress := 100;
     message := u "Content generation completed successfully!";
     result_data :=
       Some (JDict [ (u "audio_path", JStr audio_path);
                     (u "video_path", JStr video_path);
                     (u "text_path", JStr ((u "./outputs/" ++ job) ++ u "/explanation.txt"));
                     (u "sections", sections) ]);
     error := error st0 |}.

(** What the [try] block leaves in the registry: the completed status, or
    a status of one of the four stages with the result data untouched. *)
Definition steps_result (job : str) (st0 : ProcessingStatus)
    (rw : Res unit * World) : Prop :=
  match rw.1 with
  | Ok _ =>
    exists audio_path video_path sections,
      processing_jobs rw.2 !! job
      = Some (completed_status st0 job audio_path video_path sections)
  | Raise _ =>
    exists st,
      processing_jobs rw.2 !! job = Some st
      /\ result_data st = result_data st0
      /\ progress st ∈ [10; 30; 50; 80]%Z
  end.

(** A computation that leaves the registry entries of all jobs but [job]
    as they are. *)
Definition others_kept {A} (job : str) (m : M A) : Prop :=
  forall w other,
    other <> job -> processing_jobs (m w).2 !! other = processing_jobs w !! other.

(** [kv'] has the keys of [kv], in the same order, and the same values
    except under [sections] and [full_explanation]. *)
Definition formatted_from (kv kv' : list (str * json)) : Prop :=
  map fst kv' = map fst kv
  /\ forall k, k <> u "sections" -> k <> u "full_explanation" ->
               dict_get k kv' = dict_get k kv.

(* ================================================================== *)
(** * Part II: theorems *)
(* ================================================================== *)

(** ** Strings *)

Lemma startswith_app (t post : str) : startswith t (t ++ post) = true.
Proof.
  induction t as [|c t IH]; simpl; [reflexivity|].
  rewrite N.eqb_refl. exact IH.
Qed.

Lemma startswith_prefix (t s : str) :
  startswith t s = true -> exists post, s = t ++ post.
Proof.
  revert s. induction t as [|c t IH]; intros s Hs.
  - exists s. reflexivity.
  - destruct s as [|d s]; simpl in Hs; [discriminate|].
    apply andb_prop in Hs as [Hcd Hs]. apply N.eqb_eq in Hcd as ->.
    destruct (IH _ Hs) as [post ->]. exists post. reflexivity.
Qed.

Lemma contains_substring (t s : str) : contains t s = true <-> substring t s.
Proof.
  split.
  - induction s as [|c s IH]; simpl; intros Hc.
    + rewrite orb_false_r in Hc. apply startswith_prefix in Hc as [post ->].
      exists [], post. reflexivity.
    + apply orb_prop in Hc as [Hc|Hc].
      * apply startswith_prefix in Hc as [post ->]. exists [], post. reflexivity.
      * destruct (IH Hc) as (pre & post & ->). exists (c :: pre), post. reflexivity.
  - intros (pre & post & ->). induction pre as [|c pre IH].
    + destruct (t ++ post) eqn:E; simpl; rewrite <- E, startswith_app; reflexivity.
    + simpl. rewrite IH. apply orb_true_r.
Qed.

Lemma substring_refl (t : str) : substring t t.
Proof. exists [], []. rewrite app_nil_r. reflexivity. Qed.

Lemma substring_here (t post : str) : substring t (t ++ post).
Proof. exists [], post. reflexivity. Qed.

Lemma substring_skip (t pre s : str) : substring t s -> substring t (pre ++ s).
Proof.
  intros (p & q & ->). exists (pre ++ p), q. rewrite <- app_assoc. reflexivity.
Qed.

Ltac solve_substring :=
  repeat first [ apply substring_refl | apply substring_here | apply substring_skip ].

(** ** ModelSelector *)

(** C10. The result of [select_best_model] need not be a configured model:
    with [OPENAI_GPT4_TURBO] as the only available model and
    [speed_priority] set, the selector returns [OPENAI_GPT4], whatever the
    content type and the complexity. *)
Theorem select_best_model_outside_available :
  forall (groq openai : bool) (content_type : ContentType) (complexity : str),
    let self := {| groq_client := groq; openai_client := openai;
                   available_models := [OPENAI_GPT4_TURBO] |} in
    available_models self <> []
    /\ select_best_model self content_type complexity true = Ok OPENAI_GPT4
    /\ OPENAI_GPT4 ∉ available_models self.
Proof.
  intros groq openai content_type complexity self. split; [discriminate|].
  split; [reflexivity|]. subst self. simpl.
  apply not_elem_of_cons. split; [discriminate|apply not_elem_of_nil].
Qed.

(** The selector is a function of the available set and of the flags, and
    it raises exactly on the empty set. *)
Lemma select_best_model_raises_iff (self : AIServiceManager) ct c sp :
  (exists e, select_best_model self ct c sp = Raise e) <-> available_models self = [].
Proof.
  unfold select_best_model. split.
  - intros [e He]. destruct (available_models self) as [|m l]; [reflexivity|].
    exfalso. destruct sp, ct;
      repeat match type of He with
             | context [if ?b then _ else _] => destruct b
             end; discriminate.
  - intros ->. eexists. reflexivity.
Qed.

(** ** ContentGenerator: dispatch *)

(** C1. With an OpenAI key only, quality priority and creative content,
    the selector picks [OPENAI_GPT4_TURBO] from a non-empty available set
    and [generate_enhanced_content] raises "Unsupported model" for it,
    before any backend is called. *)
Theorem generate_enhanced_content_unsupported_model :
  forall (R : PyRuntime) (backends : Backends) (key topic difficulty audience : str),
    key <> [] ->
    let self := AIServiceManager_init None (Some key) true true in
    available_models self = [OPENAI_GPT4; OPENAI_GPT35; OPENAI_GPT4_TURBO]
    /\ select_best_model self CREATIVE difficulty false = Ok OPENAI_GPT4_TURBO
    /\ generate_enhanced_content backends self topic difficulty audience CREATIVE false
       = Raise (ValueError (u "Unsupported model: ModelType.OPENAI_GPT4_TURBO")).
Proof.
  intros R backends key topic difficulty audience Hkey self.
  destruct key as [|k key']; [congruence|].
  repeat split.
Qed.

Lemma generate_enhanced_content_unsupported_model_witness :
  let self := AIServiceManager_init None (Some (u "sk-test")) true true in
  available_models self = [OPENAI_GPT4; OPENAI_GPT35; OPENAI_GPT4_TURBO]
  /\ select_best_model self CREATIVE (u "beginner") false = Ok OPENAI_GPT4_TURBO
  /\ generate_enhanced_content (H := ascii_runtime)
       {| groq_chat := fun _ _ _ _ => Ok None; openai_chat := fun _ _ _ _ => Ok None |}
       self (u "Gravity") (u "beginner") (u "students") CREATIVE false
     = Raise (ValueError (u "Unsupported model: ModelType.OPENAI_GPT4_TURBO")).
Proof.
  apply (generate_enhanced_content_unsupported_model ascii_runtime
           {| groq_chat := fun _ _ _ _ => Ok None; openai_chat := fun _ _ _ _ => Ok None |}
           (u "sk-test") (u "Gravity") (u "beginner") (u "students")).
  discriminate.
Defined.

(** ** ContentGenerator: fallback templates *)

Lemma ai_template_core (topic d a : str) :
  length (bundle_sections (_create_ai_fallback_content topic d a)) = 3%nat
  /\ forallb section_ok (bundle_sections (_create_ai_fallback_content topic d a)) = true.
Proof. split; vm_compute; reflexivity. Qed.

Lemma science_template_core (topic d a : str) :
  length (bundle_sections (_create_science_fallback_content topic d a)) = 3%nat
  /\ forallb section_core_ok
       (bundle_sections (_create_science_fallback_content topic d a)) = true.
Proof. split; [reflexivity|]. destruct topic; vm_compute; reflexivity. Qed.

Lemma history_template_core (topic d a : str) :
  length (bundle_sections (_create_history_fallback_content topic d a)) = 3%nat
  /\ forallb section_core_ok
       (bundle_sections (_create_history_fallback_content topic d a)) = true.
Proof. split; [reflexivity|]. destruct topic; vm_compute; reflexivity. Qed.

Lemma general_template_core (topic d a : str) :
  length (bundle_sections (_create_general_fallback_content topic d a)) = 3%nat
  /\ forallb section_ok
       (bundle_sections (_create_general_fallback_content topic d a)) = true.
Proof. split; [reflexivity|]. destruct topic; vm_compute; reflexivity. Qed.

Lemma section_ok_core (l : list json) :
  forallb section_ok l = true -> forallb section_core_ok l = true.
Proof.
  induction l as [|x l IH]; simpl; [reflexivity|].
  intros Hl. apply andb_prop in Hl as [Hx Hl].
  unfold section_ok in Hx. apply andb_prop in Hx as [Hx _].
  rewrite Hx, (IH Hl). reflexivity.
Qed.

(** The fallback bundle is one of the four templates. *)
Lemma fallback_is_template `{PyRuntime} (topic d a : str) :
  let b := _create_fallback_content topic d a in
  b = _create_ai_fallback_content topic d a
  \/ b = _create_science_fallback_content topic d a
  \/ b = _create_history_fallback_content topic d a
  \/ b = _create_general_fallback_content topic d a.
Proof.
  unfold _create_fallback_content.
  destruct (_ || _); [left; reflexivity|].
  destruct (_ || _); [right; left; reflexivity|].
  destruct (_ || _); [right; right; left; reflexivity|].
  right; right; right; reflexivity.
Qed.

Lemma science_template_mentions (topic d a : str) :
  mentions_topic topic (_create_science_fallback_content topic d a).
Proof.
  split.
  - exists (u "Introduction to " ++ topic). split; [reflexivity|solve_substring].
  - eexists. split; [reflexivity|solve_substring].
Qed.

Lemma history_template_mentions (topic d a : str) :
  mentions_topic topic (_create_history_fallback_content topic d a).
Proof.
  split.
  - exists (u "Historical Background of " ++ topic). split; [reflexivity|solve_substring].
  - eexists. split; [reflexivity|solve_substring].
Qed.

Lemma general_template_mentions (topic d a : str) :
  mentions_topic topic (_create_general_fallback_content topic d a).
Proof.
  split.
  - exists (u "🌍 Explain " ++ topic). split; [reflexivity|solve_substring].
  - eexists. split; [reflexivity|solve_substring].
Qed.

Lemma fallback_content_core `{PyRuntime} (topic d a : str) :
  length (bundle_sections (_create_fallback_content topic d a)) = 3%nat
  /\ forallb section_core_ok (bundle_sections (_create_fallback_content topic d a)) = true.
Proof.
  unfold _create_fallback_content.
  destruct (_ || _).
  { pose proof (ai_template_core topic d a) as [Hlen Hok].
    split; [exact Hlen|apply section_ok_core, Hok]. }
  destruct (_ || _); [apply science_template_core|].
  destruct (_ || _); [apply history_template_core|].
  pose proof (general_template_core topic d a) as [Hlen Hok].
  split; [exact Hlen|apply section_ok_core, Hok].
Qed.

Lemma science_template_no_subheading (topic d a : str) :
  existsb (has_text (u "subheading"))
    (bundle_sections (_create_science_fallback_content topic d a)) = false.
Proof. reflexivity. Qed.

Lemma history_template_no_subheading (topic d a : str) :
  existsb (has_text (u "subheading"))
    (bundle_sections (_create_history_fallback_content topic d a)) = false.
Proof. reflexivity. Qed.

(** C4. The fallback bundle is the template that the first matching test
    on the lower-cased topic selects: "ai" or "artificial intelligence"
    gives the AI template; otherwise "science", "physics" or "chemistry"
    the science template; otherwise "history" or "war" the history
    template; otherwise the generic template. It has three sections that
    depend on the topic only, each with a non-empty title, content and
    visual description, a duration estimate and 3 or 4 non-empty key
    points. Every section of the AI and of the generic template has a
    non-empty subheading as well; no section of the science and of the
    history template has one. The sections of the AI template are fixed
    text; in the other three templates the topic occurs in the title of
    the first section and in the narration. *)
Theorem fallback_content_invariants :
  forall (R : PyRuntime) (topic difficulty audience : str),
    let t := str_lower topic in
    let is_ai := contains (u "ai") t || contains (u "artificial intelligence") t in
    let is_science :=
      contains (u "science") t || contains (u "physics") t
      || contains (u "chemistry") t in
    let is_history := contains (u "history") t || contains (u "war") t in
    let b := _create_fallback_content topic difficulty audience in
    b = (if is_ai then _create_ai_fallback_content topic difficulty audience
         else if is_science
         then _create_science_fallback_content topic difficulty audience
         else if is_history
         then _create_history_fallback_content topic difficulty audience
         else _create_general_fallback_content topic difficulty audience)
    /\ length (bundle_sections b) = 3%nat
    /\ forallb section_core_ok (bundle_sections b) = true
    /\ (forall d' a',
          bundle_sections (_create_fallback_content topic d' a') = bundle_sections b)
    /\ (if is_ai || negb (is_science || is_history)
        then forallb section_ok (bundle_sections b) = true
        else existsb (has_text (u "subheading")) (bundle_sections b) = false)
    /\ (if is_ai
        then forall topic',
               bundle_sections (_create_ai_fallback_content topic' difficulty audience)
               = bundle_sections b
        else mentions_topic topic b).
Proof.
  intros R topic d a t is_ai is_science is_history b.
  subst b. unfold _create_fallback_content. fold t. fold is_ai. fold is_science.
  fold is_history.
  destruct is_ai.
  { pose proof (ai_template_core topic d a) as [Hlen Hok].
    split; [reflexivity|]. split; [exact Hlen|].
    split; [apply section_ok_core, Hok|].
    split; [reflexivity|]. split; [exact Hok|reflexivity]. }
  destruct is_science.
  { pose proof (science_template_core topic d a) as [Hlen Hok].
    split; [reflexivity|]. split; [exact Hlen|]. split; [exact Hok|].
    split; [reflexivity|]. split; [apply science_template_no_subheading|].
    apply science_template_mentions. }
  destruct is_history.
  { pose proof (history_template_core topic d a) as [Hlen Hok].
    split; [reflexivity|]. split; [exact Hlen|]. split; [exact Hok|].
    split; [reflexivity|]. split; [apply history_template_no_subheading|].
    apply history_template_mentions. }
  pose proof (general_template_core topic d a) as [Hlen Hok].
  split; [reflexivity|]. split; [exact Hlen|].
  split; [apply section_ok_core, Hok|]. split; [reflexivity|].
  split; [exact Hok|]. apply general_template_mentions.
Qed.

(** The claim as the specification words it fails on three templates: for
    the topic "Spain" (which contains "ai") no section title and no
    narration mentions the topic; for the topics "Physics" and "Cold War"
    the sections carry no subheading. *)
Lemma fallback_content_claim_fails :
  (let b := _create_fallback_content (H := ascii_runtime)
              (u "Spain") (u "beginner") (u "students") in
   b = _create_ai_fallback_content (u "Spain") (u "beginner") (u "students")
   /\ some_title_mentions (u "Spain") b = false
   /\ narration_mentions (u "Spain") b = false)
  /\ (let b := _create_fallback_content (H := ascii_runtime)
                 (u "Physics") (u "beginner") (u "students") in
      b = _create_science_fallback_content (u "Physics") (u "beginner") (u "students")
      /\ existsb (has_text (u "subheading")) (bundle_sections b) = false
      /\ forallb section_ok (bundle_sections b) = false)
  /\ (let b := _create_fallback_content (H := ascii_runtime)
                 (u "Cold War") (u "beginner") (u "students") in
      b = _create_history_fallback_content (u "Cold War") (u "beginner") (u "students")
      /\ existsb (has_text (u "subheading")) (bundle_sections b) = false
      /\ forallb section_ok (bundle_sections b) = false).
Proof. repeat split; vm_compute; reflexivity. Qed.

(** ** ContentGenerator: response handling *)

Lemma str_eqb_eq (a b : str) : str_eqb a b = true <-> a = b.
Proof. unfold str_eqb. apply bool_decide_eq_true. Qed.

Lemma dict_get_set_same (k : str) (v : json) (kv : list (str * json)) :
  dict_get k (dict_set k v kv) = Some v.
Proof.
  induction kv as [|[k' v'] kv IH]; simpl.
  - unfold str_eqb. rewrite bool_decide_eq_true_2; reflexivity.
  - destruct (str_eqb k k') eqn:E; simpl.
    + unfold str_eqb. rewrite bool_decide_eq_true_2; reflexivity.
    + rewrite E. exact IH.
Qed.

Lemma dict_get_set_other (k k' : str) (v : json) (kv : list (str * json)) :
  k <> k' -> dict_get k (dict_set k' v kv) = dict_get k kv.
Proof.
  intros Hne. induction kv as [|[k2 v2] kv IH]; simpl.
  - unfold str_eqb. rewrite bool_decide_eq_false_2; auto.
  - destruct (str_eqb k' k2) eqn:E; simpl.
    + apply str_eqb_eq in E as <-.
      unfold str_eqb. rewrite !bool_decide_eq_false_2; auto.
    + destruct (str_eqb k k2); auto.
Qed.

Lemma mapM_length {A B} (f : A -> Res B) (l : list A) (l' : list B) :
  mapM f l = Ok l' -> length l' = length l.
Proof.
  revert l'. induction l as [|x l IH]; simpl; intros l' Hl.
  - inversion Hl. reflexivity.
  - destruct (f x); simpl in Hl; [|discriminate].
    destruct (mapM f l); simpl in Hl; [|discriminate].
    inversion Hl. simpl. f_equal. apply IH. reflexivity.
Qed.

Lemma sections_after_full_explanation (kv : list (str * json)) (e : json) :
  bundle_sections (JDict (dict_set (u "full_explanation") e kv))
  = bundle_sections (JDict kv).
Proof.
  unfold bundle_sections. rewrite dict_get_set_other; [reflexivity|].
  vm_compute. discriminate.
Qed.

(** The last step of [_enhance_content_formatting] keeps the sections. *)
Lemma enhance_full_explanation_sections (data b : json) :
  (let? has_full := py_in (u "full_explanation") data in
   if has_full : bool then
     let? e := py_getitem data (u "full_explanation") in
     let? e := on_str _format_full_explanation e in
     py_setitem data (u "full_explanation") e
   else Ok data) = Ok b ->
  bundle_sections b = bundle_sections data.
Proof.
  intros Hb. destruct data as [| | | |l|kv]; simpl in Hb; try discriminate.
  - destruct (contains _ _); simpl in Hb; [discriminate|]. inversion Hb. reflexivity.
  - destruct (existsb _ _); simpl in Hb; [discriminate|]. inversion Hb. reflexivity.
  - destruct (bool_decide _); simpl in Hb; [|inversion Hb; reflexivity].
    destruct (dict_get _ kv) as [e|]; simpl in Hb; [|discriminate].
    destruct e; simpl in Hb; try discriminate.
    inversion Hb. apply sections_after_full_explanation.
Qed.

Lemma res_bind_Ok {A B} (r : Res A) (k : A -> Res B) (b : B) :
  res_bind r k = Ok b -> exists a, r = Ok a /\ k a = Ok b.
Proof. destruct r as [a|e]; simpl; [eauto|discriminate]. Qed.

(** Formatting keeps the number of sections: the list under [sections] is
    neither checked nor resized. *)
Lemma enhance_preserves_section_count `{PyRuntime} (data b : json) (topic : str) :
  _enhance_content_formatting data topic = Ok b ->
  length (bundle_sections b) = length (bundle_sections data).
Proof.
  unfold _enhance_content_formatting. intros Hb.
  apply res_bind_Ok in Hb as (has & Hin & Hb).
  apply res_bind_Ok in Hb as (data1 & Hdata1 & Hb).
  rewrite (enhance_full_explanation_sections _ _ Hb).
  destruct has; [|inversion Hdata1; reflexivity].
  apply res_bind_Ok in Hdata1 as (secs & Hget & Hdata1).
  apply res_bind_Ok in Hdata1 as (items & Hit & Hdata1).
  apply res_bind_Ok in Hdata1 as (items' & Hmap & Hdata1).
  destruct data as [| | | |l|kv]; simpl in Hget; try discriminate.
  destruct (dict_get (u "sections") kv) as [x|] eqn:Hx; [|discriminate].
  inversion Hget; subst x.
  destruct secs as [| | | |l|kv']; try (inversion Hdata1; reflexivity).
  simpl in Hit. inversion Hit; subst items.
  simpl in Hdata1. inversion Hdata1.
  unfold bundle_sections. rewrite dict_get_set_same, Hx.
  apply (mapM_length _ _ _ Hmap).
Qed.

Lemma literal_printable (pre x post : str) :
  existsb is_surrogate pre = false -> existsb is_surrogate post = false ->
  py_print (pre ++ x ++ post)
  = if existsb is_surrogate x
    then Raise (UnicodeEncodeError
                  (u "'utf-8' codec can't encode character: surrogates not allowed"))
    else Ok tt.
Proof.
  intros Hpre Hpost. unfold py_print.
  rewrite !existsb_app, Hpre, Hpost, orb_false_r. reflexivity.
Qed.

(** The handler's previews print unless one of them holds a lone
    surrogate. *)
Lemma print_previews_spec (content : str) :
  print_previews content
  = if existsb is_surrogate (take 500 content ++ take 500 (clean_json content))
    then Raise (UnicodeEncodeError
                  (u "'utf-8' codec can't encode character: surrogates not allowed"))
    else Ok tt.
Proof.
  unfold print_previews.
  rewrite !literal_printable by (vm_compute; reflexivity).
  rewrite existsb_app.
  destruct (existsb is_surrogate (take 500 content)); [reflexivity|].
  destruct (existsb is_surrogate (take 500 (clean_json content))); reflexivity.
Qed.

(** What the handler of [_parse_enhanced_response] does once the [try]
    block has raised. *)
Lemma parse_handler `{PyRuntime} (content topic : str) (e : exn) :
  parse_body content topic = Raise e ->
  _parse_enhanced_response (Some content) topic
  = if existsb is_surrogate (take 500 content ++ take 500 (clean_json content))
    then Raise (UnicodeEncodeError
                  (u "'utf-8' codec can't encode character: surrogates not allowed"))
    else Ok (_create_fallback_content topic (u "beginner") (u "students")).
Proof.
  intros Hbody. unfold _parse_enhanced_response. rewrite Hbody, print_previews_spec.
  destruct (existsb _ _); reflexivity.
Qed.

(** C5. Response handling does not validate the sections. Whenever the
    cleaned reply decodes and formatting succeeds, the decoded object is
    what is returned, formatted, with a section list of the length the
    backend gave it, zero and more than six included. When decoding or
    formatting fails, the handler prints the first 500 characters of the
    reply and of the cleaned text and returns the fallback bundle built
    for "beginner" and "students" (three sections, each with 3 or 4 key
    points); when one of the two previews holds a lone surrogate, [print]
    raises and so does the method. *)
Theorem parse_enhanced_response_unvalidated :
  forall (R : PyRuntime) (content topic : str),
    (forall data b,
        json_loads (clean_json content) = Some data ->
        _enhance_content_formatting data topic = Ok b ->
        _parse_enhanced_response (Some content) topic = Ok b
        /\ length (bundle_sections b) = length (bundle_sections data))
    /\ (json_loads (clean_json content) = None
        \/ (exists data e,
              json_loads (clean_json content) = Some data
              /\ _enhance_content_formatting data topic = Raise e) ->
        if existsb is_surrogate (take 500 content ++ take 500 (clean_json content))
        then exists msg,
               _parse_enhanced_response (Some content) topic
               = Raise (UnicodeEncodeError msg)
        else _parse_enhanced_response (Some content) topic
             = Ok (_create_fallback_content topic (u "beginner") (u "students"))
             /\ length (bundle_sections
                          (_create_fallback_content topic (u "beginner") (u "students")))
                = 3%nat
             /\ forallb section_core_ok
                  (bundle_sections
                     (_create_fallback_content topic (u "beginner") (u "students")))
                = true).
Proof.
  intros R content topic. split.
  - intros data b Hload Hfmt. split.
    + unfold _parse_enhanced_response, parse_body. rewrite Hload, Hfmt. reflexivity.
    + apply (enhance_preserves_section_count _ _ _ Hfmt).
  - intros Hfail.
    assert (Hbody : exists e, parse_body content topic = Raise e).
    { unfold parse_body. destruct Hfail as [Hload|(data & e & Hload & Hfmt)];
        rewrite Hload; eauto. }
    destruct Hbody as (e & Hbody). rewrite (parse_handler content topic e Hbody).
    destruct (existsb _ _); [eauto|].
    pose proof (fallback_content_core topic (u "beginner") (u "students"))
      as (Hlen & Hok).
    split; [reflexivity|]. split; [exact Hlen|exact Hok].
Qed.

(** A reply whose section list is empty is returned as it is decoded. *)
Lemma parse_enhanced_response_unvalidated_witness :
  _parse_enhanced_response (H := ascii_runtime)
    (Some (u "{" ++ json_string (u "sections") ++ u ": [], " ++ json_string (u "summary") ++ u ": "
       ++ json_string (u "none") ++ u "}")) (u "Gravity")
  = Ok (JDict [(u "sections", JList []); (u "summary", JStr (u "none"))])
  /\ length (bundle_sections
               (JDict [(u "sections", JList []); (u "summary", JStr (u "none"))]))
     = length (bundle_sections
                 (JDict [(u "sections", JList []); (u "summary", JStr (u "none"))])).
Proof.
  apply (proj1 (parse_enhanced_response_unvalidated ascii_runtime
                  (u "{" ++ json_string (u "sections") ++ u ": [], " ++ json_string (u "summary") ++ u ": "
       ++ json_string (u "none") ++ u "}") (u "Gravity"))).
  - vm_compute. reflexivity.
  - vm_compute. reflexivity.
Defined.

(** The claim as the specification words it fails three times: the reply
    [{}] is decoded and returned as it is, a bundle without sections, also
    through [generate_enhanced_content]; a reply with seven sections is
    returned with its seven sections; and a reply that does not decode and
    holds a lone surrogate makes the method raise. *)
Lemma parse_enhanced_response_accepts_no_sections :
  _parse_enhanced_response (H := ascii_runtime) (Some (u "{}")) (u "Gravity")
  = Ok (JDict [])
  /\ bundle_sections (JDict []) = []
  /\ bundle_ok (JDict []) = false
  /\ generate_enhanced_content (H := ascii_runtime)
       {| groq_chat := fun _ _ _ _ => Ok (Some (u "{}"));
          openai_chat := fun _ _ _ _ => Ok (Some (u "{}")) |}
       (AIServiceManager_init (Some (u "gsk-test")) None true true)
       (u "Gravity") (u "beginner") (u "students") EDUCATIONAL true
     = Ok (JDict [])
  /\ (exists b,
        _parse_enhanced_response (H := ascii_runtime)
          (Some (u "{" ++ json_string (u "sections") ++ u ": [{}, {}, {}, {}, {}, {}, {}]}")) (u "Gravity") = Ok b
        /\ length (bundle_sections b) = 7%nat
        /\ bundle_ok b = false)
  /\ _parse_enhanced_response (H := ascii_runtime)
       (Some (55296%N :: u " is not JSON")) (u "Gravity")
     = Raise (UnicodeEncodeError
                (u "'utf-8' codec can't encode character: surrogates not allowed")).
Proof.
  split; [vm_compute; reflexivity|]. split; [reflexivity|].
  split; [vm_compute; reflexivity|]. split; [vm_compute; reflexivity|].
  split; [|vm_compute; reflexivity].
  eexists. split; [vm_compute; reflexivity|]. split; vm_compute; reflexivity.
Qed.

(** ** VideoAssembler: the primary path *)

Lemma existing_spec (paths : list str) (fs : gmap str file) (p : str) :
  p ∈ existing paths fs <-> p ∈ paths /\ is_Some (fs !! p).
Proof.
  induction paths as [|q paths IH]; simpl.
  - split; [intros Hp; inversion Hp|intros [Hp _]; inversion Hp].
  - destruct (bool_decide (is_Some (fs !! q))) eqn:Hq.
    + apply bool_decide_eq_true in Hq. rewrite !elem_of_cons, IH.
      split; [intros [->|[? ?]]; auto|intros [[->|?] ?]; auto].
    + apply bool_decide_eq_false in Hq. rewrite elem_of_cons, IH.
      split; [intros [? ?]; auto|intros [[->|?] ?]; [contradiction|auto]].
Qed.

Lemma elem_of_map {A B} (f : A -> B) (l : list A) (y : B) :
  y ∈ map f l <-> exists x, y = f x /\ x ∈ l.
Proof.
  induction l as [|a l IH]; simpl.
  - split; [intros Hy; inversion Hy|intros (x & _ & Hx); inversion Hx].
  - rewrite elem_of_cons, IH. split.
    + intros [->|(x & -> & Hx)]; [exists a|exists x]; rewrite elem_of_cons; auto.
    + intros (x & -> & Hx). apply elem_of_cons in Hx as [->|Hx]; eauto.
Qed.



(** In the witness the slide that does not exist is left out and the two
    others last six seconds and a third each. *)
Lemma moviepy_plan_example :
  let fs : gmap str file :=
    <[u "s0.png" := Binary By_animation 2048]>
      (<[u "s2.png" := Binary By_animation 2048]> ∅) in
  video_clip (plan_video (u "a.wav") 20 [u "s0.png"; u "s1.png"; u "s2.png"]
                (u "v.mp4") fs)
  = Concatenated
      [ ImageClip (u "s0.png") ((20 - inject_Z (3 - 1) * (1 # 2)) / inject_Z 3)
          (1920, 1080)%nat;
        ImageClip (u "s2.png") ((20 - inject_Z (3 - 1) * (1 # 2)) / inject_Z 3)
          (1920, 1080)%nat ].
Proof. vm_compute. reflexivity. Qed.

(** ** Effects: what the stages leave alone *)

Lemma job_trace_app (j : str) (a b : list Event) :
  job_trace j (a ++ b) = job_trace j a ++ job_trace j b.
Proof.
  induction a as [|e a IH]; simpl; [reflexivity|].
  destruct e; auto. destruct (str_eqb job j); simpl; rewrite IH; reflexivity.
Qed.

Lemma no_status_nil : no_status [].
Proof. intros j. reflexivity. Qed.

Lemma no_status_app (a b : list Event) :
  no_status a -> no_status b -> no_status (a ++ b).
Proof. intros Ha Hb j. rewrite job_trace_app, Ha, Hb. reflexivity. Qed.

Lemma quiet_ret {A} (a : A) : quiet (ret a).
Proof.
  intros w. split; [reflexivity|]. exists []. rewrite app_nil_r.
  split; [reflexivity|apply no_status_nil].
Qed.

Lemma quiet_raise {A} (e : exn) : quiet (@raise A e).
Proof.
  intros w. split; [reflexivity|]. exists []. rewrite app_nil_r.
  split; [reflexivity|apply no_status_nil].
Qed.

Lemma quiet_lift {A} (r : Res A) : quiet (lift r).
Proof.
  intros w. split; [reflexivity|]. exists []. rewrite app_nil_r.
  split; [reflexivity|apply no_status_nil].
Qed.

Lemma quiet_bind {A B} (m : M A) (k : A -> M B) :
  quiet m -> (forall a, quiet (k a)) -> quiet (bind m k).
Proof.
  intros Hm Hk w. unfold bind. specialize (Hm w).
  destruct (m w) as [[a|e] w1]; simpl in Hm.
  - destruct Hm as (Hj & evs & Hev & Hns). specialize (Hk a w1).
    destruct Hk as (Hj' & evs' & Hev' & Hns').
    split; [congruence|]. exists (evs ++ evs').
    rewrite Hev', Hev, app_assoc. split; [reflexivity|apply no_status_app; auto].
  - exact Hm.
Qed.

Lemma quiet_try_except {A} (m : M A) (h : exn -> M A) :
  quiet m -> (forall e, quiet (h e)) -> quiet (try_except m h).
Proof.
  intros Hm Hh w. unfold try_except. specialize (Hm w).
  destruct (m w) as [[a|e] w1]; simpl in Hm.
  - exact Hm.
  - destruct Hm as (Hj & evs & Hev & Hns). specialize (Hh e w1).
    destruct Hh as (Hj' & evs' & Hev' & Hns').
    split; [congruence|]. exists (evs ++ evs').
    rewrite Hev', Hev, app_assoc. split; [reflexivity|apply no_status_app; auto].
Qed.

Lemma quiet_get_files : quiet get_files.
Proof.
  intros w. split; [reflexivity|]. exists []. rewrite app_nil_r.
  split; [reflexivity|apply no_status_nil].
Qed.

Lemma quiet_log (e : Event) :
  (forall j st, e <> StatusUpdate j st) -> quiet (log e).
Proof.
  intros He w. split; [reflexivity|]. exists [e]. split; [reflexivity|].
  intros j. destruct e; try reflexivity. exfalso. eapply He. reflexivity.
Qed.

Lemma quiet_write_file (p : str) (f : file) : quiet (write_file p f).
Proof.
  intros w. split; [reflexivity|]. exists []. rewrite app_nil_r.
  split; [reflexivity|apply no_status_nil].
Qed.

Lemma quiet_delete_file (p : str) : quiet (delete_file p).
Proof.
  intros w. split; [reflexivity|]. exists []. rewrite app_nil_r.
  split; [reflexivity|apply no_status_nil].
Qed.

Lemma quiet_exists_ (p : str) : quiet (exists_ p).
Proof.
  intros w. split; [reflexivity|]. exists []. rewrite app_nil_r.
  split; [reflexivity|apply no_status_nil].
Qed.

Lemma quiet_exists_over_1000 (p : str) : quiet (exists_over_1000 p).
Proof.
  intros w. split; [reflexivity|]. exists []. rewrite app_nil_r.
  split; [reflexivity|apply no_status_nil].
Qed.

Create HintDb quiet.
#[local] Hint Resolve quiet_ret quiet_raise quiet_lift quiet_get_files
  quiet_write_file quiet_delete_file quiet_exists_ quiet_exists_over_1000 : quiet.

(** Breaks a goal [quiet m] down along the structure of [m]. *)
Ltac quiet_step :=
  match goal with
  | |- quiet (bind _ _) => apply quiet_bind; [|intros ?]
  | |- quiet (try_except _ _) => apply quiet_try_except; [|intros ?]
  | |- quiet (log _) => apply quiet_log; intros ? ?; discriminate
  | |- quiet (if ?b then _ else _) => destruct b
  | |- quiet (match ?x with _ => _ end) => destruct x
  | |- quiet _ => solve [auto with quiet]
  end.

Ltac solve_quiet := repeat quiet_step.

Lemma quiet_wrote_file (o : Origin) (p : str) (wr : option N) :
  quiet (wrote_file o p wr).
Proof. unfold wrote_file. solve_quiet. Qed.
#[local] Hint Resolve quiet_wrote_file : quiet.

Lemma quiet_run (ev : Event) (o : Origin) (out : str) (oc : Outcome) :
  (forall j st, ev <> StatusUpdate j st) -> quiet (run ev o out oc).
Proof.
  intros Hev. unfold run. apply quiet_bind; [apply quiet_log, Hev|].
  intros _. solve_quiet.
Qed.

Lemma quiet_makedirs (env : Env) (d : str) : quiet (makedirs env d).
Proof. unfold makedirs. solve_quiet. Qed.

Lemma quiet_open_write (env : Env) (p t : str) : quiet (open_write env p t).
Proof. unfold open_write. solve_quiet. Qed.
#[local] Hint Resolve quiet_makedirs quiet_open_write : quiet.

Lemma quiet_create_silent_audio (env : Env) (text p : str) :
  quiet (_create_silent_audio env text p).
Proof. unfold _create_silent_audio. solve_quiet. Qed.
#[local] Hint Resolve quiet_create_silent_audio : quiet.

Lemma quiet_fallback_text_to_speech (env : Env) (text p : str) :
  quiet (_fallback_text_to_speech env text p).
Proof.
  unfold _fallback_text_to_speech.
  repeat first [ apply quiet_run; intros ? ?; discriminate | quiet_step ].
Qed.
#[local] Hint Resolve quiet_fallback_text_to_speech : quiet.

Lemma quiet_text_to_speech_direct (env : Env) (text p : str) :
  quiet (_text_to_speech_direct env text p).
Proof. unfold _text_to_speech_direct. solve_quiet. Qed.
#[local] Hint Resolve quiet_text_to_speech_direct : quiet.

Lemma quiet_synthesize_chunks (env : Env) (out : str) (chunks : list str) (i : nat) :
  quiet (synthesize_chunks env out i chunks).
Proof.
  revert i. induction chunks as [|c chunks IH]; intros i; simpl; solve_quiet.
Qed.

Lemma quiet_remove_chunks (env : Env) (paths : list str) :
  quiet (remove_chunks env paths).
Proof. induction paths as [|p paths IH]; simpl; solve_quiet. Qed.
#[local] Hint Resolve quiet_synthesize_chunks quiet_remove_chunks : quiet.

Lemma quiet_combine_audio_files (env : Env) (paths : list str) (out : str) :
  quiet (_combine_audio_files env paths out).
Proof.
  unfold _combine_audio_files.
  repeat first [ apply quiet_run; intros ? ?; discriminate | quiet_step ].
Qed.
#[local] Hint Resolve quiet_combine_audio_files : quiet.

Lemma quiet_text_to_speech (env : Env) (self : AzureSpeechService) (text p : str) :
  quiet (text_to_speech env self text p).
Proof. unfold text_to_speech, _text_to_speech_chunked. solve_quiet. Qed.

Lemma quiet_create_final_video `{PyRuntime} (env : Env) (a : str)
    (paths : list str) (out : str) :
  quiet (create_final_video env a paths out).
Proof.
  unfold create_final_video, _create_simple_video, _create_moviepy_video.
  repeat first [ apply quiet_run; intros ? ?; discriminate | quiet_step ].
Qed.

Lemma quiet_save_explanation `{PyRuntime} (env : Env) (t : str) (data : json)
    (dir : str) : quiet (save_explanation env t data dir).
Proof.
  unfold save_explanation.
  destruct (write_pieces _) as [text e]. solve_quiet.
Qed.

Lemma quiet_animate_sections (env : Env) (dir : str) (sections : list json) (i : nat) :
  quiet (animate_sections env dir i sections).
Proof.
  revert i. induction sections as [|s sections IH]; intros i; simpl; solve_quiet.
Qed.
#[local] Hint Resolve quiet_text_to_speech quiet_create_final_video
  quiet_save_explanation quiet_animate_sections : quiet.

(** ** JobCoordinator *)

Lemma bind_case {A B} (m : M A) (k : A -> M B) (w : World)
    (Q : Res B * World -> Prop) :
  (forall a w1, m w = (Ok a, w1) -> Q (k a w1)) ->
  (forall e w1, m w = (Raise e, w1) -> Q (Raise e, w1)) ->
  Q (bind m k w).
Proof.
  intros Hok Hraise. unfold bind. destruct (m w) as [[a|e] w1]; auto.
Qed.

Lemma str_eqb_refl (s : str) : str_eqb s s = true.
Proof. apply str_eqb_eq. reflexivity. Qed.

Lemma job_at_quiet {A} (m : M A) job evs0 st tr w :
  quiet m -> job_at job evs0 st tr w -> job_at job evs0 st tr (m w).2.
Proof.
  intros Hq (Hj & evs & Hev & Htr). destruct (Hq w) as (Hj' & evs' & Hev' & Hns).
  split; [congruence|]. exists (evs ++ evs').
  rewrite Hev', Hev, app_assoc. split; [reflexivity|].
  rewrite job_trace_app, Htr, Hns, app_nil_r. reflexivity.
Qed.

Lemma job_at_update job evs0 st tr w s p m r :
  job_at job evs0 st tr w ->
  let st' := update_status st s p m r in
  exists w', job_update_status job s p m r w = (Ok tt, w')
             /\ job_at job evs0 st' (tr ++ [st']) w'.
Proof.
  intros (Hj & evs & Hev & Htr) st'. eexists. split.
  - unfold job_update_status, bind, get_job. rewrite Hj. reflexivity.
  - split; simpl.
    + apply lookup_insert_eq.
    + exists (evs ++ [StatusUpdate job st']). rewrite Hev, app_assoc.
      split; [reflexivity|]. rewrite job_trace_app, Htr. simpl.
      rewrite str_eqb_refl. reflexivity.
Qed.

Lemma job_reached_quiet {A} (m : M A) job evs0 st0 k st w :
  quiet m -> job_reached job evs0 st0 k st w ->
  job_reached job evs0 st0 k st (m w).2.
Proof.
  intros Hq (tr & Hat & Hrest). exists tr. split; [|exact Hrest].
  apply job_at_quiet; assumption.
Qed.

Lemma last_snoc_cons {A} (x : A) (l : list A) (y : A) : last (x :: l ++ [y]) = Some y.
Proof. rewrite app_comm_cons. apply last_snoc. Qed.

(** One more checkpoint: a status update that is not a failure. *)
Lemma job_reached_update job evs0 st0 k st w s p m r :
  job_reached job evs0 st0 k st w ->
  (drop 1 checkpoints) !! k = Some p ->
  str_eqb s (u "failed") = false ->
  exists w', job_update_status job s p m r w = (Ok tt, w')
             /\ job_reached job evs0 st0 (S k) (update_status st s p m r) w'.
Proof.
  intros (tr & Hat & Hpr & Hlast & Hall) Hp Hs.
  destruct (job_at_update _ _ _ _ _ s p m r Hat) as (w' & Hrun & Hat').
  exists w'. split; [exact Hrun|]. eexists. split; [exact Hat'|].
  split; [|split].
  - rewrite map_app, Hpr. symmetry. apply take_S_r. exact Hp.
  - apply last_snoc_cons.
  - apply Forall_app. split; [exact Hall|]. constructor; [|constructor].
    split; [exact Hs|]. simpl.
    assert (Herr : error st = error st0); [|exact Herr].
    destruct tr as [|x tr'] using rev_ind.
    + simpl in Hlast. inversion Hlast. reflexivity.
    + rewrite last_snoc_cons in Hlast. inversion Hlast; subst x.
      apply Forall_app in Hall as [_ Hx]. inversion Hx as [|? ? [_ He] _]. exact He.
Qed.

Ltac quiet_stage Hr :=
  apply bind_case;
  [ let E := fresh "E" in
    intros ? ? E;
    match type of E with
    | ?m ?w = _ =>
      let Hq := fresh "Hq" in
      assert (Hq : quiet m) by auto with quiet;
      apply (job_reached_quiet m _ _ _ _ _ _ Hq) in Hr;
      rewrite E in Hr; simpl in Hr; clear E Hq
    end
  | let E := fresh "E" in
    intros ? ? E;
    match type of E with
    | ?m ?w = _ =>
      let Hq := fresh "Hq" in
      assert (Hq : quiet m) by auto with quiet;
      apply (job_reached_quiet m _ _ _ _ _ _ Hq) in Hr;
      rewrite E in Hr; simpl in Hr; clear E Hq
    end;
    eexists _, _; split; [|split; [|exact Hr]]; [lia|intros ? Hx; discriminate Hx] ].

Ltac update_stage Hr :=
  let w' := fresh "w" in
  let Hrun := fresh "Hrun" in
  let Hr' := fresh "Hr" in
  let E := fresh "E" in
  match goal with
  | |- _ (bind (job_update_status ?j ?s ?p ?m ?r) _ _) =>
    destruct (job_reached_update _ _ _ _ _ _ s p m r Hr eq_refl eq_refl)
      as (w' & Hrun & Hr');
    apply bind_case; [intros [] ? E | intros ? ? E];
    rewrite Hrun in E; inversion E; subst; clear E Hrun Hr
  | |- _ (job_update_status ?j ?s ?p ?m ?r _) =>
    destruct (job_reached_update _ _ _ _ _ _ s p m r Hr eq_refl eq_refl)
      as (w' & Hrun & Hr');
    rewrite Hrun; clear Hrun Hr
  end.

Lemma process_steps_post `{PyRuntime} (app : App) (job : str)
    (request : TopicRequest) (w : World) (st0 : ProcessingStatus) :
  processing_jobs w !! job = Some st0 ->
  steps_post job (events w) st0 (process_steps app job request w).
Proof.
  intros Hj.
  assert (Hr : job_reached job (events w) st0 0 st0 w).
  { exists []. split; [|split; [reflexivity|split; [reflexivity|constructor]]].
    split; [exact Hj|]. exists []. rewrite app_nil_r. split; reflexivity. }
  unfold process_steps.
  update_stage Hr.
  quiet_stage Hr0. quiet_stage Hr0.
  update_stage Hr0.
  quiet_stage Hr. quiet_stage Hr.
  update_stage Hr.
  quiet_stage Hr0. quiet_stage Hr0. quiet_stage Hr0.
  update_stage Hr0.
  quiet_stage Hr.
  update_stage Hr.
  eexists _, _. split; [|split; [|exact Hr0]]; [lia|reflexivity].
Qed.

Lemma filter_all {A} (P : A -> Prop) `{forall x, Decision (P x)} (l : list A) :
  Forall P l -> filter P l = l.
Proof.
  induction 1 as [|x l Hx Hl IH]; [reflexivity|].
  rewrite filter_cons_True by exact Hx. rewrite IH. reflexivity.
Qed.

Lemma last_map {A B} (f : A -> B) (l : list A) (x : A) :
  last l = Some x -> last (map f l) = Some (f x).
Proof.
  destruct l as [|y l] using rev_ind; [discriminate|].
  rewrite last_snoc, map_app. simpl. rewrite last_snoc.
  intros Hx; inversion Hx. reflexivity.
Qed.

(** The progress of the status a job is in after [k] checkpoints. *)
Lemma job_reached_progress job evs0 st0 k st w :
  job_reached job evs0 st0 k st w -> progress st0 = 0%Z -> (k <= 5)%nat ->
  Some (progress st) = last (take (S k) checkpoints).
Proof.
  intros (tr & _ & Hpr & Hlast & _) H0 Hk.
  apply (last_map progress) in Hlast. simpl in Hlast.
  rewrite H0 in Hlast. rewrite <- Hlast, Hpr. reflexivity.
Qed.

Lemma process_content_generation_cases `{PyRuntime} app job request w :
  process_content_generation app job request w
  = match process_steps app job request w with
    | (Ok a, w1) => (Ok a, w1)
    | (Raise e, w1) => mark_failed job e w1
    end.
Proof. reflexivity. Qed.

Lemma mark_failed_spec job evs0 st tr w e :
  job_at job evs0 st tr w ->
  let st' := update_status st (u "failed") (progress st)
               (u "Content generation failed: " ++ exn_text e) None in
  exists w', mark_failed job e w = (Ok tt, w')
             /\ job_at job evs0 st' (tr ++ [st']) w'.
Proof.
  intros Hat st'. pose proof Hat as (Hj & _).
  destruct (job_at_update _ _ _ _ _ (u "failed") (progress st)
              (u "Content generation failed: " ++ exn_text e) None Hat)
    as (w' & Hrun & Hat').
  exists w'. split; [|exact Hat'].
  unfold mark_failed, bind. unfold get_job at 1. rewrite Hj. exact Hrun.
Qed.

Ltac solve_sorted :=
  repeat match goal with
         | |- StronglySorted _ _ => constructor
         | |- Forall _ _ => constructor
         | |- (_ <= _)%Z => lia
         end.

(** C7. From its creation at progress 0 on, the progress values a job is
    given by its background execution never decrease; the statuses that
    are not failed carry the checkpoints 0, 10, 30, 50, 80, 100 in this
    order, up to the stage the job got to. *)
Theorem job_progress_monotone :
  forall (R : PyRuntime) (app : App) (job : str) (request : TopicRequest)
         (w : World) (st0 : ProcessingStatus),
    processing_jobs w !! job = Some st0 ->
    progress st0 = 0%Z ->
    is_failed st0 = false ->
    exists evs,
      events (process_content_generation app job request w).2 = events w ++ evs
      /\ StronglySorted Z.le (map progress (st0 :: job_trace job evs))
      /\ exists k, (2 <= k <= 6)%nat
           /\ map progress
                (filter (fun st => is_failed st = false) (st0 :: job_trace job evs))
              = take k checkpoints.
Proof.
  intros R app job request w st0 Hj H0 Hnf.
  pose proof (process_steps_post app job request w st0 Hj) as (k & st & Hk & Hok & Hr).
  pose proof (job_reached_progress _ _ _ _ _ _ Hr H0 ltac:(lia)) as Hlastp.
  rewrite process_content_generation_cases.
  destruct (process_steps app job request w) as [[[]|e] w1];
    cbn [fst snd] in Hok, Hr.
  - specialize (Hok tt eq_refl). subst k.
    destruct Hr as (tr & (_ & evs & Hev & Htr) & Hpr & _ & Hall).
    exists evs. split; [exact Hev|]. rewrite Htr.
    split.
    + cbn [map]. rewrite H0, Hpr. simpl. solve_sorted.
    + exists 6%nat. split; [lia|].
      rewrite filter_cons_True by exact Hnf.
      rewrite filter_all by (eapply Forall_impl; [exact Hall|intros ? [? _]; assumption]).
      cbn [map]. rewrite H0, Hpr. reflexivity.
  - clear Hok. destruct Hr as (tr & Hat & Hpr & Hlast & Hall).
    destruct (mark_failed_spec _ _ _ _ _ e Hat) as (w2 & Hrun & (_ & evs & Hev & Htr)).
    rewrite Hrun. cbn [fst snd]. exists evs. split; [exact Hev|]. rewrite Htr.
    split.
    + cbn [map]. rewrite map_app, Hpr, H0. cbn [map progress update_status].
      destruct k as [|[|[|[|[|[|?]]]]]]; try lia;
        simpl in Hlastp; inversion Hlastp as [Hp]; rewrite Hp;
        simpl; solve_sorted.
    + exists (S k). split; [lia|].
      rewrite filter_cons_True by exact Hnf.
      rewrite filter_app.
      rewrite filter_all by (eapply Forall_impl; [exact Hall|intros ? [? _]; assumption]).
      rewrite filter_cons_False, filter_nil, app_nil_r.
      * cbn [map]. rewrite H0, Hpr. reflexivity.
      * unfold is_failed. cbn [status update_status]. rewrite str_eqb_refl. discriminate.
Qed.

Lemma job_progress_monotone_witness :
  let w := (generate_content (u "job-1") gravity_request empty_world).2 in
  exists evs,
    events (process_content_generation (H := ascii_runtime) offline_app
              (u "job-1") gravity_request w).2 = events w ++ evs
    /\ StronglySorted Z.le
         (map progress (started_status (u "job-1") :: job_trace (u "job-1") evs))
    /\ exists k, (2 <= k <= 6)%nat
         /\ map progress
              (filter (fun st => is_failed st = false)
                 (started_status (u "job-1") :: job_trace (u "job-1") evs))
            = take k checkpoints.
Proof.
  intros w.
  apply (job_progress_monotone ascii_runtime offline_app (u "job-1")
           gravity_request w (started_status (u "job-1")));
    vm_compute; reflexivity.
Defined.

(** C8. When a stage raises, the job is marked failed with the progress it
    had at that moment and the exception text goes, after a fixed prefix,
    into [message]; the [error] field keeps the value the job was created
    with. *)
Theorem failed_job_keeps_progress_and_error :
  forall (R : PyRuntime) (app : App) (job : str) (request : TopicRequest)
         (w : World) (st0 : ProcessingStatus) (e : exn),
    processing_jobs w !! job = Some st0 ->
    (process_steps app job request w).1 = Raise e ->
    exists st1 st,
      processing_jobs (process_steps app job request w).2 !! job = Some st1
      /\ processing_jobs (process_content_generation app job request w).2 !! job
         = Some st
      /\ status st = u "failed"
      /\ progress st = progress st1
      /\ message st = u "Content generation failed: " ++ exn_text e
      /\ error st = error st0.
Proof.
  intros R app job request w st0 e Hj Hraise.
  pose proof (process_steps_post app job request w st0 Hj) as (k & st1 & Hk & _ & Hr).
  rewrite process_content_generation_cases.
  destruct (process_steps app job request w) as [[[]|e'] w1];
    cbn [fst snd] in *; [discriminate|].
  inversion Hraise; subst e'.
  destruct Hr as (tr & Hat & Hpr & Hlast & Hall).
  destruct (mark_failed_spec _ _ _ _ _ e Hat) as (w2 & Hrun & (Hj2 & _)).
  rewrite Hrun. cbn [fst snd]. destruct Hat as (Hj1 & _).
  eexists _, _. split; [exact Hj1|]. split; [exact Hj2|].
  repeat split.
  cbn [error update_status].
  destruct tr as [|x tr'] using rev_ind.
  - simpl in Hpr. destruct k; [lia|discriminate].
  - rewrite last_snoc_cons in Hlast. inversion Hlast; subst x.
    apply Forall_app in Hall as [_ Hx]. inversion Hx as [|? ? [_ He] _]. exact He.
Qed.

Lemma failed_job_keeps_progress_and_error_witness :
  let w := (generate_content (u "job-1") gravity_request empty_world).2 in
  exists st1 st,
    processing_jobs (process_steps (H := ascii_runtime) unconfigured_app
                       (u "job-1") gravity_request w).2 !! (u "job-1") = Some st1
    /\ processing_jobs (process_content_generation (H := ascii_runtime)
                         unconfigured_app (u "job-1") gravity_request w).2
         !! (u "job-1") = Some st
    /\ status st = u "failed"
    /\ progress st = progress st1
    /\ message st = u "Content generation failed: "
                    ++ exn_text (ValueError (u "No AI models available"))
    /\ error st = error (started_status (u "job-1")).
Proof.
  intros w.
  apply (failed_job_keeps_progress_and_error ascii_runtime unconfigured_app
           (u "job-1") gravity_request w (started_status (u "job-1"))
           (ValueError (u "No AI models available")));
    vm_compute; reflexivity.
Defined.

(** A failed job as a status query sees it: the text is in [message] and
    [error] is not set. *)
Example failed_job_error_unset :
  let w := (generate_content (u "job-1") gravity_request empty_world).2 in
  let w' := (process_content_generation (H := ascii_runtime) unconfigured_app
               (u "job-1") gravity_request w).2 in
  exists st,
    processing_jobs w' !! (u "job-1") = Some st
    /\ status st = u "failed"
    /\ progress st = 10%Z
    /\ message st = u "Content generation failed: No AI models available"
    /\ error st = None.
Proof. eexists. split; [vm_compute; reflexivity|]. repeat split. Qed.

(** ** SpeechSynthesizer: the fallback chain *)

Lemma try_except_case {A} (m : M A) (h : exn -> M A) (w : World)
    (Q : Res A * World -> Prop) :
  (forall a w1, m w = (Ok a, w1) -> Q (Ok a, w1)) ->
  (forall e w1, m w = (Raise e, w1) -> Q (h e w1)) ->
  Q (try_except m h w).
Proof.
  intros Hok Hraise. unfold try_except. destruct (m w) as [[a|e] w1]; auto.
Qed.

Lemma round_half_even_floor (q : Q) : (Qfloor q <= round_half_even q)%Z.
Proof.
  unfold round_half_even. destruct (_ ?= _)%Q; [destruct (Z.even _)| |]; lia.
Qed.

Lemma two_power_pos (z : Z) : (0 < 2 ^ z)%Q.
Proof. apply Qpower_0_lt. reflexivity. Qed.

(** Rounding to a float does not go below an integer of at most 53 bits
    that the exact value has reached. *)
Lemma to_float_ge (k : Z) (q : Q) :
  (0 < k <= 2 ^ 53)%Z -> (inject_Z k <= q)%Q -> (inject_Z k <= to_float q)%Q.
Proof.
  intros Hk Hq. unfold to_float.
  assert (Hk1 : (1 <= inject_Z k)%Q).
  { change 1%Q with (inject_Z 1). rewrite <- Zle_Qle. lia. }
  assert (Hq1 : (1 <= q)%Q) by (eapply Qle_trans; eassumption).
  destruct (Qle_bool q 0) eqn:H0.
  { apply Qle_bool_iff in H0. exfalso.
    assert (Hbad : (1 <= 0)%Q) by (eapply Qle_trans; eassumption).
    revert Hbad. unfold Qle. simpl. lia. }
  unfold float_exponent.
  assert (H1 : Qle_bool 1 q = true) by (apply Qle_bool_iff; exact Hq1).
  rewrite H1. cbv zeta.
  set (e := Z.log2 (Qfloor q)).
  assert (Hfl : (1 <= Qfloor q)%Z).
  { change 1%Z with (Qfloor (inject_Z 1)) at 1. rewrite Qfloor_Z.
    rewrite <- (Qfloor_Z 1). apply Qfloor_resp_le. exact Hq1. }
  assert (He : (0 <= e)%Z) by apply Z.log2_nonneg.
  assert (Hpe : (2 ^ e <= Qfloor q)%Z) by (apply Z.log2_spec; lia).
  pose proof (two_power_pos (52 - e)) as Hpos.
  apply Qle_shift_div_l; [exact Hpos|].
  eapply Qle_trans; [|rewrite <- Zle_Qle; apply round_half_even_floor].
  destruct (Z_le_gt_dec e 52) as [Hs|Hs].
  - (* the scale is an integer *)
    assert (Hint : (2 ^ (52 - e) == inject_Z (2 ^ (52 - e)))%Q).
    { rewrite Zpower_Qpower by lia. reflexivity. }
    assert (Hkp : (inject_Z k * 2 ^ (52 - e) == inject_Z (k * 2 ^ (52 - e)))%Q).
    { rewrite inject_Z_mult. apply Qmult_comp; [reflexivity|exact Hint]. }
    rewrite Hkp. rewrite <- Zle_Qle.
    rewrite <- (Qfloor_Z (k * 2 ^ (52 - e))). apply Qfloor_resp_le.
    rewrite <- Hkp. apply Qmult_le_compat_r; [exact Hq|].
    apply Qlt_le_weak, Hpos.
  - (* the float is a multiple of a power of two above 2^53 *)
    assert (Hbig : (inject_Z (2 ^ 52) <= q * 2 ^ (52 - e))%Q).
    { assert (Hqe : (inject_Z (2 ^ e) <= q)%Q).
      { eapply Qle_trans; [rewrite <- Zle_Qle; exact Hpe|apply Qfloor_le]. }
      assert (Hsplit : (inject_Z (2 ^ 52) == inject_Z (2 ^ e) * 2 ^ (52 - e))%Q).
      { rewrite !Zpower_Qpower by lia.
        rewrite <- Qpower_plus by discriminate.
        replace (e + (52 - e))%Z with 52%Z by lia. reflexivity. }
      rewrite Hsplit. apply Qmult_le_compat_r; [exact Hqe|].
      apply Qlt_le_weak, Hpos. }
    assert (Hfloor : (2 ^ 52 <= Qfloor (q * 2 ^ (52 - e)))%Z).
    { rewrite <- (Qfloor_Z (2 ^ 52)). apply Qfloor_resp_le. exact Hbig. }
    eapply Qle_trans; [|rewrite <- Zle_Qle; exact Hfloor].
    (* k * 2^(52-e) <= 2^53 * 2^(52 - e) <= 2^52 *)
    eapply Qle_trans.
    { apply Qmult_le_compat_r; [rewrite <- Zle_Qle; apply (proj2 Hk)|].
      apply Qlt_le_weak, Hpos. }
    assert (Hle : (2 ^ (52 - e) <= 2 ^ (-1))%Q).
    { apply Qpower_le_compat_l; [lia|discriminate]. }
    eapply Qle_trans; [apply Qmult_le_l; [reflexivity|exact Hle]|].
    vm_compute. discriminate.
Qed.

(** Silence lasts five seconds at least: 110250 samples. *)
Lemma num_samples_ge (text : str) : (110250 <= num_samples text)%N.
Proof.
  unfold num_samples, samples_of_duration.
  assert (H5 : (5 <= at_least_5 (estimated_duration text))%Q).
  { unfold at_least_5. destruct (Qle_bool _ 5) eqn:Hle.
    - apply Qle_refl.
    - apply Qlt_le_weak, Qnot_le_lt. intros Hc.
      apply Qle_bool_iff in Hc. congruence. }
  assert (Hq : (inject_Z 110250 <= 22050 * at_least_5 (estimated_duration text))%Q).
  { assert (He : (inject_Z 110250 == 22050 * 5)%Q) by reflexivity.
    rewrite He. apply Qmult_le_l; [reflexivity|exact H5]. }
  assert (Hz : (110250 <= Qfloor (to_float (22050 * at_least_5 (estimated_duration text))))%Z).
  { rewrite <- (Qfloor_Z 110250). apply Qfloor_resp_le.
    apply to_float_ge; [lia|exact Hq]. }
  lia.
Qed.

Lemma wav_size_over_1000 (text : str) : (1000 < wav_size (num_samples text))%N.
Proof. pose proof (num_samples_ge text). unfold wav_size. lia. Qed.

Lemma create_silent_audio_wave env text path w :
  wave_write env path (num_samples text) = None ->
  _create_silent_audio env text path w
  = (Ok tt, {| files := <[path := Binary By_wave (wav_size (num_samples text))]> (files w);
               events := events w; processing_jobs := processing_jobs w |}).
Proof.
  intros Hw. unfold _create_silent_audio, try_except. rewrite Hw. reflexivity.
Qed.

Lemma create_silent_audio_empty env text path w e :
  wave_write env path (num_samples text) = Some e ->
  open_w_ok env path = true ->
  _create_silent_audio env text path w
  = (Ok tt, {| files := <[path := Text []]> (files w);
               events := events w; processing_jobs := processing_jobs w |}).
Proof.
  intros Hw Ho. unfold _create_silent_audio, try_except, open_write.
  rewrite Hw, Ho. reflexivity.
Qed.

Lemma create_silent_audio_raises env text path w e :
  wave_write env path (num_samples text) = Some e ->
  open_w_ok env path = false ->
  _create_silent_audio env text path w
  = (Raise (OSError (u "cannot open file for writing")), w).
Proof.
  intros Hw Ho. unfold _create_silent_audio, try_except, open_write.
  rewrite Hw, Ho. reflexivity.
Qed.

(** A tier that checks the size of what it finds. *)
Lemma size_checked_tier ev o path oc w b w' :
  try_except (let* _ := run ev o path oc in exists_over_1000 path)
             (fun _ => ret false) w = (Ok b, w') ->
  b = true -> exists f, files w' !! path = Some f /\ (1000 < getsize f)%N.
Proof.
  unfold try_except, bind. destruct (run ev o path oc w) as [[rc|e] w1].
  - unfold exists_over_1000. intros Hb ->. inversion Hb as [[Hsz Hw]]. subst w1.
    destruct (files w' !! path) as [f|]; [|discriminate].
    exists f. split; [reflexivity|]. apply N.ltb_lt. exact Hsz.
  - unfold ret. intros Hb ->. inversion Hb.
Qed.

Lemma run_returns ev o path oc w rc w' :
  run ev o path oc w = (Ok rc, w') -> exists wr, oc = Returns rc wr.
Proof.
  unfold run, bind, log. destruct oc as [rc' wr|e wr]; simpl.
  - destruct wr; simpl; intros Hr; inversion Hr; eauto.
  - destruct wr; simpl; intros Hr; inversion Hr.
Qed.

(** The espeak tier checks the exit status and that the file exists. *)
Lemma espeak_tier env text path w b w' :
  try_except
    (let* rc := run (Exec (espeak_cmd text path)) By_espeak path
                    (subprocess_run env (espeak_cmd text path)) in
     let* there := exists_ path in
     ret ((rc =? 0)%Z && there))
    (fun _ => ret false) w = (Ok b, w') ->
  b = true ->
  is_Some (files w' !! path)
  /\ exists wr, subprocess_run env (espeak_cmd text path) = Returns 0 wr.
Proof.
  unfold try_except, bind at 1.
  destruct (run _ _ _ _ w) as [[rc|e] w1] eqn:Hrun.
  - unfold bind, exists_, ret. intros Hb ->. inversion Hb as [[Hc Hw]]. subst w1.
    apply andb_prop in Hc as [Hrc Hex].
    apply Z.eqb_eq in Hrc. subst rc. apply bool_decide_eq_true in Hex.
    split; [exact Hex|]. eapply run_returns. exact Hrun.
  - unfold ret. intros Hb ->. inversion Hb.
Qed.

Lemma tier_never_raises {A} (m : M A) (d : A) w e w' :
  try_except m (fun _ => ret d) w = (Raise e, w') -> False.
Proof.
  unfold try_except, ret. destruct (m w) as [[a|e'] w1]; intros Hr; inversion Hr.
Qed.

Lemma silent_then_return env text path w :
  fallback_post env text path
    ((let* _ := _create_silent_audio env text path in ret path) w).
Proof.
  unfold fallback_post, bind.
  destruct (wave_write env path (num_samples text)) as [e|] eqn:Hw.
  - destruct (open_w_ok env path) eqn:Ho.
    + rewrite (create_silent_audio_empty _ _ _ _ _ Hw Ho). simpl.
      split; [reflexivity|]. eexists. split; [apply lookup_insert_eq|].
      right; right; right. repeat split. discriminate.
    + rewrite (create_silent_audio_raises _ _ _ _ _ Hw Ho). simpl.
      split; [discriminate|reflexivity].
  - rewrite (create_silent_audio_wave _ _ _ _ Hw). simpl.
    split; [reflexivity|]. eexists. split; [apply lookup_insert_eq|].
    right; right; left. split; reflexivity.
Qed.

Lemma fallback_text_to_speech_post env text path w :
  fallback_post env text path (_fallback_text_to_speech env text path w).
Proof.
  unfold _fallback_text_to_speech.
  apply try_except_case; [|intros; apply silent_then_return].
  intros p w'. revert p w'.
  apply (bind_case _ _ w (fun rw => forall p w', rw = (Ok p, w') -> _));
    [intros [] w1 _|intros ? ? _ ? ? Hr; inversion Hr].
  apply (bind_case _ _ w1 (fun rw => forall p w', rw = (Ok p, w') -> _));
    [intros b1 w2 E1|intros ? ? E; destruct (tier_never_raises _ _ _ _ _ E)].
  destruct b1.
  { intros p w' Hr. inversion Hr; subst. unfold fallback_post. simpl.
    split; [reflexivity|].
    destruct (size_checked_tier _ _ _ _ _ _ _ E1 eq_refl) as (f & Hf & Hsz).
    exists f. auto. }
  apply (bind_case _ _ w2 (fun rw => forall p w', rw = (Ok p, w') -> _));
    [intros b2 w3 E2|intros ? ? E; destruct (tier_never_raises _ _ _ _ _ E)].
  destruct b2.
  { intros p w' Hr. inversion Hr; subst. unfold fallback_post. simpl.
    split; [reflexivity|].
    destruct (espeak_tier _ _ _ _ _ _ E2 eq_refl) as ([f Hf] & Hrc).
    exists f. auto. }
  apply (bind_case _ _ w3 (fun rw => forall p w', rw = (Ok p, w') -> _));
    [intros b3 w4 E3|intros ? ? E; destruct (tier_never_raises _ _ _ _ _ E)].
  destruct b3.
  { intros p w' Hr. inversion Hr; subst. unfold fallback_post. simpl.
    split; [reflexivity|].
    destruct (size_checked_tier _ _ _ _ _ _ _ E3 eq_refl) as (f & Hf & Hsz).
    exists f. auto. }
  intros p w' Hr. pose proof (silent_then_return env text path w4) as Hpost.
  rewrite Hr in Hpost. exact Hpost.
Qed.

(** A service built by the constructor is in fallback mode, whatever the
    credentials. *)
Lemma init_forces_fallback_mode (key region : option str) :
  fallback_mode (AzureSpeechService_init key region) = true.
Proof. unfold AzureSpeechService_init. destruct (_ || _); reflexivity. Qed.

(** C2. [text_to_speech] of a constructed service returns the output path
    and a file exists there, provided that the silent WAV writer works or,
    failing that, the output path can be opened for writing. If the WAV
    writer works and espeak does not exit with status 0, the file is larger
    than 1000 bytes. *)
Theorem text_to_speech_returns_existing_file :
  forall (env : Env) (key region : option str) (text output_path : str) (w : World),
    wave_write env output_path (num_samples text) = None
    \/ open_w_ok env output_path = true ->
    exists w' f,
      text_to_speech env (AzureSpeechService_init key region) text output_path w
      = (Ok output_path, w')
      /\ files w' !! output_path = Some f
      /\ (wave_write env output_path (num_samples text) = None ->
          (forall wr, subprocess_run env (espeak_cmd text output_path) <> Returns 0 wr) ->
          (1000 < getsize f)%N).
Proof.
  intros env key region text path w Hlast.
  unfold text_to_speech. rewrite init_forces_fallback_mode.
  pose proof (fallback_text_to_speech_post env text path w) as Hpost.
  unfold fallback_post in Hpost.
  destruct (_fallback_text_to_speech env text path w) as [[p|e] w']; simpl in Hpost.
  - destruct Hpost as (-> & f & Hf & Hkind). exists w', f.
    split; [reflexivity|]. split; [exact Hf|]. intros Hwave Hespeak.
    destruct Hkind as [Hbig|[(wr & Hrc)|[(_ & ->)|(Hnw & _)]]].
    + exact Hbig.
    + destruct (Hespeak wr Hrc).
    + apply wav_size_over_1000.
    + contradiction.
  - destruct Hpost as (Hnw & Hno). destruct Hlast as [Hwave|Hopen]; congruence.
Qed.

Lemma text_to_speech_returns_existing_file_witness :
  exists w' f,
    text_to_speech no_tools_env (AzureSpeechService_init None None)
      (u "Gravity pulls objects toward each other.") (u "./outputs/job-1/narration.wav")
      empty_world
    = (Ok (u "./outputs/job-1/narration.wav"), w')
    /\ files w' !! (u "./outputs/job-1/narration.wav") = Some f
    /\ (wave_write no_tools_env (u "./outputs/job-1/narration.wav")
          (num_samples (u "Gravity pulls objects toward each other.")) = None ->
        (forall wr,
            subprocess_run no_tools_env
              (espeak_cmd (u "Gravity pulls objects toward each other.")
                 (u "./outputs/job-1/narration.wav")) <> Returns 0 wr) ->
        (1000 < getsize f)%N).
Proof.
  apply (text_to_speech_returns_existing_file no_tools_env None None
           (u "Gravity pulls objects toward each other.")
           (u "./outputs/job-1/narration.wav") empty_world).
  left. reflexivity.
Defined.

(** The claim as the specification words it fails when no synthesis engine
    is reachable and the WAV writer fails: the file returned is empty; and
    on a file system that cannot be written the call raises. *)
Lemma text_to_speech_empty_file_or_raise :
  (exists w',
      text_to_speech no_wave_env (AzureSpeechService_init None None)
        (u "hello world") (u "out/narration.wav") empty_world
      = (Ok (u "out/narration.wav"), w')
      /\ files w' !! (u "out/narration.wav") = Some (Text [])
      /\ getsize (Text []) = 0%N)
  /\ (text_to_speech read_only_env (AzureSpeechService_init None None)
        (u "hello world") (u "out/narration.wav") empty_world).1
     = Raise (OSError (u "cannot open file for writing")).
Proof.
  split.
  - eexists. split; [vm_compute; reflexivity|]. split; vm_compute; reflexivity.
  - vm_compute. reflexivity.
Qed.

(** ** VideoAssembler: the fallback chain *)

Lemma app_nonempty_l {A} (a b : list A) : a <> [] -> a ++ b <> [].
Proof. destruct a; [congruence|discriminate]. Qed.

Lemma placeholder_nonempty `{PyRuntime} (a : str) (l : list str) :
  placeholder_text a l <> [].
Proof. unfold placeholder_text. apply app_nonempty_l. vm_compute. discriminate. Qed.

Lemma run_wrote ev o path rc n w :
  exists w', run ev o path (Returns rc (Some n)) w = (Ok rc, w')
             /\ files w' !! path = Some (Binary o n).
Proof. eexists. split; [reflexivity|]. apply lookup_insert_eq. Qed.

Lemma simple_video_post_holds `{PyRuntime} env audio_path animation_paths path w :
  open_w_ok env path = true ->
  (forall cmd, subprocess_run env cmd <> Returns 0 None) ->
  simple_video_post env path
    (_create_simple_video env audio_path animation_paths path w).
Proof.
  intros Hopen Hff.
  assert (Hplace : forall t w1, t <> [] -> simple_video_post env path
            ((let* _ := open_write env path t in ret path) w1)).
  { intros t w1 Ht. unfold bind, open_write. rewrite Hopen.
    eexists _, _. split; [reflexivity|]. split; [apply lookup_insert_eq|]. eauto. }
  unfold _create_simple_video.
  apply try_except_case.
  2:{ intros e w1 _. apply Hplace. apply app_nonempty_l. vm_compute. discriminate. }
  intros p w'. revert p w'.
  apply (bind_case _ _ w (fun rw => forall p w', rw = (Ok p, w') -> _)).
  2:{ intros ? ? _ ? ? Hr. inversion Hr. }
  intros made w1 Hmade.
  destruct made.
  2:{ intros p w' Hr.
      pose proof (Hplace (placeholder_text audio_path animation_paths) w1
                    (placeholder_nonempty _ _)) as Hp.
      rewrite Hr in Hp. exact Hp. }
  intros p w' Hr. inversion Hr; subst p w'. clear Hr.
  destruct animation_paths as [|first rest]; [inversion Hmade|].
  revert Hmade. unfold bind at 1. unfold exists_ at 1.
  destruct (bool_decide _); [|intros Hr; inversion Hr].
  unfold bind at 1. unfold exists_ at 1.
  set (cmd := still_cmd first path ++ _).
  unfold bind.
  destruct (run (Exec cmd) By_ffmpeg path (subprocess_run env cmd) w)
    as [[rc|e] w2] eqn:Hrun; [|intros Hr; inversion Hr].
  unfold ret. intros Hr. inversion Hr as [[Hrc Hw]]. subst w2.
  apply Z.eqb_eq in Hrc. subst rc.
  destruct (run_returns _ _ _ _ _ _ _ Hrun) as (wr & Hout).
  destruct wr as [n|]; [|destruct (Hff cmd Hout)].
  rewrite Hout in Hrun.
  destruct (run_wrote (Exec cmd) By_ffmpeg path 0 n w) as (w2 & Hrun' & Hf).
  rewrite Hrun' in Hrun. inversion Hrun; subst w2.
  eexists _, _. split; [reflexivity|]. split; [exact Hf|].
  intros Hnever. destruct (Hnever cmd (Some n) Hout).
Qed.

(** C3. When the directory of the output path can be created and the
    output path can be opened for writing, and a tool that reports success
    has written its output, [create_final_video] returns the output path
    and a file exists there; it is a non-empty text file when the MoviePy
    path fails and ffmpeg does not exit with status 0. *)
Theorem create_final_video_returns_existing_file :
  forall (R : PyRuntime) (env : Env) (audio_path : str)
         (animation_paths : list str) (output_path : str) (w : World),
    dirname output_path <> [] ->
    makedirs_ok env (dirname output_path) = true ->
    open_w_ok env output_path = true ->
    (forall cmd, subprocess_run env cmd <> Returns 0 None) ->
    (forall plan rc, moviepy_render env plan <> Returns rc None) ->
    exists w' f,
      create_final_video env audio_path animation_paths output_path w
      = (Ok output_path, w')
      /\ files w' !! output_path = Some f
      /\ (moviepy_fails env audio_path ->
          (forall cmd wr, subprocess_run env cmd <> Returns 0 wr) ->
          exists t, f = Text t /\ t <> []).
Proof.
  intros R env audio_path animation_paths path w Hdir Hmk Hopen Hff Hmp.
  unfold create_final_video, bind at 1, makedirs.
  destruct (dirname path) as [|c d] eqn:Hd; [congruence|]. rewrite Hmk.
  unfold ret at 1.
  assert (Hsimple : forall w1, exists w' f,
            _create_simple_video env audio_path animation_paths path w1 = (Ok path, w')
            /\ files w' !! path = Some f
            /\ ((forall cmd wr, subprocess_run env cmd <> Returns 0 wr) ->
                exists t, f = Text t /\ t <> [])).
  { intros w1.
    destruct (simple_video_post_holds env audio_path animation_paths path w1 Hopen Hff)
      as (w' & f & Hrun & Hf & Htext).
    exists w', f. auto. }
  destruct (MOVIEPY_AVAILABLE env) eqn:Hav; simpl.
  2:{ destruct (Hsimple w) as (w' & f & Hrun & Hf & Htext).
      exists w', f. split; [exact Hrun|]. split; [exact Hf|]. intros _. exact Htext. }
  unfold try_except.
  destruct (_create_moviepy_video env audio_path animation_paths path w)
    as [[p|e] w1] eqn:Hmovie.
  2:{ destruct (Hsimple w1) as (w' & f & Hrun & Hf & Htext).
      exists w', f. split; [exact Hrun|]. split; [exact Hf|]. intros _. exact Htext. }
  revert Hmovie. unfold _create_moviepy_video, bind at 1, lift.
  destruct (audio_duration env audio_path) as [D|e] eqn:HD; [|intros Hr; inversion Hr].
  unfold bind at 1, get_files. set (plan := plan_video _ _ _ _ _).
  unfold bind.
  destruct (run _ By_moviepy path (moviepy_render env plan) w) as [[rc|e] w2] eqn:Hrun;
    [|intros Hr; inversion Hr].
  unfold ret. intros Hr. inversion Hr; subst p w2. clear Hr.
  destruct (run_returns _ _ _ _ _ _ _ Hrun) as (wr & Hout).
  destruct wr as [n|]; [|destruct (Hmp plan rc Hout)].
  rewrite Hout in Hrun.
  destruct (run_wrote (LibCall (u "moviepy") [audio_path; path]) By_moviepy path rc n w)
    as (w2 & Hrun' & Hf).
  rewrite Hrun' in Hrun. inversion Hrun; subst w2.
  eexists _, _. split; [reflexivity|]. split; [exact Hf|].
  intros [Hno|[(e & He)|Hthrows]] _.
  - congruence.
  - congruence.
  - destruct (Hthrows plan) as (e & wr & He). congruence.
Qed.

Lemma create_final_video_returns_existing_file_witness :
  exists w' f,
    create_final_video (H := ascii_runtime) no_tools_env
      (u "./outputs/job-1/narration.wav") [] (u "./outputs/job-1/final_video.mp4")
      empty_world
    = (Ok (u "./outputs/job-1/final_video.mp4"), w')
    /\ files w' !! (u "./outputs/job-1/final_video.mp4") = Some f
    /\ (moviepy_fails no_tools_env (u "./outputs/job-1/narration.wav") ->
        (forall cmd wr, subprocess_run no_tools_env cmd <> Returns 0 wr) ->
        exists t, f = Text t /\ t <> []).
Proof.
  apply (create_final_video_returns_existing_file ascii_runtime no_tools_env
           (u "./outputs/job-1/narration.wav") []
           (u "./outputs/job-1/final_video.mp4") empty_world).
  - vm_compute. discriminate.
  - reflexivity.
  - reflexivity.
  - intros cmd. simpl. discriminate.
  - intros plan rc. simpl. discriminate.
Defined.

(** The claim as the specification words it fails for an output path
    without a directory part, with every tool at work: [os.makedirs] of the
    empty path raises before any fallback is entered. It also fails on a
    file system that cannot be written. *)
Lemma create_final_video_raises :
  dirname (u "final_video.mp4") = []
  /\ (create_final_video (H := ascii_runtime) all_tools_env
        (u "narration.wav") [u "slide_0.png"] (u "final_video.mp4") empty_world).1
     = Raise (FileNotFoundError (u "[Errno 2] No such file or directory: ''"))
  /\ (create_final_video (H := ascii_runtime) read_only_env
        (u "out/narration.wav") [] (u "out/final_video.mp4") empty_world).1
     = Raise (OSError (u "cannot create directory")).
Proof. repeat split; vm_compute; reflexivity. Qed.

(** ** SpeechSynthesizer: chunking *)

Lemma split2_nonempty (a b : N) (s : str) : split2 a b s <> [].
Proof.
  destruct s as [|c [|c2 s]]; simpl; try discriminate.
  destruct ((c =? a)%N && (c2 =? b)%N); [discriminate|].
  destruct (match s with [] => _ | _ => _ end); discriminate.
Qed.

Lemma join_cons_head (sep : str) (c : N) (l : list str) :
  l <> [] -> join sep (cons_head c l) = c :: join sep l.
Proof. destruct l as [|h [|h2 t]]; [congruence| |]; reflexivity. Qed.

(** Joining what [split] gave restores the text. *)
Lemma join_split2 (a b : N) (s : str) : join [a; b] (split2 a b s) = s.
Proof.
  assert (Hind : forall n s, (length s <= n)%nat -> join [a; b] (split2 a b s) = s).
  { clear s. induction n as [|n IH]; intros s Hn.
    - destruct s; [reflexivity|simpl in Hn; lia].
    - destruct s as [|c [|c2 s]]; [reflexivity|reflexivity|].
      change (split2 a b (c :: c2 :: s))
        with (if (c =? a)%N && (c2 =? b)%N then [] :: split2 a b s
              else cons_head c (split2 a b (c2 :: s))).
      destruct ((c =? a)%N && (c2 =? b)%N) eqn:Hm.
      + apply andb_prop in Hm as [Ha Hb].
        apply N.eqb_eq in Ha, Hb. subst c c2.
        pose proof (split2_nonempty a b s) as Hne.
        destruct (split2 a b s) as [|h t] eqn:Hs; [congruence|].
        change (join [a; b] ([] :: h :: t)) with ([a; b] ++ join [a; b] (h :: t)).
        rewrite <- Hs, IH by (simpl in Hn; lia). reflexivity.
      + rewrite join_cons_head by apply split2_nonempty.
        rewrite IH by (simpl in Hn; simpl; lia). reflexivity. }
  apply (Hind (length s)). lia.
Qed.

Lemma concat_with_sep (sep : str) (l : list str) :
  l <> [] -> concat (map (fun s => s ++ sep) l) = join sep l ++ sep.
Proof.
  induction l as [|x l IH]; [congruence|]. intros _.
  destruct l as [|y l]; simpl.
  - rewrite app_nil_r. reflexivity.
  - simpl in IH. rewrite IH by discriminate. rewrite <- !app_assoc. reflexivity.
Qed.

Lemma pack_sentences_raw (sentences : list str) (current : str)
    (done : list str) :
  let '(cs, cur) := pack_sentences sentences current done in
  cs ++ map strip (open_chunk cur) = done ++ map strip (pack_raw sentences current).
Proof.
  revert current done. induction sentences as [|s rest IH]; intros current done; simpl.
  - destruct current; reflexivity.
  - destruct (length (current ++ s) <? 1500)%nat.
    + apply IH.
    + specialize (IH (s ++ u ". ")
                     (match current with [] => done | _ => done ++ [strip current] end)).
      destruct (pack_sentences rest _ _) as [cs cur]. rewrite IH.
      destruct current; simpl; [reflexivity|].
      rewrite <- app_assoc. reflexivity.
Qed.

Lemma split_into_chunks_raw (text : str) :
  split_into_chunks text = map strip (pack_raw (split2 46 32 text) []).
Proof.
  unfold split_into_chunks.
  pose proof (pack_sentences_raw (split2 46 32 text) [] []) as Hp.
  destruct (pack_sentences _ _ _) as [cs cur]. simpl in Hp. rewrite <- Hp.
  destruct cur; simpl; [rewrite app_nil_r|]; reflexivity.
Qed.

Lemma pack_raw_concat (sentences : list str) (current : str) :
  concat (pack_raw sentences current)
  = current ++ concat (map (fun s => s ++ u ". ") sentences).
Proof.
  revert current. induction sentences as [|s rest IH]; intros current; simpl.
  - destruct current; simpl; rewrite ?app_nil_r; reflexivity.
  - destruct (length (current ++ s) <? 1500)%nat.
    + rewrite IH. rewrite <- !app_assoc. reflexivity.
    + rewrite concat_app, IH. destruct current; simpl; rewrite ?app_nil_r;
        rewrite <- ?app_assoc; reflexivity.
Qed.

(** The untrimmed chunks, one after the other, are the text followed by
    one more sentence end. *)
Lemma chunks_cover_text (text : str) :
  concat (pack_raw (split2 46 32 text) []) = text ++ u ". ".
Proof.
  rewrite pack_raw_concat. simpl.
  rewrite (concat_with_sep (u ". ")) by apply split2_nonempty.
  change (u ". ") with [46%N; 32%N]. rewrite join_split2. reflexivity.
Qed.

Lemma lstrip_length (s : str) : (length (lstrip s) <= length s)%nat.
Proof.
  induction s as [|c s IH]; simpl; [lia|].
  destruct (is_space c); simpl; lia.
Qed.

Lemma rstrip_length (s : str) : (length (rstrip s) <= length s)%nat.
Proof.
  unfold rstrip. rewrite length_reverse.
  etransitivity; [apply lstrip_length|]. rewrite length_reverse. lia.
Qed.

Lemma lstrip_sentence_end (x : str) : lstrip (x ++ u ". ") = lstrip x ++ u ". ".
Proof.
  induction x as [|c x IH]; [reflexivity|]. simpl.
  destruct (is_space c); [exact IH|reflexivity].
Qed.

Lemma rstrip_sentence_end (x : str) : rstrip (x ++ u ". ") = x ++ u ".".
Proof.
  unfold rstrip. change (u ". ") with [46%N; 32%N].
  rewrite reverse_app. change (reverse [46%N; 32%N]) with [32%N; 46%N].
  change (lstrip ([32%N; 46%N] ++ reverse x)) with (46%N :: reverse x).
  rewrite reverse_cons, reverse_involutive. reflexivity.
Qed.

(** Trimming a chunk takes away the space after its last sentence end. *)
Lemma strip_sentence_end (x : str) :
  strip (x ++ u ". ") = lstrip x ++ u "."
  /\ (length (strip (x ++ u ". ")) < length (x ++ u ". "))%nat.
Proof.
  unfold strip. rewrite lstrip_sentence_end, rstrip_sentence_end.
  split; [reflexivity|]. rewrite !length_app. pose proof (lstrip_length x).
  change (length (u ".")) with 1%nat. change (length (u ". ")) with 2%nat. lia.
Qed.


(** What the direct synthesis returns is the path it was given. *)
Lemma fallback_returns_path env text path w p w' :
  _fallback_text_to_speech env text path w = (Ok p, w') -> p = path.
Proof.
  intros Hr. pose proof (fallback_text_to_speech_post env text path w) as Hpost.
  unfold fallback_post in Hpost. rewrite Hr in Hpost. simpl in Hpost.
  destruct Hpost as [Hp _]. exact Hp.
Qed.

Lemma direct_returns_path env text path w p w' :
  _text_to_speech_direct env text path w = (Ok p, w') -> p = path.
Proof.
  unfold _text_to_speech_direct, try_except.
  destruct (bind _ _ w) as [[q|e] w1] eqn:Hbody.
  - intros Hr. inversion Hr; subst q w1. clear Hr. revert Hbody.
    unfold bind at 1. destruct (makedirs env (dirname path) w) as [[[]|?] w2];
      [|intros Hr; inversion Hr].
    unfold bind at 1, log.
    destruct (azure_speak env text path) as [wr| | |e].
    + unfold bind. destruct wr; simpl; intros Hr; inversion Hr; reflexivity.
    + apply fallback_returns_path.
    + apply fallback_returns_path.
    + unfold raise. intros Hr. inversion Hr.
  - apply fallback_returns_path.
Qed.

Lemma synthesize_chunks_paths env out chunks i w paths w' :
  synthesize_chunks env out i chunks w = (Ok paths, w') ->
  paths = map (chunk_path out) (seq i (length chunks)).
Proof.
  revert i w paths w'. induction chunks as [|c chunks IH]; intros i w paths w'; simpl.
  - unfold ret. intros Hr. inversion Hr. reflexivity.
  - unfold bind at 1.
    destruct (_text_to_speech_direct env c (chunk_path out i) w) as [[p|e] w1] eqn:Hd;
      [|intros Hr; inversion Hr].
    apply direct_returns_path in Hd. subst p.
    unfold bind.
    destruct (synthesize_chunks env out (S i) chunks w1) as [[ps|e] w2] eqn:Hs;
      [|intros Hr; inversion Hr].
    unfold ret. intros Hr. inversion Hr. subst.
    f_equal. eapply IH. exact Hs.
Qed.

Lemma remove_chunks_spec env (paths : list str) w :
  (forall p, p ∈ paths -> remove_ok env p = true) ->
  exists w', remove_chunks env paths w = (Ok tt, w')
             /\ (forall p, p ∈ paths -> files w' !! p = None)
             /\ (forall q, q ∉ paths -> files w' !! q = files w !! q).
Proof.
  revert w. induction paths as [|p paths IH]; intros w Hok; simpl.
  - exists w. split; [reflexivity|]. split; [intros p Hp; inversion Hp|reflexivity].
  - assert (Hp : remove_ok env p = true) by (apply Hok, elem_of_cons; auto).
    assert (Hrest : forall q, q ∈ paths -> remove_ok env q = true)
      by (intros q Hq; apply Hok, elem_of_cons; auto).
    unfold bind at 1, exists_ at 1.
    destruct (bool_decide (is_Some (files w !! p))) eqn:Hthere.
    + rewrite Hp. unfold bind at 1. unfold bind at 1. unfold delete_file at 1.
      unfold log at 1.
      match goal with |- context [remove_chunks env paths ?w1] =>
        destruct (IH w1 Hrest) as (w' & Hrun & Hgone & Hkept) end.
      exists w'. split; [exact Hrun|]. simpl in Hkept. split.
      * intros q Hq. apply elem_of_cons in Hq as [->|Hq]; [|auto].
        destruct (decide (p ∈ paths)) as [Hin|Hnin]; [auto|].
        rewrite Hkept by exact Hnin. apply lookup_delete_eq.
      * intros q Hq. apply not_elem_of_cons in Hq as [Hne Hq].
        rewrite Hkept by exact Hq. apply lookup_delete_ne. congruence.
    + unfold bind at 1, ret at 1.
      destruct (IH w Hrest) as (w' & Hrun & Hgone & Hkept).
      exists w'. split; [exact Hrun|]. split.
      * intros q Hq. apply elem_of_cons in Hq as [->|Hq]; [|auto].
        destruct (decide (p ∈ paths)) as [Hin|Hnin]; [auto|].
        rewrite Hkept by exact Hnin.
        apply bool_decide_eq_false in Hthere.
        destruct (files w !! p) eqn:E; [exfalso; apply Hthere; eauto|reflexivity].
      * intros q Hq. apply not_elem_of_cons in Hq as [Hne Hq]. auto.
Qed.

(** When ffmpeg exits with status 0 and the chunk files can be removed,
    the combined path is returned and no chunk file is left. *)
Lemma combine_audio_files_success env (paths : list str) (out : str) w wr :
  subprocess_run env (concat_cmd (existing paths (files w)) (length paths) out)
  = Returns 0 wr ->
  (forall p, p ∈ paths -> remove_ok env p = true) ->
  exists w', _combine_audio_files env paths out w = (Ok out, w')
             /\ forall p, p ∈ paths -> files w' !! p = None.
Proof.
  intros Hff Hok. unfold _combine_audio_files, try_except, bind at 1, get_files.
  rewrite Hff. unfold bind at 1.
  destruct (run _ By_ffmpeg out (Returns 0 wr) w) as [[rc|e] w1] eqn:Hrun.
  - assert (rc = 0%Z) as ->.
    { destruct (run_returns _ _ _ _ _ _ _ Hrun) as (? & Heq). congruence. }
    simpl. destruct (remove_chunks_spec env paths w1 Hok) as (w' & Hrm & Hgone & _).
    unfold bind. rewrite Hrm. exists w'. split; [reflexivity|exact Hgone].
  - exfalso. revert Hrun. unfold run, bind, log. destruct wr; simpl; discriminate.
Qed.









(* ================================================================== *)
(** * Part III: further properties of the modelled code *)
(* ================================================================== *)

(** ** ModelSelector and ContentGenerator *)

(** The constructor only produces four configurations. *)
Lemma init_configurations (groq_key openai_key : option str) (groq_ok openai_ok : bool) :
  let self := AIServiceManager_init groq_key openai_key groq_ok openai_ok in
  self = {| groq_client := false; openai_client := false; available_models := [] |}
  \/ self = {| groq_client := true; openai_client := false;
               available_models := [GROQ_LLAMA; GROQ_MIXTRAL; GROQ_GEMMA] |}
  \/ self = {| groq_client := false; openai_client := true;
               available_models := [OPENAI_GPT4; OPENAI_GPT35; OPENAI_GPT4_TURBO] |}
  \/ self = {| groq_client := true; openai_client := true;
               available_models := [GROQ_LLAMA; GROQ_MIXTRAL; GROQ_GEMMA;
                                    OPENAI_GPT4; OPENAI_GPT35; OPENAI_GPT4_TURBO] |}.
Proof.
  unfold AIServiceManager_init.
  destruct (key_set groq_key && groq_ok), (key_set openai_key && openai_ok); simpl; auto.
Qed.

(** X1. [select_best_model] raises exactly when no model is available,
    whatever the content type, the complexity and the speed flag. *)
Theorem select_best_model_raises_only_when_empty :
  forall (self : AIServiceManager) (content_type : ContentType)
         (complexity : str) (speed_priority : bool),
    (exists e, select_best_model self content_type complexity speed_priority = Raise e)
    <-> available_models self = [].
Proof. intros. apply select_best_model_raises_iff. Qed.

(** X2. For every manager the constructor can build, the model selected is
    one of the available models. *)
Theorem select_best_model_configured :
  forall (groq_key openai_key : option str) (groq_ok openai_ok : bool)
         (content_type : ContentType) (complexity : str) (speed_priority : bool)
         (model : ModelType),
    let self := AIServiceManager_init groq_key openai_key groq_ok openai_ok in
    select_best_model self content_type complexity speed_priority = Ok model ->
    model ∈ available_models self.
Proof.
  intros groq_key openai_key groq_ok openai_ok ct c sp m self.
  destruct (init_configurations groq_key openai_key groq_ok openai_ok)
    as [Hs|[Hs|[Hs|Hs]]]; fold self in Hs; rewrite Hs; clear Hs self;
    unfold select_best_model; cbn [available_models];
    destruct sp, ct; try destruct (str_eqb c (u "advanced"));
    vm_compute; intros Hm; inversion Hm; subst m;
    repeat first [ apply list_elem_of_here | apply list_elem_of_further ].
Qed.

Lemma select_best_model_configured_witness :
  OPENAI_GPT4_TURBO
  ∈ available_models (AIServiceManager_init None (Some (u "sk-test")) true true).
Proof.
  apply (select_best_model_configured None (Some (u "sk-test")) true true
           TECHNICAL (u "advanced") false OPENAI_GPT4_TURBO).
  vm_compute. reflexivity.
Defined.

Lemma generate_with_groq_returns `{PyRuntime} backends self topic d a model :
  groq_client self = true ->
  exists b, _generate_with_groq backends self topic d a model = Ok b.
Proof.
  intros Hc. unfold _generate_with_groq. rewrite Hc. simpl.
  destruct (res_bind _ _); eauto.
Qed.

Lemma generate_with_openai_returns `{PyRuntime} backends self topic d a model :
  openai_client self = true ->
  exists b, _generate_with_openai backends self topic d a model = Ok b.
Proof.
  intros Hc. unfold _generate_with_openai. rewrite Hc. simpl.
  destruct (res_bind _ _); eauto.
Qed.

(** X3. With speed priority, as [main.py] calls it, content generation
    returns a bundle for every manager the constructor can build with at
    least one key, whatever the backends do: only the empty backend set
    raises. *)
Theorem generate_with_speed_priority_returns :
  forall (R : PyRuntime) (backends : Backends) (groq_key openai_key : option str)
         (groq_ok openai_ok : bool) (topic difficulty audience : str)
         (content_type : ContentType),
    let self := AIServiceManager_init groq_key openai_key groq_ok openai_ok in
    available_models self <> [] ->
    exists b,
      generate_enhanced_content backends self topic difficulty audience
        content_type true = Ok b.
Proof.
  intros R backends groq_key openai_key groq_ok openai_ok topic d a ct self Hne.
  destruct (init_configurations groq_key openai_key groq_ok openai_ok)
    as [Hs|[Hs|[Hs|Hs]]]; fold self in Hs; rewrite Hs in *; clear Hs self.
  - simpl in Hne. congruence.
  - apply (generate_with_groq_returns backends _ topic d a GROQ_LLAMA). reflexivity.
  - apply (generate_with_openai_returns backends _ topic d a OPENAI_GPT35). reflexivity.
  - apply (generate_with_groq_returns backends _ topic d a GROQ_LLAMA). reflexivity.
Qed.

Lemma generate_with_speed_priority_returns_witness :
  exists b,
    generate_enhanced_content (H := ascii_runtime) silent_backends
      (AIServiceManager_init (Some (u "gsk-test")) None true true)
      (u "Gravity") (u "beginner") (u "students") EDUCATIONAL true = Ok b.
Proof.
  apply (generate_with_speed_priority_returns ascii_runtime silent_backends
           (Some (u "gsk-test")) None true true
           (u "Gravity") (u "beginner") (u "students") EDUCATIONAL).
  vm_compute. discriminate.
Defined.

(** X4. When the backend call raises, or its reply has no content, the
    bundle is the fallback template for the topic with the difficulty and
    the audience of the request. When the reply is text that does not
    decode, the fallback template is built for "beginner" and "students",
    whatever the request asked for, unless a lone surrogate among the
    first 500 characters of the reply or of the cleaned text makes the
    parser's handler raise: then the fallback template is again the one
    for the difficulty and the audience of the request. *)
Theorem backend_failure_gives_fallback :
  forall (R : PyRuntime) (backends : Backends) (self : AIServiceManager)
         (topic difficulty audience : str) (model : ModelType),
    groq_client self = true ->
    let model_name :=
      match model with
      | GROQ_MIXTRAL => u "mixtral-8x7b-32768"
      | GROQ_GEMMA => u "gemma-7b-it"
      | _ => u "llama-3.1-8b-instant"
      end in
    let reply := groq_chat backends model_name topic difficulty audience in
    ((exists e, reply = Raise e) \/ reply = Ok None ->
     _generate_with_groq backends self topic difficulty audience model
     = Ok (_create_fallback_content topic difficulty audience))
    /\ (forall content,
          reply = Ok (Some content) ->
          json_loads (clean_json content) = None ->
          _generate_with_groq backends self topic difficulty audience model
          = Ok (if existsb is_surrogate
                     (take 500 content ++ take 500 (clean_json content))
                then _create_fallback_content topic difficulty audience
                else _create_fallback_content topic (u "beginner") (u "students"))).
Proof.
  intros R backends self topic d a model Hc model_name reply.
  assert (Hname : model_name =
                  match model with
                  | GROQ_LLAMA => u "llama-3.1-8b-instant"
                  | GROQ_MIXTRAL => u "mixtral-8x7b-32768"
                  | GROQ_GEMMA => u "gemma-7b-it"
                  | _ => u "llama-3.1-8b-instant"
                  end) by (destruct model; reflexivity).
  split.
  - intros Hfail. unfold _generate_with_groq. rewrite Hc. cbn [negb].
    rewrite <- Hname. fold reply.
    destruct Hfail as [[e He]|He]; rewrite He; reflexivity.
  - intros content Hreply Hload. unfold _generate_with_groq. rewrite Hc. cbn [negb].
    rewrite <- Hname. fold reply. rewrite Hreply. cbn [res_bind].
    rewrite (parse_handler content topic (ValueError (u "JSONDecodeError")))
      by (unfold parse_body; rewrite Hload; reflexivity).
    destruct (existsb _ _); reflexivity.
Qed.

Lemma backend_failure_gives_fallback_witness :
  let self := AIServiceManager_init (Some (u "gsk-test")) None true true in
  let plain := {| groq_chat := fun _ _ _ _ => Ok (Some (u "Sorry, no JSON today."));
                  openai_chat := fun _ _ _ _ => Ok None |} in
  let broken := {| groq_chat := fun _ _ _ _ => Ok (Some (56320%N :: u " no JSON"));
                   openai_chat := fun _ _ _ _ => Ok None |} in
  _generate_with_groq (H := ascii_runtime) plain self
    (u "Gravity") (u "advanced") (u "adults") GROQ_LLAMA
  = Ok (_create_fallback_content (H := ascii_runtime)
          (u "Gravity") (u "beginner") (u "students"))
  /\ _generate_with_groq (H := ascii_runtime) broken self
       (u "Gravity") (u "advanced") (u "adults") GROQ_LLAMA
     = Ok (_create_fallback_content (H := ascii_runtime)
             (u "Gravity") (u "advanced") (u "adults")).
Proof.
  intros self plain broken. split.
  - apply (proj2 (backend_failure_gives_fallback ascii_runtime plain self
                    (u "Gravity") (u "advanced") (u "adults") GROQ_LLAMA eq_refl)
             (u "Sorry, no JSON today.")); vm_compute; reflexivity.
  - apply (proj2 (backend_failure_gives_fallback ascii_runtime broken self
                    (u "Gravity") (u "advanced") (u "adults") GROQ_LLAMA eq_refl)
             (56320%N :: u " no JSON")); vm_compute; reflexivity.
Defined.

(** ** Response repair: code fences *)

Lemma find_at_after (c : N) (needle' pre rest : str) (pos : nat) :
  c ∉ pre ->
  find_at (c :: needle') (pre ++ (c :: needle') ++ rest) pos = Some (pos + length pre)%nat.
Proof.
  revert pos. induction pre as [|x pre IH]; intros pos Hc.
  - cbn [app length]. cbn [find_at].
    change (c :: needle' ++ rest) with ((c :: needle') ++ rest).
    rewrite startswith_app. f_equal. lia.
  - apply not_elem_of_cons in Hc as [Hne Hc].
    cbn [app]. cbn [find_at startswith].
    replace (c =? x)%N with false by (symmetry; apply N.eqb_neq; exact Hne).
    cbn [andb]. rewrite IH by exact Hc. cbn [length]. f_equal. lia.
Qed.

Lemma find_at_absent (c : N) (needle' s : str) (pos : nat) :
  c ∉ s -> find_at (c :: needle') s pos = None.
Proof.
  revert pos. induction s as [|x s IH]; intros pos Hc; [reflexivity|].
  apply not_elem_of_cons in Hc as [Hne Hc].
  cbn [find_at startswith].
  replace (c =? x)%N with false by (symmetry; apply N.eqb_neq; exact Hne).
  cbn [andb]. apply IH. exact Hc.
Qed.

Lemma find_from_0 (needle s : str) : find_from needle s 0 = find_at needle s 0.
Proof.
  unfold find_from. destruct (decide (0 <= length s)%nat); [reflexivity|lia].
Qed.

Lemma find_from_drop (needle a b : str) :
  find_from needle (a ++ b) (length a) = find_at needle b (length a).
Proof.
  unfold find_from. rewrite length_app.
  destruct (decide (length a <= length a + length b)%nat); [|lia].
  rewrite drop_app_length. reflexivity.
Qed.

(** X5. A reply that wraps its JSON in a [```json] fence is unwrapped:
    when neither the text before the fence nor the text inside it contains
    a backquote, what is handed on is the text inside, trimmed; whatever
    follows the closing fence is dropped. *)
Theorem extract_json_unwraps_fence :
  forall (pre body post : str),
    96%N ∉ pre -> 96%N ∉ body ->
    extract_json (pre ++ u "```json" ++ body ++ u "```" ++ post) = strip body.
Proof.
  intros pre body post Hpre Hbody. unfold extract_json.
  rewrite find_from_0.
  change (u "```json") with (96%N :: u "``json").
  rewrite (find_at_after 96 (u "``json") pre (body ++ u "```" ++ post) 0 Hpre).
  cbn [Nat.add].
  replace (pre ++ (96%N :: u "``json") ++ body ++ u "```" ++ post)
    with ((pre ++ 96%N :: u "``json") ++ body ++ u "```" ++ post)
    by (rewrite <- app_assoc; reflexivity).
  replace (length pre + 7)%nat with (length (pre ++ 96%N :: u "``json"))
    by (rewrite length_app; reflexivity).
  rewrite find_from_drop.
  change (u "```") with (96%N :: u "``").
  rewrite (find_at_after 96 (u "``") body post _ Hbody).
  unfold slice_find. rewrite drop_app_length.
  replace (length (pre ++ 96%N :: u "``json") + length body
           - length (pre ++ 96%N :: u "``json"))%nat with (length body) by lia.
  rewrite take_app_length. reflexivity.
Qed.

Lemma extract_json_unwraps_fence_witness :
  extract_json (u "Here is the content: " ++ u "```json" ++ u " {} " ++ u "```" ++ u " Enjoy!")
  = strip (u " {} ").
Proof.
  apply (extract_json_unwraps_fence (u "Here is the content: ") (u " {} ") (u " Enjoy!"));
    apply (bool_decide_unpack _); vm_compute; exact I.
Defined.

(** X6. A fence that is never closed costs the reply its last character:
    the end of the slice is the [-1] that [find] returned. *)
Theorem extract_json_unclosed_fence :
  forall (pre body : str),
    96%N ∉ pre -> 96%N ∉ body ->
    extract_json (pre ++ u "```json" ++ body)
    = strip (take (length body - 1) body).
Proof.
  intros pre body Hpre Hbody. unfold extract_json.
  rewrite find_from_0.
  change (u "```json") with (96%N :: u "``json").
  replace (pre ++ (96%N :: u "``json") ++ body)
    with (pre ++ (96%N :: u "``json") ++ body ++ []) by (rewrite app_nil_r; reflexivity).
  rewrite (find_at_after 96 (u "``json") pre (body ++ []) 0 Hpre).
  rewrite app_nil_r. cbn [Nat.add].
  replace (pre ++ (96%N :: u "``json") ++ body)
    with ((pre ++ 96%N :: u "``json") ++ body)
    by (rewrite <- app_assoc; reflexivity).
  replace (length pre + 7)%nat with (length (pre ++ 96%N :: u "``json"))
    by (rewrite length_app; reflexivity).
  rewrite find_from_drop.
  change (u "```") with (96%N :: u "``").
  rewrite (find_at_absent 96 (u "``") body _ Hbody).
  unfold slice_find. rewrite drop_app_length.
  replace (length ((pre ++ 96%N :: u "``json") ++ body) - 1
           - length (pre ++ 96%N :: u "``json"))%nat with (length body - 1)%nat
    by (rewrite (length_app _ body); lia).
  reflexivity.
Qed.

Lemma extract_json_unclosed_fence_witness :
  extract_json (u "" ++ u "```json" ++ u "{}") = strip (take (length (u "{}") - 1) (u "{}")).
Proof.
  apply (extract_json_unclosed_fence (u "") (u "{}"));
    apply (bool_decide_unpack _); vm_compute; exact I.
Defined.

(** ** SpeechSynthesizer: silence, chunks and paths *)

Lemma at_least_5_small (d : Q) : (d <= 5)%Q -> at_least_5 d = 5%Q.
Proof.
  intros Hd. unfold at_least_5.
  apply Qle_bool_iff in Hd. rewrite Hd. reflexivity.
Qed.

(** X7. The silent audio lasts five seconds at least: the WAV file written
    holds 110250 samples or more, exactly 110250 for a text of at most 12
    words (the empty text included), and is never shorter than 220544
    bytes. *)
Theorem silent_audio_at_least_five_seconds :
  forall (env : Env) (text output_path : str) (w : World),
    wave_write env output_path (num_samples text) = None ->
    exists w',
      _create_silent_audio env text output_path w = (Ok tt, w')
      /\ files w' !! output_path = Some (Binary By_wave (wav_size (num_samples text)))
      /\ (220544 <= wav_size (num_samples text))%N
      /\ ((length (split_ws text) <= 12)%nat -> num_samples text = 110250%N).
Proof.
  intros env text path w Hw.
  rewrite (create_silent_audio_wave _ _ _ _ Hw). eexists. split; [reflexivity|].
  split; [apply lookup_insert_eq|]. split.
  - pose proof (num_samples_ge text). unfold wav_size. lia.
  - intros Hwords. unfold num_samples, estimated_duration.
    remember (length (split_ws text)) as n eqn:Hn. clear Hn.
    do 13 (destruct n as [|n]; [vm_compute; reflexivity|]). lia.
Qed.

Lemma silent_audio_at_least_five_seconds_witness :
  let text := u "one two three four five six seven eight nine ten eleven twelve thirteen fourteen fifteen sixteen seventeen eighteen" in
  exists w',
    _create_silent_audio no_tools_env text (u "out/narration.wav") empty_world = (Ok tt, w')
    /\ files w' !! (u "out/narration.wav")
       = Some (Binary By_wave (wav_size (num_samples text)))
    /\ (220544 <= wav_size (num_samples text))%N
    /\ ((length (split_ws text) <= 12)%nat -> num_samples text = 110250%N).
Proof.
  intros text.
  apply (silent_audio_at_least_five_seconds no_tools_env text (u "out/narration.wav")
           empty_world).
  reflexivity.
Defined.

(** Eighteen words: the two roundings of the duration leave the product
    with the sample rate just below 158760, and [int] truncates. *)
Lemma num_samples_eighteen_words :
  num_samples (u "one two three four five six seven eight nine ten eleven twelve thirteen fourteen fifteen sixteen seventeen eighteen")
  = 158759%N.
Proof. vm_compute. reflexivity. Qed.

(** The sample counts agree with the ones computed with the binary64
    operations of the standard library's specification of IEEE 754, for
    every word count below 3000. *)
Lemma samples_agree_with_SpecFloat :
  forallb (fun n => (samples_of_duration (at_least_5 (words_duration n))
                     =? binary64_samples n)%N) (seq 0 3000) = true.
Proof. vm_compute. reflexivity. Qed.

Lemma pack_raw_ends (sentences : list str) (current : str) :
  current = [] \/ (exists x, current = x ++ u ". ") ->
  Forall (fun raw => exists x, raw = x ++ u ". ") (pack_raw sentences current).
Proof.
  revert current. induction sentences as [|s rest IH]; intros current Hcur; simpl.
  - destruct current; [constructor|]. destruct Hcur as [Hc|Hc]; [discriminate|].
    constructor; [exact Hc|constructor].
  - destruct (length (current ++ s) <? 1500)%nat.
    + apply IH. right. exists (current ++ s). rewrite <- app_assoc. reflexivity.
    + apply Forall_app. split.
      * destruct current; [constructor|]. destruct Hcur as [Hc|Hc]; [discriminate|].
        constructor; [exact Hc|constructor].
      * apply IH. right. exists s. reflexivity.
Qed.

Lemma split_into_chunks_nonempty (text : str) : split_into_chunks text <> [].
Proof.
  rewrite split_into_chunks_raw. intros Hnil. apply map_eq_nil in Hnil.
  pose proof (chunks_cover_text text) as Hcover. rewrite Hnil in Hcover.
  simpl in Hcover. symmetry in Hcover. apply app_eq_nil in Hcover as [_ Hc].
  vm_compute in Hc. discriminate.
Qed.

(** X8. Chunking always gives at least one chunk, the empty text included,
    and every chunk handed to the synthesizer ends with a full stop. *)
Theorem chunks_nonempty_and_end_with_stop :
  forall (text : str),
    split_into_chunks text <> []
    /\ Forall (fun chunk => endswith1 46 chunk = true) (split_into_chunks text).
Proof.
  intros text. rewrite split_into_chunks_raw. split.
  - intros Hnil. apply map_eq_nil in Hnil.
    pose proof (chunks_cover_text text) as Hcover. rewrite Hnil in Hcover.
    simpl in Hcover. symmetry in Hcover. apply app_eq_nil in Hcover as [_ Hc].
    vm_compute in Hc. discriminate.
  - pose proof (pack_raw_ends (split2 46 32 text) [] (or_introl eq_refl)) as Hends.
    induction Hends as [|raw l Hraw _ IH]; simpl; constructor; [|exact IH].
    destruct Hraw as (x & ->).
    destruct (strip_sentence_end x) as [-> _].
    unfold endswith1. change (u ".") with [46%N].
    rewrite reverse_app. reflexivity.
Qed.

Lemma combine_returns env (paths : list str) (out : str) w p w' :
  _combine_audio_files env paths out w = (Ok p, w') ->
  p = out \/ p = first_or paths out.
Proof.
  unfold _combine_audio_files, try_except.
  destruct (bind get_files _ w) as [[q|e] w1] eqn:Hbody.
  - intros Hr. inversion Hr; subst q w1. clear Hr. revert Hbody.
    unfold bind at 1, get_files. unfold bind at 1.
    destruct (run _ _ _ _ w) as [[rc|e] w1]; [|intros Hr; inversion Hr].
    destruct (rc =? 0)%Z.
    + unfold bind. destruct (remove_chunks env paths w1) as [[[]|e] w2];
        unfold ret; intros Hr; inversion Hr. left. reflexivity.
    + unfold ret. intros Hr. inversion Hr. right. reflexivity.
  - unfold ret. intros Hr. inversion Hr. right. reflexivity.
Qed.

(** X9. Whatever the mode of the service, the path [text_to_speech]
    returns is the output path or, when the chunks could not be combined,
    the path of the first chunk. *)
Theorem text_to_speech_returns_output_or_first_chunk :
  forall (env : Env) (self : AzureSpeechService) (text output_path : str)
         (w w' : World) (p : str),
    text_to_speech env self text output_path w = (Ok p, w') ->
    p = output_path \/ p = chunk_path output_path 0.
Proof.
  intros env self text out w w' p. unfold text_to_speech.
  destruct (fallback_mode self).
  { intros Hr. left. eapply fallback_returns_path. exact Hr. }
  destruct (2000 <? length text)%nat.
  2:{ destruct (azure_times_out env text out); intros Hr; left;
        [eapply fallback_returns_path|eapply direct_returns_path]; exact Hr. }
  unfold _text_to_speech_chunked, try_except.
  destruct (bind _ _ w) as [[q|e] w1] eqn:Hbody.
  2:{ intros Hr. left. eapply fallback_returns_path. exact Hr. }
  intros Hr. inversion Hr; subst q w1. clear Hr. revert Hbody.
  unfold bind.
  destruct (synthesize_chunks env out 0 (split_into_chunks text) w)
    as [[paths|e] w1] eqn:Hsyn; [|intros Hr; inversion Hr].
  intros Hcomb. apply combine_returns in Hcomb as [-> | ->]; [left; reflexivity|].
  apply synthesize_chunks_paths in Hsyn. subst paths.
  pose proof (split_into_chunks_nonempty text) as Hne.
  destruct (split_into_chunks text) as [|c l]; [congruence|]. right. reflexivity.
Qed.

Lemma text_to_speech_returns_output_or_first_chunk_witness :
  u "out/narration.wav" = u "out/narration.wav"
  \/ u "out/narration.wav" = chunk_path (u "out/narration.wav") 0.
Proof.
  apply (text_to_speech_returns_output_or_first_chunk no_tools_env
           (AzureSpeechService_init None None) (u "hello world")
           (u "out/narration.wav") empty_world
           (text_to_speech no_tools_env (AzureSpeechService_init None None)
              (u "hello world") (u "out/narration.wav") empty_world).2).
  vm_compute. reflexivity.
Defined.

Lemma replace_go_absent (old new s : str) :
  contains old s = false -> replace_go old new 0 s = s.
Proof.
  induction s as [|c s IH]; [reflexivity|]. cbn [contains]. intros Hc.
  apply orb_false_elim in Hc as [Hstart Hrest].
  cbn [replace_go]. rewrite Hstart. f_equal. apply IH. exact Hrest.
Qed.

Lemma chunk_path_without_wav (out : str) (i : nat) :
  contains (u ".wav") out = false -> chunk_path out i = out.
Proof. intros Hc. unfold chunk_path, str_replace. apply replace_go_absent. exact Hc. Qed.

(** X10. When the output path does not contain ".wav", every chunk path is
    the output path itself; a chunked synthesis whose ffmpeg run succeeds
    then removes the file it has just combined and returns a path at which
    no file exists. *)
Theorem chunked_without_wav_loses_output :
  forall (env : Env) (text output_path : str) (w w1 : World)
         (paths : list str) (wr : option N),
    contains (u ".wav") output_path = false ->
    synthesize_chunks env output_path 0 (split_into_chunks text) w = (Ok paths, w1) ->
    subprocess_run env
      (concat_cmd (existing paths (files w1)) (length paths) output_path)
    = Returns 0 wr ->
    remove_ok env output_path = true ->
    exists w',
      _text_to_speech_chunked env text output_path w = (Ok output_path, w')
      /\ files w' !! output_path = None.
Proof.
  intros env text out w w1 paths wr Hno Hsyn Hff Hrm.
  pose proof (synthesize_chunks_paths _ _ _ _ _ _ _ Hsyn) as Hpaths.
  assert (Hall : forall p, p ∈ paths -> p = out).
  { intros p Hp. rewrite Hpaths in Hp. apply elem_of_map in Hp as (i & -> & _).
    apply chunk_path_without_wav. exact Hno. }
  assert (Hin : out ∈ paths).
  { pose proof (split_into_chunks_nonempty text) as Hne.
    rewrite Hpaths. destruct (split_into_chunks text) as [|c l]; [congruence|].
    simpl. rewrite chunk_path_without_wav by exact Hno. apply list_elem_of_here. }
  destruct (combine_audio_files_success env paths out w1 wr Hff) as (w' & Hrun & Hgone).
  { intros p Hp. rewrite (Hall p Hp). exact Hrm. }
  exists w'. split; [|apply Hgone; exact Hin].
  unfold _text_to_speech_chunked, try_except, bind. rewrite Hsyn, Hrun. reflexivity.
Qed.

Lemma chunked_without_wav_loses_output_witness :
  exists w',
    _text_to_speech_chunked all_tools_env (u "One. Two") (u "out/narration.mp3")
      empty_world = (Ok (u "out/narration.mp3"), w')
    /\ files w' !! (u "out/narration.mp3") = None.
Proof.
  apply (chunked_without_wav_loses_output all_tools_env (u "One. Two")
           (u "out/narration.mp3") empty_world
           (synthesize_chunks all_tools_env (u "out/narration.mp3") 0
              (split_into_chunks (u "One. Two")) empty_world).2
           [u "out/narration.mp3"] (Some 4096%N));
    vm_compute; reflexivity.
Defined.

(** X11. When ffmpeg cannot combine the chunks (it is missing, or exits
    with a status other than 0), the path of the first chunk is returned,
    or the output path if there is no chunk, and no chunk file is removed:
    apart from the output path the files are as before. *)
Theorem combine_failure_keeps_chunks :
  forall (env : Env) (audio_paths : list str) (output_path : str) (w : World),
    (forall wr,
        subprocess_run env
          (concat_cmd (existing audio_paths (files w)) (length audio_paths) output_path)
        <> Returns 0 wr) ->
    exists w',
      _combine_audio_files env audio_paths output_path w
      = (Ok (first_or audio_paths output_path), w')
      /\ forall q, q <> output_path -> files w' !! q = files w !! q.
Proof.
  intros env paths out w Hfail.
  unfold _combine_audio_files, try_except, bind at 1, get_files.
  set (cmd := concat_cmd _ _ _) in *.
  unfold bind, run, log.
  destruct (subprocess_run env cmd) as [rc wr|e wr] eqn:Hout.
  - assert (Hrc : (rc =? 0)%Z = false).
    { apply Z.eqb_neq. intros ->. exact (Hfail wr eq_refl). }
    destruct wr as [n|]; simpl; rewrite Hrc; eexists; (split; [reflexivity|]);
      intros q Hq; simpl; [apply lookup_insert_ne; congruence|reflexivity].
  - destruct wr as [n|]; simpl; eexists; (split; [reflexivity|]);
      intros q Hq; simpl; [apply lookup_insert_ne; congruence|reflexivity].
Qed.

Lemma combine_failure_keeps_chunks_witness :
  exists w',
    _combine_audio_files no_tools_env
      [u "out/narration_chunk_0.wav"; u "out/narration_chunk_1.wav"]
      (u "out/narration.wav") empty_world
    = (Ok (first_or [u "out/narration_chunk_0.wav"; u "out/narration_chunk_1.wav"]
             (u "out/narration.wav")), w')
    /\ forall q, q <> u "out/narration.wav" -> files w' !! q = files empty_world !! q.
Proof.
  apply (combine_failure_keeps_chunks no_tools_env
           [u "out/narration_chunk_0.wav"; u "out/narration_chunk_1.wav"]
           (u "out/narration.wav") empty_world).
  intros wr. simpl. discriminate.
Defined.

Lemma only_touched_refl path w : only_touched path [] w w.
Proof. split; [rewrite app_nil_r; reflexivity|]. split; reflexivity. Qed.

Lemma only_touched_trans path evs1 evs2 w1 w2 w3 :
  only_touched path evs1 w1 w2 -> only_touched path evs2 w2 w3 ->
  only_touched path (evs1 ++ evs2) w1 w3.
Proof.
  intros (He1 & Hf1 & Hj1) (He2 & Hf2 & Hj2). split; [|split].
  - rewrite He2, He1, app_assoc. reflexivity.
  - intros q Hq. rewrite Hf2, Hf1 by exact Hq. reflexivity.
  - congruence.
Qed.

Lemma run_only_touched ev o path oc w :
  only_touched path [ev] w (run ev o path oc w).2.
Proof.
  unfold run, bind, log.
  destruct oc as [rc [n|]|e [n|]]; simpl; (split; [reflexivity|]);
    (split; [|reflexivity]); intros q Hq; simpl;
    try reflexivity; apply lookup_insert_ne; congruence.
Qed.

Lemma makedirs_world env d w : (makedirs env d w).2 = w.
Proof. unfold makedirs. destruct d; [reflexivity|]. destruct (makedirs_ok env _); reflexivity. Qed.

Lemma silent_only_touched env text path w :
  only_touched path [] w (_create_silent_audio env text path w).2.
Proof.
  unfold _create_silent_audio, try_except, open_write.
  destruct (wave_write env path (num_samples text)); simpl.
  - destruct (open_w_ok env path); simpl.
    + split; [rewrite app_nil_r; reflexivity|]. split; [|reflexivity].
      intros q Hq. simpl. apply lookup_insert_ne. congruence.
    + apply only_touched_refl.
  - split; [rewrite app_nil_r; reflexivity|]. split; [|reflexivity].
    intros q Hq. simpl. apply lookup_insert_ne. congruence.
Qed.

Lemma silent_then_return_touched env text path w :
  only_touched path [] w ((let* _ := _create_silent_audio env text path in ret path) w).2.
Proof.
  pose proof (silent_only_touched env text path w) as Hs.
  unfold bind. destruct (_create_silent_audio env text path w) as [[[]|e] w1]; exact Hs.
Qed.

Lemma size_tier_world ev o path oc w :
  (try_except (let* _ := run ev o path oc in exists_over_1000 path)
              (fun _ => ret false) w).2 = (run ev o path oc w).2.
Proof.
  unfold try_except, bind. destruct (run ev o path oc w) as [[rc|e] w1]; reflexivity.
Qed.

Lemma espeak_tier_world env text path w :
  (try_except
     (let* rc := run (Exec (espeak_cmd text path)) By_espeak path
                     (subprocess_run env (espeak_cmd text path)) in
      let* there := exists_ path in
      ret ((rc =? 0)%Z && there))
     (fun _ => ret false) w).2
  = (run (Exec (espeak_cmd text path)) By_espeak path
         (subprocess_run env (espeak_cmd text path)) w).2.
Proof.
  unfold try_except, bind. destruct (run _ _ _ _ w) as [[rc|e] w1]; reflexivity.
Qed.

Lemma tiers_called_silent env text path w k w1 :
  (k <= 3)%nat ->
  only_touched path (take k (tier_calls text path)) w w1 ->
  tiers_called text path w ((let* _ := _create_silent_audio env text path in ret path) w1).
Proof.
  intros Hk Ht. exists k. split; [exact Hk|].
  rewrite <- (app_nil_r (take k _)).
  eapply only_touched_trans; [exact Ht|apply silent_then_return_touched].
Qed.

Lemma fallback_body_tiers env text path w :
  tiers_called text path w
    ((let* _ := makedirs env (dirname path) in
      let* done1 :=
        try_except
          (let* _ := run (LibCall (u "pyttsx3") [text; path]) By_pyttsx3
                         path (pyttsx3 env text path) in
           exists_over_1000 path)
          (fun _ => ret false) in
      if done1 : bool then ret path else
      let* done2 :=
        try_except
          (let* rc := run (Exec (espeak_cmd text path)) By_espeak
                          path (subprocess_run env (espeak_cmd text path)) in
           let* there := exists_ path in
           ret ((rc =? 0)%Z && there))
          (fun _ => ret false) in
      if done2 : bool then ret path else
      let* done3 :=
        try_except
          (let* _ := run (LibCall (u "gTTS") [text; path]) By_gtts
                         path (gtts env text path) in
           exists_over_1000 path)
          (fun _ => ret false) in
      if done3 : bool then ret path else
      let* _ := _create_silent_audio env text path in
      ret path) w).
Proof.
  apply bind_case; intros a w1 E; pose proof (makedirs_world env (dirname path) w) as Hw;
    rewrite E in Hw; simpl in Hw; subst w1.
  2:{ exists 0%nat. split; [lia|apply only_touched_refl]. }
  apply bind_case; [intros b1 w1 E1|intros ? ? E1; destruct (tier_never_raises _ _ _ _ _ E1)].
  assert (H1 : only_touched path (take 1 (tier_calls text path)) w w1).
  { pose proof (size_tier_world (LibCall (u "pyttsx3") [text; path]) By_pyttsx3 path
                  (pyttsx3 env text path) w) as Hw.
    rewrite E1 in Hw. simpl in Hw. rewrite Hw. apply run_only_touched. }
  destruct b1; [exists 1%nat; split; [lia|exact H1]|].
  apply bind_case; [intros b2 w2 E2|intros ? ? E2; destruct (tier_never_raises _ _ _ _ _ E2)].
  assert (H2 : only_touched path (take 2 (tier_calls text path)) w w2).
  { pose proof (espeak_tier_world env text path w1) as Hw.
    rewrite E2 in Hw. simpl in Hw. rewrite Hw.
    change (take 2 (tier_calls text path))
      with (take 1 (tier_calls text path) ++ [Exec (espeak_cmd text path)]).
    eapply only_touched_trans; [exact H1|apply run_only_touched]. }
  destruct b2; [exists 2%nat; split; [lia|exact H2]|].
  apply bind_case; [intros b3 w3 E3|intros ? ? E3; destruct (tier_never_raises _ _ _ _ _ E3)].
  assert (H3 : only_touched path (take 3 (tier_calls text path)) w w3).
  { pose proof (size_tier_world (LibCall (u "gTTS") [text; path]) By_gtts path
                  (gtts env text path) w2) as Hw.
    rewrite E3 in Hw. simpl in Hw. rewrite Hw.
    change (take 3 (tier_calls text path))
      with (take 2 (tier_calls text path) ++ [LibCall (u "gTTS") [text; path]]).
    eapply only_touched_trans; [exact H2|apply run_only_touched]. }
  destruct b3; [exists 3%nat; split; [lia|exact H3]|].
  apply (tiers_called_silent env text path w 3 w3); [lia|exact H3].
Qed.

(** X12. The fallback chain calls its engines in a fixed order, pyttsx3,
    then espeak, then gTTS, each at most once and a later one only after
    the earlier ones; it makes no other call, writes no file other than the
    output path and leaves the job registry alone. *)
Theorem fallback_chain_order_and_frame :
  forall (env : Env) (text output_path : str) (w : World),
    exists k,
      (k <= 3)%nat
      /\ events (_fallback_text_to_speech env text output_path w).2
         = events w ++ take k (tier_calls text output_path)
      /\ (forall q, q <> output_path ->
            files (_fallback_text_to_speech env text output_path w).2 !! q
            = files w !! q)
      /\ processing_jobs (_fallback_text_to_speech env text output_path w).2
         = processing_jobs w.
Proof.
  intros env text path w.
  assert (Ht : tiers_called text path w (_fallback_text_to_speech env text path w)).
  { unfold _fallback_text_to_speech.
    pose proof (fallback_body_tiers env text path w) as Hbody.
    unfold try_except.
    destruct (bind (makedirs env (dirname path)) _ w) as [[p|e] w1]; [exact Hbody|].
    destruct Hbody as (k & Hk & Hk'). simpl in Hk'.
    apply (tiers_called_silent env text path w k w1 Hk Hk'). }
  destruct Ht as (k & Hk & He & Hf & Hj). exists k. auto.
Qed.

(** ** VideoAssembler: slides and durations *)





(** X14. Without a slide, or when the first slide does not exist, the
    fallback path does not run ffmpeg at all: it writes the text
    placeholder at the output path, which names the audio file and the
    slide list, and returns that path. *)
Theorem simple_video_without_first_slide :
  forall (R : PyRuntime) (env : Env) (audio_path : str)
         (animation_paths : list str) (output_path : str) (w : World),
    match animation_paths with
    | [] => True
    | first_slide :: _ => files w !! first_slide = None
    end ->
    open_w_ok env output_path = true ->
    _create_simple_video env audio_path animation_paths output_path w
    = (Ok output_path,
       {| files := <[output_path := Text (placeholder_text audio_path animation_paths)]>
                     (files w);
          events := events w;
          processing_jobs := processing_jobs w |}).
Proof.
  intros R env audio_path paths out w Hfirst Hopen.
  unfold _create_simple_video, try_except, bind, open_write.
  destruct paths as [|first rest].
  - unfold ret at 1. rewrite Hopen. reflexivity.
  - unfold exists_ at 1. rewrite Hfirst.
    rewrite bool_decide_eq_false_2 by (intros [? ?]; discriminate).
    unfold ret at 1. rewrite Hopen. reflexivity.
Qed.

Lemma simple_video_without_first_slide_witness :
  _create_simple_video (H := ascii_runtime) all_tools_env (u "out/narration.wav") []
    (u "out/final_video.mp4") empty_world
  = (Ok (u "out/final_video.mp4"),
     {| files := <[u "out/final_video.mp4"
                   := Text (placeholder_text (H := ascii_runtime) (u "out/narration.wav") [])]>
                   (files empty_world);
        events := events empty_world;
        processing_jobs := processing_jobs empty_world |}).
Proof.
  apply (simple_video_without_first_slide ascii_runtime all_tools_env
           (u "out/narration.wav") [] (u "out/final_video.mp4") empty_world);
    [exact I|reflexivity].
Defined.

(** ** JobCoordinator: how a job ends *)

Lemma quiet_keeps_job {A} (m : M A) (job : str) (st : ProcessingStatus) (w : World) :
  quiet m -> processing_jobs w !! job = Some st ->
  processing_jobs (m w).2 !! job = Some st.
Proof. intros Hq Hj. destruct (Hq w) as [Hjobs _]. rewrite Hjobs. exact Hj. Qed.

Lemma update_registered job st w s p m r :
  processing_jobs w !! job = Some st ->
  exists w', job_update_status job s p m r w = (Ok tt, w')
             /\ processing_jobs w' !! job = Some (update_status st s p m r).
Proof.
  intros Hj. eexists. split.
  - unfold job_update_status, bind, get_job. rewrite Hj. reflexivity.
  - apply lookup_insert_eq.
Qed.

Ltac stage_elem :=
  cbn [progress update_status];
  repeat first [apply list_elem_of_here | apply list_elem_of_further].

Ltac registry_quiet Hj :=
  apply bind_case;
  [ let E := fresh "E" in
    intros ? ? E;
    match type of E with
    | ?m ?w = _ =>
      let Hq := fresh "Hq" in
      assert (Hq : quiet m) by auto with quiet;
      apply (quiet_keeps_job m _ _ _ Hq) in Hj;
      rewrite E in Hj; cbn [snd] in Hj; clear E Hq
    end
  | let E := fresh "E" in
    intros ? ? E;
    match type of E with
    | ?m ?w = _ =>
      let Hq := fresh "Hq" in
      assert (Hq : quiet m) by auto with quiet;
      apply (quiet_keeps_job m _ _ _ Hq) in Hj;
      rewrite E in Hj; cbn [snd] in Hj; clear E Hq
    end;
    unfold steps_result; cbn [fst snd];
    eexists; split; [exact Hj|split; [reflexivity|stage_elem]] ].

Ltac registry_update Hj :=
  let w' := fresh "w" in
  let Hrun := fresh "Hrun" in
  let Hj' := fresh "Hj" in
  let E := fresh "E" in
  match goal with
  | |- _ (bind (job_update_status ?j ?s ?p ?m ?r) _ _) =>
    destruct (update_registered j _ _ s p m r Hj) as (w' & Hrun & Hj');
    apply bind_case; [intros [] ? E | intros ? ? E];
    rewrite Hrun in E; inversion E; subst; clear E Hrun Hj
  end.

Lemma process_steps_result `{PyRuntime} (app : App) (job : str)
    (request : TopicRequest) (w : World) (st0 : ProcessingStatus) :
  processing_jobs w !! job = Some st0 ->
  steps_result job st0 (process_steps app job request w).
Proof.
  intros Hj. unfold process_steps.
  registry_update Hj.
  registry_quiet Hj0. registry_quiet Hj0.
  registry_update Hj0.
  registry_quiet Hj. registry_quiet Hj.
  registry_update Hj.
  registry_quiet Hj0. registry_quiet Hj0. registry_quiet Hj0.
  registry_update Hj0.
  registry_quiet Hj.
  destruct (update_registered job _ _ (u "completed") 100%Z
              (u "Content generation completed successfully!")
              (Some (JDict [ (u "audio_path", JStr a2);
                             (u "video_path", JStr a6);
                             (u "text_path",
                              JStr ((u "./outputs/" ++ job) ++ u "/explanation.txt"));
                             (u "sections", a3) ])) Hj)
    as (w' & Hrun & Hj').
  rewrite Hrun. unfold steps_result. cbn [fst snd].
  exists a2, a6, a3. exact Hj'.
Qed.

(** X15. The background task of a registered job never raises, and it
    leaves the job either completed or failed.  A completed job has
    progress 100 and result data with the four entries audio path, video
    path, text path and sections, the text path being
    [./outputs/<job>/explanation.txt]; a failed job has the progress of
    one of the four stages and its result data are the ones it had before. *)
Theorem registered_job_completes_or_fails :
  forall (R : PyRuntime) (app : App) (job : str) (request : TopicRequest)
         (w : World) (st0 : ProcessingStatus),
    processing_jobs w !! job = Some st0 ->
    (process_content_generation app job request w).1 = Ok tt
    /\ exists st,
         processing_jobs (process_content_generation app job request w).2 !! job = Some st
         /\ ((exists audio_path video_path sections,
                st = completed_status st0 job audio_path video_path sections)
             \/ (status st = u "failed"
                 /\ result_data st = result_data st0
                 /\ progress st ∈ [10; 30; 50; 80]%Z)).
Proof.
  intros R app job request w st0 Hj.
  pose proof (process_steps_result app job request w st0 Hj) as Hres.
  rewrite process_content_generation_cases.
  unfold steps_result in Hres.
  destruct (process_steps app job request w) as [[[]|e] w1]; cbn [fst snd] in Hres.
  - destruct Hres as (a & v & secs & Hj1). split; [reflexivity|].
    eexists. split; [exact Hj1|]. left. exists a, v, secs. reflexivity.
  - destruct Hres as (st & Hj1 & Hrd & Hpr).
    destruct (update_registered job st w1 (u "failed") (progress st)
                (u "Content generation failed: " ++ exn_text e) None Hj1)
      as (w2 & Hrun & Hj2).
    assert (Hmf : mark_failed job e w1 = (Ok tt, w2)).
    { unfold mark_failed, bind. unfold get_job at 1. rewrite Hj1. exact Hrun. }
    rewrite Hmf. split; [reflexivity|].
    eexists. split; [exact Hj2|]. right.
    split; [reflexivity|]. split; [exact Hrd|exact Hpr].
Qed.

Lemma registered_job_completes_or_fails_witness :
  let w := (generate_content (u "job-1") gravity_request empty_world).2 in
  let rw := process_content_generation (H := ascii_runtime) offline_app
              (u "job-1") gravity_request w in
  rw.1 = Ok tt
  /\ exists st,
       processing_jobs rw.2 !! u "job-1" = Some st
       /\ ((exists audio_path video_path sections,
              st = completed_status (started_status (u "job-1")) (u "job-1")
                     audio_path video_path sections)
           \/ (status st = u "failed"
               /\ result_data st = result_data (started_status (u "job-1"))
               /\ progress st ∈ [10; 30; 50; 80]%Z)).
Proof.
  intros w rw.
  apply (registered_job_completes_or_fails ascii_runtime offline_app (u "job-1")
           gravity_request w (started_status (u "job-1"))).
  vm_compute. reflexivity.
Defined.

(** ** JobCoordinator: one job does not disturb another *)

Lemma others_kept_quiet {A} (job : str) (m : M A) : quiet m -> others_kept job m.
Proof. intros Hq w other _. destruct (Hq w) as [Hjobs _]. rewrite Hjobs. reflexivity. Qed.

Lemma others_kept_bind {A B} (job : str) (m : M A) (k : A -> M B) :
  others_kept job m -> (forall a, others_kept job (k a)) -> others_kept job (bind m k).
Proof.
  intros Hm Hk w other Hne. unfold bind.
  specialize (Hm w other Hne). destruct (m w) as [[a|e] w1]; cbn [snd] in *.
  - rewrite (Hk a w1 other Hne). exact Hm.
  - exact Hm.
Qed.

Lemma others_kept_try_except {A} (job : str) (m : M A) (h : exn -> M A) :
  others_kept job m -> (forall e, others_kept job (h e)) ->
  others_kept job (try_except m h).
Proof.
  intros Hm Hh w other Hne. unfold try_except.
  specialize (Hm w other Hne). destruct (m w) as [[a|e] w1]; cbn [snd] in *.
  - exact Hm.
  - rewrite (Hh e w1 other Hne). exact Hm.
Qed.

Lemma others_kept_get_job (job : str) : others_kept job (get_job job).
Proof.
  intros w other _. unfold get_job. destruct (processing_jobs w !! job); reflexivity.
Qed.

Lemma others_kept_update (job s : str) (p : Z) (m : str) (r : option json) :
  others_kept job (job_update_status job s p m r).
Proof.
  apply others_kept_bind; [apply others_kept_get_job|].
  intros st w other Hne. unfold set_job. cbn [snd processing_jobs].
  apply lookup_insert_ne. congruence.
Qed.

Ltac others_step :=
  first [ apply others_kept_quiet; solve [auto with quiet]
        | apply others_kept_update
        | apply others_kept_bind; [|intros ?] ].

(** X16. The background task of a job changes the registry entry of no
    other job, whatever its stages do and whether or not it fails. *)
Theorem other_jobs_untouched :
  forall (R : PyRuntime) (app : App) (job other : str) (request : TopicRequest)
         (w : World),
    other <> job ->
    processing_jobs (process_content_generation app job request w).2 !! other
    = processing_jobs w !! other.
Proof.
  intros R app job other request w Hne. revert w other Hne.
  change (others_kept job (process_content_generation app job request)).
  unfold process_content_generation. apply others_kept_try_except.
  - unfold process_steps. repeat others_step.
  - intros e. unfold mark_failed.
    apply others_kept_bind; [apply others_kept_get_job|intros st].
    apply others_kept_update.
Qed.

Lemma other_jobs_untouched_witness :
  let w := (generate_content (u "job-2") gravity_request
              (generate_content (u "job-1") gravity_request empty_world).2).2 in
  processing_jobs (process_content_generation (H := ascii_runtime) offline_app
                     (u "job-1") gravity_request w).2 !! u "job-2"
  = processing_jobs w !! u "job-2".
Proof.
  intros w.
  apply (other_jobs_untouched ascii_runtime offline_app (u "job-1") (u "job-2")
           gravity_request w).
  apply (bool_decide_unpack _). vm_compute. exact I.
Defined.

(** ** JobCoordinator: the download endpoints *)

Lemma str_eqb_false (s t : str) : str_eqb s t = false -> s <> t.
Proof. intros Hf He. apply str_eqb_eq in He. congruence. Qed.

Lemma exists_true (p : str) (w : World) :
  bool_decide (is_Some (files w !! p)) = true <-> is_Some (files w !! p).
Proof. apply bool_decide_eq_true. Qed.

Lemma serve_path (q p : str) (w : World) :
  let rw := (if bool_decide (is_Some (files w !! q)) then ret q
             else raise (HTTPException 404 (u "File not found"))) w in
  rw.2 = w /\ (rw.1 = Ok p <-> is_Some (files w !! p) /\ p = q).
Proof.
  destruct (bool_decide (is_Some (files w !! q))) eqn:Hq; unfold ret, raise; cbn [fst snd].
  - split; [reflexivity|]. apply exists_true in Hq. split.
    + intros Hp. inversion Hp; subst. split; [exact Hq|reflexivity].
    + intros [_ ->]. reflexivity.
  - split; [reflexivity|]. split; [discriminate|].
    intros [Hp ->]. apply exists_true in Hp. congruence.
Qed.

(** X17. The download endpoint changes nothing, and it returns a path
    exactly when the job is registered with status [completed], the file
    type is [audio], [video] or [text], and the file of that type exists
    under [./outputs/<job>/]; the path returned is that file's. *)
Theorem download_file_serves_completed_jobs_only :
  forall (job file_type : str) (w : World) (p : str),
    (download_file job file_type w).2 = w
    /\ ((download_file job file_type w).1 = Ok p
        <-> exists st,
              processing_jobs w !! job = Some st
              /\ status st = u "completed"
              /\ is_Some (files w !! p)
              /\ ((file_type = u "audio"
                   /\ p = (u "./outputs/" ++ job) ++ u "/narration.wav")
                  \/ (file_type = u "video"
                      /\ p = (u "./outputs/" ++ job) ++ u "/final_video.mp4")
                  \/ (file_type = u "text"
                      /\ p = (u "./outputs/" ++ job) ++ u "/explanation.txt"))).
Proof.
  intros job file_type w p.
  unfold download_file, bind, get_processing_status.
  destruct (processing_jobs w !! job) as [st|] eqn:Hj.
  2:{ split; [reflexivity|]. split; [discriminate|]. intros (? & ? & _). discriminate. }
  destruct (str_eqb (status st) (u "completed")) eqn:Hst; cbn [negb].
  2:{ split; [reflexivity|]. split; [discriminate|].
      intros (st' & Hst' & Hc & _). inversion Hst'; subst st'.
      apply str_eqb_eq in Hc. congruence. }
  apply str_eqb_eq in Hst.
  destruct (str_eqb file_type (u "audio")) eqn:Ha.
  { apply str_eqb_eq in Ha.
    destruct (serve_path ((u "./outputs/" ++ job) ++ u "/narration.wav") p w)
      as [Hw Hiff].
    split; [exact Hw|]. etransitivity; [exact Hiff|]. split.
    - intros [Hp Hq]. exists st.
      split; [reflexivity|]. split; [exact Hst|]. split; [exact Hp|].
      left. split; [exact Ha|exact Hq].
    - intros (_ & _ & _ & Hp & [[_ Hq]|[[Hx _]|[Hx _]]]);
        [split; assumption|subst; discriminate..]. }
  destruct (str_eqb file_type (u "video")) eqn:Hv.
  { apply str_eqb_eq in Hv.
    destruct (serve_path ((u "./outputs/" ++ job) ++ u "/final_video.mp4") p w)
      as [Hw Hiff].
    split; [exact Hw|]. etransitivity; [exact Hiff|]. split.
    - intros [Hp Hq]. exists st.
      split; [reflexivity|]. split; [exact Hst|]. split; [exact Hp|].
      right; left. split; [exact Hv|exact Hq].
    - intros (_ & _ & _ & Hp & [[Hx _]|[[_ Hq]|[Hx _]]]);
        [|split; assumption|]; subst; discriminate. }
  destruct (str_eqb file_type (u "text")) eqn:Ht.
  { apply str_eqb_eq in Ht.
    destruct (serve_path ((u "./outputs/" ++ job) ++ u "/explanation.txt") p w)
      as [Hw Hiff].
    split; [exact Hw|]. etransitivity; [exact Hiff|]. split.
    - intros [Hp Hq]. exists st.
      split; [reflexivity|]. split; [exact Hst|]. split; [exact Hp|].
      right; right. split; [exact Ht|exact Hq].
    - intros (_ & _ & _ & Hp & [[Hx _]|[[Hx _]|[_ Hq]]]);
        [| |split; assumption]; subst; discriminate. }
  split; [reflexivity|]. split; [discriminate|].
  apply str_eqb_false in Ha, Hv, Ht.
  intros (_ & _ & _ & _ & [[Hx _]|[[Hx _]|[Hx _]]]); contradiction.
Qed.

(** X18. The video endpoint and the download endpoint asked for [video]
    agree: they return the same path, or they refuse with the same HTTP
    status code. *)
Theorem get_video_agrees_with_download :
  forall (job : str) (w : World),
    match (get_video job w).1, (download_file job (u "video") w).1 with
    | Ok p, Ok q => p = q
    | Raise (HTTPException c _), Raise (HTTPException d _) => c = d
    | _, _ => False
    end.
Proof.
  intros job w.
  assert (Ha : str_eqb (u "video") (u "audio") = false) by (vm_compute; reflexivity).
  assert (Hv : str_eqb (u "video") (u "video") = true) by (vm_compute; reflexivity).
  unfold get_video, download_file, bind, get_processing_status.
  rewrite Ha, Hv, (List.app_assoc (u "./outputs/") job (u "/final_video.mp4")).
  destruct (processing_jobs w !! job) as [st|]; [|reflexivity].
  destruct (str_eqb (status st) (u "completed")); cbn [negb]; [|reflexivity].
  unfold ret, raise, exists_. cbv beta iota. cbn [fst].
  destruct (bool_decide _); cbv beta iota; cbn [fst]; reflexivity.
Qed.

(** ** JobCoordinator: the explanation file and the slides *)




(** X20. When the loop over the sections gets through, it has made one
    slide per section, in the order of the sections: the slide at position
    [k] is the one the animation service returned for section [k], called
    with the index [k], and every section was a dict. *)
Theorem animate_sections_one_slide_per_section :
  forall (env : Env) (output_dir : str) (sections : list json) (i : nat)
         (w w' : World) (animation_paths : list str),
    animate_sections env output_dir i sections w = (Ok animation_paths, w') ->
    length animation_paths = length sections
    /\ forall (k : nat) (section_data : json),
         sections !! k = Some section_data ->
         (exists kv, section_data = JDict kv)
         /\ exists made,
              create_section_animation env (i + k) section_data output_dir = Ok made
              /\ animation_paths !! k = Some made.1.
Proof.
  intros env dir sections. induction sections as [|s sections IH];
    intros i w w' paths Hrun.
  - inversion Hrun. split; [reflexivity|]. intros k sd Hk. inversion Hk.
  - revert Hrun. cbn [animate_sections]. unfold bind at 1, lift at 1.
    destruct (py_dot_get s (u "title") JNull) as [t|e] eqn:Ht; [|intros Hr; inversion Hr].
    unfold bind at 1, lift at 1.
    destruct (create_section_animation env i s dir) as [made|e] eqn:Hmade;
      [|intros Hr; inversion Hr].
    unfold bind at 1.
    destruct (wrote_file By_animation made.1 made.2 w) as [[[]|e] w1] eqn:Hw;
      [|intros Hr; inversion Hr].
    unfold bind at 1.
    destruct (animate_sections env dir (S i) sections w1) as [[others|e] w2] eqn:Hrest;
      [|intros Hr; inversion Hr].
    unfold ret. intros Hr. inversion Hr; subst paths w'. clear Hr.
    destruct (IH _ _ _ _ Hrest) as [Hlen Hall].
    split; [cbn [length]; rewrite Hlen; reflexivity|].
    intros [|k] sd Hk.
    + inversion Hk; subst sd. split.
      * destruct s; try discriminate Ht. eexists. reflexivity.
      * exists made. rewrite Nat.add_0_r. split; [exact Hmade|reflexivity].
    + destruct (Hall k sd Hk) as [Hd (made' & Hm' & Hp')]. split; [exact Hd|].
      exists made'. rewrite Nat.add_succ_r. split; [exact Hm'|exact Hp'].
Qed.

Lemma animate_sections_one_slide_per_section_witness :
  let sections := [JDict [(u "title", JStr (u "One"))]; JDict []] in
  let rw := animate_sections all_tools_env (u "./outputs/job-1") 0 sections empty_world in
  length (match rw.1 with Ok paths => paths | Raise _ => [] end) = length sections
  /\ forall (k : nat) (section_data : json),
       sections !! k = Some section_data ->
       (exists kv, section_data = JDict kv)
       /\ exists made,
            create_section_animation all_tools_env (0 + k) section_data
              (u "./outputs/job-1") = Ok made
            /\ (match rw.1 with Ok paths => paths | Raise _ => [] end) !! k = Some made.1.
Proof.
  intros sections rw.
  apply (animate_sections_one_slide_per_section all_tools_env (u "./outputs/job-1")
           sections 0 empty_world rw.2).
  vm_compute. reflexivity.
Defined.

(** ** ContentGenerator: what formatting leaves alone *)

Lemma dict_set_keys (k : str) (v : json) (kv : list (str * json)) :
  is_Some (dict_get k kv) -> map fst (dict_set k v kv) = map fst kv.
Proof.
  induction kv as [|[k' v'] kv IH]; cbn [dict_get dict_set].
  - intros [x Hx]. discriminate Hx.
  - destruct (str_eqb k k') eqn:E.
    + intros _. apply str_eqb_eq in E. subst k'. reflexivity.
    + intros Hs. cbn [map fst]. rewrite (IH Hs). reflexivity.
Qed.

Lemma formatted_from_refl (kv : list (str * json)) : formatted_from kv kv.
Proof. split; [reflexivity|]. intros; reflexivity. Qed.

Lemma formatted_from_set (k0 : str) (v : json) (kv0 kv : list (str * json)) :
  k0 = u "sections" \/ k0 = u "full_explanation" ->
  formatted_from kv0 kv ->
  is_Some (dict_get k0 kv) ->
  formatted_from kv0 (dict_set k0 v kv).
Proof.
  intros Hk0 [Hkeys Hvals] Hs. split.
  - rewrite dict_set_keys by exact Hs. exact Hkeys.
  - intros k Hk1 Hk2. rewrite dict_get_set_other.
    + apply Hvals; assumption.
    + destruct Hk0 as [-> | ->]; assumption.
Qed.

(** X21. Formatting a decoded reply that is an object neither adds nor
    removes nor reorders its keys, and it changes no value other than
    those under [sections] and [full_explanation]. *)
Theorem enhance_content_formatting_keeps_other_fields :
  forall (R : PyRuntime) (kv : list (str * json)) (topic : str) (b : json),
    _enhance_content_formatting (JDict kv) topic = Ok b ->
    exists kv', b = JDict kv' /\ formatted_from kv kv'.
Proof.
  intros R kv topic b. unfold _enhance_content_formatting. intros Hb.
  apply res_bind_Ok in Hb as (has & Hin & Hb).
  apply res_bind_Ok in Hb as (data1 & Hdata1 & Hb).
  assert (H1 : exists kv1, data1 = JDict kv1 /\ formatted_from kv kv1).
  { cbn [py_in] in Hin. inversion Hin as [Hhas]. clear Hin.
    destruct (bool_decide (is_Some (dict_get (u "sections") kv))) eqn:Hs;
      subst has.
    2:{ inversion Hdata1. exists kv. split; [reflexivity|apply formatted_from_refl]. }
    apply bool_decide_eq_true in Hs.
    apply res_bind_Ok in Hdata1 as (secs & Hget & Hdata1).
    apply res_bind_Ok in Hdata1 as (items & Hit & Hdata1).
    apply res_bind_Ok in Hdata1 as (items' & Hmap & Hdata1).
    destruct secs; cbn [py_setitem] in Hdata1; inversion Hdata1;
      try (exists kv; split; [reflexivity|apply formatted_from_refl]).
    eexists. split; [reflexivity|].
    apply formatted_from_set; [left; reflexivity|apply formatted_from_refl|exact Hs]. }
  destruct H1 as (kv1 & -> & Hfrom).
  apply res_bind_Ok in Hb as (has_full & Hin2 & Hb).
  cbn [py_in] in Hin2. inversion Hin2 as [Hhas]. clear Hin2.
  destruct (bool_decide (is_Some (dict_get (u "full_explanation") kv1))) eqn:Hs;
    subst has_full.
  2:{ inversion Hb. exists kv1. split; [reflexivity|exact Hfrom]. }
  apply bool_decide_eq_true in Hs.
  apply res_bind_Ok in Hb as (e & Hget & Hb).
  apply res_bind_Ok in Hb as (e' & Hfmt & Hb).
  cbn [py_setitem] in Hb. inversion Hb.
  eexists. split; [reflexivity|].
  apply formatted_from_set; [right; reflexivity|exact Hfrom|exact Hs].
Qed.

Lemma enhance_content_formatting_keeps_other_fields_witness :
  let kv := [ (u "summary", JStr (u "about gravity"));
              (u "full_explanation", JStr (u "gravity  pulls. ")) ] in
  exists kv',
    JDict [ (u "summary", JStr (u "about gravity"));
            (u "full_explanation", JStr (u "gravity pulls.")) ] = JDict kv'
    /\ formatted_from kv kv'.
Proof.
  intros kv.
  apply (enhance_content_formatting_keeps_other_fields ascii_runtime kv (u "Gravity")).
  vm_compute. reflexivity.
Defined.
